(** * rmnd_lca.electricity: the [Electricity] class, embedded and verified

    The Python class [Electricity] (src/rmnd_lca/electricity.py) rewrites the
    electricity markets of a life-cycle inventory from REMIND scenario data
    and rescales power-plant records.  This file embeds its methods as Rocq
    functions and states the properties of the specification over them.

    Conventions of the embedding.
    - A wurst database is a Python list of dicts: here a [list Dataset]; an
      exchange is a dict: here the record [Exchange], a key that may be
      absent being an [option] field.
    - Python [float] / [numpy.float64] values are of type [number]: a finite
      value is an exact rational ([Fin q], rounding is not modelled), the
      IEEE specials are kept ([Inf], [NaN]) since the code tests for NaN and
      numpy division by zero yields them.
    - A method that can raise or print runs in the monad [M]: the diagnostics
      printed so far, and either the exception raised or the value returned.
    - The geomatcher, the scenario tables (attribute [rmd]) and the lookup
      tables are the collaborators of the class: they are the fields of the
      record [Electricity]. *)

From Stdlib Require Import QArith Qabs Lqa DecimalString.
From stdpp Require Import gmap strings list.

Local Open Scope string_scope.
Local Open Scope list_scope.

(** ** Python strings *)

Module Str.

(** [sub in s] of Python: [sub] occurs in [s] as a contiguous block. *)
Fixpoint contains (sub s : string) : bool :=
  String.prefix sub s ||
  match s with
  | EmptyString => false
  | String _ s' => contains sub s'
  end.

(** Iterating over a [str] yields its characters as strings of length one. *)
Fixpoint chars (s : string) : list string :=
  match s with
  | EmptyString => []
  | String c s' => String c EmptyString :: chars s'
  end.

(** [any(stop in s for stop in stops)] *)
Definition contains_any (stops : list string) (s : string) : bool :=
  existsb (fun stop => contains stop s) stops.

Definition eqb (a b : string) : bool := String.eqb a b.

Definition mem (a : string) (l : list string) : bool := existsb (eqb a) l.

End Str.

(** ** Python numbers *)

Inductive number : Type :=
| Fin (q : Q)
| Inf (negative : bool)
| NaN.

Module Num.

Definition zero : number := Fin 0.

Definition is_nan (x : number) : bool :=
  match x with NaN => true | _ => false end.

(** [x == 0] : false on NaN and on the infinities. *)
Definition is_zero (x : number) : bool :=
  match x with Fin q => Qeq_bool q 0 | _ => false end.

(** [x != 0.0] : true on NaN. *)
Definition nonzero (x : number) : bool := negb (is_zero x).

Definition qneg (q : Q) : bool :=
  match Qcompare q 0 with Lt => true | _ => false end.

Definition add (x y : number) : number :=
  match x, y with
  | NaN, _ | _, NaN => NaN
  | Fin a, Fin b => Fin (a + b)%Q
  | Inf s, Fin _ | Fin _, Inf s => Inf s
  | Inf s, Inf t => if Bool.eqb s t then Inf s else NaN
  end.

Definition opp (x : number) : number :=
  match x with
  | Fin a => Fin (- a)%Q
  | Inf s => Inf (negb s)
  | NaN => NaN
  end.

Definition sub (x y : number) : number := add x (opp y).

Definition mul (x y : number) : number :=
  match x, y with
  | NaN, _ | _, NaN => NaN
  | Fin a, Fin b => Fin (a * b)%Q
  | Inf s, Fin a | Fin a, Inf s =>
      if Qeq_bool a 0 then NaN else Inf (xorb s (qneg a))
  | Inf s, Inf t => Inf (xorb s t)
  end.

(** Division as numpy does it: dividing by zero gives an infinity, or NaN
    for [0/0], and raises nothing. *)
Definition div (x y : number) : number :=
  match x, y with
  | NaN, _ | _, NaN => NaN
  | Fin a, Fin b =>
      if Qeq_bool b 0
      then (if Qeq_bool a 0 then NaN else Inf (qneg a))
      else Fin (a / b)%Q
  | Fin _, Inf _ => Fin 0
  | Inf s, Fin b => Inf (xorb s (qneg b))
  | Inf _, Inf _ => NaN
  end.

(** [sum(l)], from the left, starting at 0. *)
Definition sum (l : list number) : number := fold_left add l zero.

(** The same sum taken from the right. *)
Definition sum_r (l : list number) : number := fold_right add zero l.

(** Equality of values: rationals up to [Qeq]. *)
Definition eq (x y : number) : Prop :=
  match x, y with
  | Fin a, Fin b => (a == b)%Q
  | Inf s, Inf t => s = t
  | NaN, NaN => True
  | _, _ => False
  end.

(** [|x - y| <= tol] on finite values; false when either is not finite. *)
Definition within (tol : Q) (x y : number) : Prop :=
  match x, y with
  | Fin a, Fin b => (Qabs (a - b) <= tol)%Q
  | _, _ => False
  end.

End Num.

Infix "≈" := Num.eq (at level 70, no associativity).

(** ** Exceptions, diagnostics and the monad of the methods *)

Inductive exn : Type :=
| KeyError | TypeError | IndexError | ValueError | ZeroDivisionError
| NoResults | MultipleResults.

Inductive result (A : Type) : Type :=
| Return (a : A)
| Raise (e : exn).
Arguments Return {A} a.
Arguments Raise {A} e.

(** A key of the geomatcher: a plain location string, or a tuple
    [(namespace, name)] such as [('REMIND', 'EUR')]. *)
Inductive geo_key : Type :=
| Loc (s : string)
| Ns (namespace name : string).

(** What the methods print. *)
Inductive diagnostic : Type :=
| CantFindLocation (location : geo_key)
| NoLocFor (location : string)
| NanEmission (values : list number) (label name : string)
| Msg (text : string).

Definition M (A : Type) : Type := (list diagnostic * result A)%type.

Definition ret {A} (a : A) : M A := ([], Return a).
Definition raise {A} (e : exn) : M A := ([], Raise e).
Definition print (d : diagnostic) : M unit := ([d], Return tt).
Definition lift {A} (r : result A) : M A := ([], r).

Definition bind {A B} (c : M A) (k : A -> M B) : M B :=
  match c with
  | (out, Return a) => let '(out', r) := k a in (out ++ out', r)
  | (out, Raise e) => (out, Raise e)
  end.

Definition rbind {A B} (c : result A) (k : A -> result B) : result B :=
  match c with
  | Return a => k a
  | Raise e => Raise e
  end.

Declare Scope py_scope.
Delimit Scope py_scope with py.
Notation "x <- c ;; k" := (bind c (fun x => k))
  (at level 100, c at next level, right associativity) : py_scope.
Notation "x <~ c ;; k" := (rbind c (fun x => k))
  (at level 100, c at next level, right associativity) : py_scope.
Local Open Scope py_scope.

Definition output {A} (c : M A) : list diagnostic := fst c.
Definition outcome {A} (c : M A) : result A := snd c.

(** A [for] loop that threads an accumulator. *)
Fixpoint foldM {A S} (f : S -> A -> M S) (l : list A) (s : S) : M S :=
  match l with
  | [] => ret s
  | a :: l' => s' <- f s a ;; foldM f l' s'
  end.

(** A list comprehension whose body may raise. *)
Fixpoint mapR {A B} (f : A -> result B) (l : list A) : result (list B) :=
  match l with
  | [] => Return []
  | a :: l' => b <~ f a ;; bs <~ mapR f l' ;; Return (b :: bs)
  end.

(** ** Python values returned by the region resolver *)

Inductive pyobj : Type :=
| PyNone
| PyStr (s : string)
| PyList (l : list string).

(** [for loc in obj]: a list yields its items, a [str] its characters,
    [None] is not iterable. *)
Definition iterate (obj : pyobj) : result (list string) :=
  match obj with
  | PyNone => Raise TypeError
  | PyStr s => Return (Str.chars s)
  | PyList l => Return l
  end.

(** [obj[0]] *)
Definition subscript0 (obj : pyobj) : result string :=
  match obj with
  | PyNone => Raise TypeError
  | PyStr EmptyString => Raise IndexError
  | PyStr (String c _) => Return (String c EmptyString)
  | PyList [] => Raise IndexError
  | PyList (x :: _) => Return x
  end.

(** ** Data model: exchanges and datasets *)

Inductive exchange_type : Type := production | technosphere | biosphere.

Definition exchange_type_eqb (a b : exchange_type) : bool :=
  match a, b with
  | production, production | technosphere, technosphere
  | biosphere, biosphere => true
  | _, _ => false
  end.

Record Exchange : Type := {
  exc_type : exchange_type;
  exc_name : string;
  exc_product : option string;
  exc_unit : string;
  exc_location : option string;
  exc_amount : number;
  exc_loc : option number;
  uncertainty_type : option Z;
  production_volume : option number;
  exc_input : option (string * string);
  exc_categories : option (list string);
  exc_scale : option number;
  exc_shape : option number;
  exc_size : option number;
  exc_minimum : option number;
  exc_maximum : option number
}.

Record Dataset : Type := {
  ds_location : string;
  ds_name : string;
  reference_product : string;
  ds_unit : string;
  ds_database : string;
  ds_code : string;
  ds_comment : string;
  exchanges : list Exchange;
  (** [ds['parameters']]: a dict in insertion order, when the key is there *)
  parameters : option (list (string * number))
}.

(** The instance: its collaborators and tables. *)
Record Electricity : Type := {
  (** [self.geo.intersects] and [self.geo.within]; [Raise KeyError] when
      the geomatcher does not know the key *)
  geo_intersects : geo_key -> result (list geo_key);
  geo_within : geo_key -> result (list geo_key);
  (** [self.population], the counts already read as integers *)
  population : gmap string Z;
  scenario : string;
  year : Z;
  (** [self.fuels_lhv], the entries in iteration order, values as floats *)
  fuels_lhv : list (string * number);
  powerplant_map : gmap string (list string);
  emissions_map : gmap string string;
  (** [self.rmd.electricity_markets]: its coordinates and its values at
      time index 0 *)
  rmd_regions : list string;
  rmd_variables : list string;
  electricity_markets : string -> string -> number;
  rev_electricity_market_labels : gmap string string;
  (** [self.rmd.electricity_emissions.loc[dict(region=.., pollutant=..,
      sector=..)].values]: the array selected, for the region argument as
      the resolver returned it *)
  electricity_emissions : pyobj -> string -> string -> result (list number);
  electricity_emission_labels : gmap string string
}.

(** [d[k]] on a dict *)
Definition getitem {V} (d : gmap string V) (k : string) : result V :=
  match d !! k with
  | Some v => Return v
  | None => Raise KeyError
  end.

(** [str(n)] for an [int] *)
Definition str (n : Z) : string :=
  DecimalString.NilZero.string_of_int (Z.to_int n).

(** ** wurst.searching: the filters the class uses *)

Module ws.

(** [ws.technosphere(ds, *filters)]: the technosphere exchanges of [ds]
    that pass every filter *)
Definition technosphere_of (ds : Dataset) (filters : list (Exchange -> bool))
  : list Exchange :=
  List.filter (fun exc => exchange_type_eqb (exc_type exc) technosphere
                     && forallb (fun f => f exc) filters) (exchanges ds).

(** [ws.reference_product(ds)]: the one production exchange with a
    non-zero amount ([exc['amount'] and exc['type'] == 'production']);
    raises when there is none or more than one *)
Definition reference_product_of (ds : Dataset) : result Exchange :=
  match List.filter (fun exc => Num.nonzero (exc_amount exc)
                                && exchange_type_eqb (exc_type exc) production)
               (exchanges ds) with
  | [] => Raise NoResults
  | [exc] => Return exc
  | _ :: _ :: _ => Raise MultipleResults
  end.

End ws.

Section Methods.

Variable self : Electricity.

(** ** Region correspondence *)

(** [remind_to_ecoinvent_location]: the ecoinvent locations that intersect
    a REMIND region.  For "World" the method returns the string "GLO"; on a
    [KeyError] of the geomatcher it prints and returns nothing ([None]). *)
Definition remind_to_ecoinvent_location (location : string) : M pyobj :=
  if negb (Str.eqb location "World") then
    let location := Ns "REMIND" location in
    match geo_intersects self location with
    | Return rs =>
        ret (PyList (omap (fun r => match r with
                                    | Loc s => Some s
                                    | Ns _ _ => None
                                    end) rs))
    | Raise KeyError =>
        _ <- print (CantFindLocation location) ;; ret PyNone
    | Raise e => raise e
    end
  else ret (PyStr "GLO").

(** [r[0] == 'REMIND' and r[1] != 'World'] on an item of [geo.within]: on a
    tuple the two components; on a plain string [r[0]] is its first
    character, never 'REMIND', and the empty string has none. *)
Definition is_remind_region (r : geo_key) : result (option string) :=
  match r with
  | Ns ns name =>
      Return (if Str.eqb ns "REMIND" && negb (Str.eqb name "World")
              then Some name else None)
  | Loc EmptyString => Raise IndexError
  | Loc (String _ _) => Return None
  end.

(** [l.remove(x)]: drops the first occurrence *)
Fixpoint list_remove_first (x : string) (l : list string) : list string :=
  match l with
  | [] => []
  | y :: l' => if Str.eqb y x then l' else y :: list_remove_first x l'
  end.

(** The pairwise exclusions, in the order of the source: when both regions
    of an entry are present, the first is removed. *)
Definition priority_table : list (string * string) :=
  [ ("EUR", "NEU"); ("EUR", "REF"); ("OAS", "IND"); ("OAS", "JPN");
    ("AFR", "SSA"); ("USA", "CAZ"); ("OAS", "CHA"); ("AFR", "MEA");
    ("OAS", "MEA"); ("OAS", "REF"); ("OAS", "EUR") ].

(** [if len(set(l).intersection(set((a, b)))) == 2: l.remove(a)] *)
Definition apply_exclusion (l : list string) (entry : string * string)
  : list string :=
  let '(a, b) := entry in
  if Str.mem a l && Str.mem b l then list_remove_first a l else l.

(** [[r[1] for r in self.geo.within(location) if r[0] == 'REMIND' and
    r[1] != 'World']] *)
Definition remind_regions_within (location : string) : result (list string) :=
  rs <~ geo_within self (Loc location) ;;
  found <~ mapR is_remind_region rs ;;
  Return (omap id found).

(** [ecoinvent_to_remind_location]: the REMIND regions of an ecoinvent
    location.  When the geomatcher finds none the method prints and falls
    off its end: the caller receives [None]. *)
Definition ecoinvent_to_remind_location (location : string) : M pyobj :=
  if Str.eqb location "GLO" then ret (PyList ["World"])
  else if Str.eqb location "RoW" then ret (PyList ["CAZ"])
  else if Str.eqb location "IAI Area, Russia & RER w/o EU27 & EFTA"
  then ret (PyList ["REF"])
  else
    remind_location <- lift (remind_regions_within location) ;;
    if (1 <? length remind_location)%nat then
      ret (PyList (fold_left apply_exclusion priority_table remind_location))
    else if (length remind_location =? 0)%nat then
      _ <- print (NoLocFor location) ;; ret PyNone
    else ret (PyList remind_location).

(** ** Supplier resolution *)

(** [get_suppliers_of_a_region]: the datasets of [db] whose name is one of
    the technology names, whose location is one of the items of
    [ecoinvent_regions] and whose unit is 'kilowatt hour'. *)
Definition get_suppliers_of_a_region (db : list Dataset)
    (ecoinvent_regions : pyobj) (ecoinvent_technologies : list string)
  : result (list Dataset) :=
  locs <~ iterate ecoinvent_regions ;;
  Return (List.filter (fun ds =>
            existsb (fun supplier => Str.eqb (ds_name ds) supplier)
                    ecoinvent_technologies
            && existsb (fun loc => Str.eqb (ds_location ds) loc) locs
            && Str.eqb (ds_unit ds) "kilowatt hour") db).

(** The three lookups of the market builders: the region's own locations,
    then 'RER', then 'RoW'. *)
Definition suppliers_with_fallback (db : list Dataset)
    (ecoinvent_regions : pyobj) (ecoinvent_technologies : list string)
  : result (list Dataset) :=
  suppliers <~ get_suppliers_of_a_region db ecoinvent_regions
                 ecoinvent_technologies ;;
  suppliers <~ (if (length suppliers =? 0)%nat
                then get_suppliers_of_a_region db (PyList ["RER"])
                       ecoinvent_technologies
                else Return suppliers) ;;
  if (length suppliers =? 0)%nat
  then get_suppliers_of_a_region db (PyList ["RoW"]) ecoinvent_technologies
  else Return suppliers.

(** ** Population-weighted allocation *)

(** [int(self.population.get(loc, 0))] *)
Definition population_of (loc : string) : Z :=
  default 0%Z (population self !! loc).

(** The loop [for loc in suppliers: locs_population += ...] *)
Definition locs_population (suppliers : list Dataset) : Z :=
  fold_left (fun acc loc => (acc + population_of (ds_location loc))%Z)
            suppliers 0%Z.

(** [get_pop_weighted_share]: an [int / int] division, which raises on a
    zero divisor. *)
Definition get_pop_weighted_share (supplier : Dataset)
    (suppliers : list Dataset) : result number :=
  let loc_population := population_of (ds_location supplier) in
  let locs_population := locs_population suppliers in
  if (locs_population =? 0)%Z then Raise ZeroDivisionError
  else Return (Fin (inject_Z loc_population / inject_Z locs_population)).

(** ** Market composer *)

(** [uuid.uuid4().hex] and [uuid.uuid1().hex]: fresh identifiers, here
    drawn by the number of records already in the database. *)
Variable uuid4 uuid1 : nat -> string.

(** A technosphere or production exchange as the builders write it. *)
Definition market_exchange (type : exchange_type) (amount : number)
    (product name unit location : string) : Exchange :=
  {| uncertainty_type := Some 0%Z;
     exc_loc := Some amount;
     exc_amount := amount;
     exc_type := type;
     production_volume := Some (Fin 0);
     exc_product := Some product;
     exc_name := name;
     exc_unit := unit;
     exc_location := Some location;
     exc_input := None; exc_categories := None;
     exc_scale := None; exc_shape := None; exc_size := None;
     exc_minimum := None; exc_maximum := None |}.

(** The sulfur hexafluoride emission of the medium and low voltage markets. *)
Definition sf6_emission (amount : number) : Exchange :=
  {| uncertainty_type := Some 0%Z;
     exc_loc := Some amount;
     exc_amount := amount;
     exc_type := biosphere;
     exc_input := Some ("biosphere3", "35d1dff5-b535-4628-9826-4a8fce08a1f2");
     exc_name := "Sulfur hexafluoride";
     exc_unit := "kilogram";
     exc_categories := Some ["air"; "non-urban air or from high stacks"];
     production_volume := None; exc_product := None; exc_location := None;
     exc_scale := None; exc_shape := None; exc_size := None;
     exc_minimum := None; exc_maximum := None |}.

Definition market_name (tier : string) : string :=
  "market group for electricity, " +:+ tier +:+ " voltage, "
    +:+ scenario self +:+ ", " +:+ str (year self).

Definition market_product (tier : string) : string :=
  "electricity, " +:+ tier +:+ " voltage".

(** [self.db[1]['database']] *)
Definition db_database (db : list Dataset) : result string :=
  match nth_error db 1 with
  | Some ds => Return (ds_database ds)
  | None => Raise IndexError
  end.

Definition new_dataset (region tier database code : string)
    (new_exchanges : list Exchange) : Dataset :=
  {| ds_location := region;
     ds_name := market_name tier;
     reference_product := market_product tier;
     ds_unit := "kilowatt hour";
     ds_database := database;
     ds_code := code;
     ds_comment := "Dataset produced from REMIND scenario output results";
     exchanges := new_exchanges;
     parameters := None |}.

(** The loop [for supplier in suppliers]: one technosphere exchange for
    each supplier, of amount [amount * share]. *)
Definition supplier_exchanges (amount : number) (suppliers : list Dataset)
  : result (list Exchange) :=
  mapR (fun supplier =>
          share <~ get_pop_weighted_share supplier suppliers ;;
          Return (market_exchange technosphere (Num.mul amount share)
                    (reference_product supplier) (ds_name supplier)
                    (ds_unit supplier) (ds_location supplier)))
       suppliers.

(** The exchanges that one technology adds to the market of [region], when
    it contributes to the mix. *)
Definition technology_exchanges (db : list Dataset) (ecoinvent_regions : pyobj)
    (technology region : string) : result (list Exchange) :=
  let amount := electricity_markets self technology region in
  label <~ getitem (rev_electricity_market_labels self) technology ;;
  ecoinvent_technologies <~ getitem (powerplant_map self) label ;;
  suppliers <~ suppliers_with_fallback db ecoinvent_regions
                 ecoinvent_technologies ;;
  supplier_exchanges amount suppliers.

Definition high_voltage_technologies : list string :=
  List.filter (fun tech => negb (Str.contains "Solar" tech)) (rmd_variables self).

Definition solar_technologies : list string :=
  List.filter (fun tech => Str.contains "Solar" tech) (rmd_variables self).

(** The body of the loop over the technologies of the high voltage
    builder. *)
Definition add_technology (db : list Dataset) (ecoinvent_regions : pyobj)
    (region : string) (new_exchanges : list Exchange) (technology : string)
  : M (list Exchange) :=
  if Num.nonzero (electricity_markets self technology region) then
    added <- lift (technology_exchanges db ecoinvent_regions
                     technology region) ;;
    ret (new_exchanges ++ added)
  else ret new_exchanges.

(** One iteration of the loop over regions of
    [create_new_markets_high_voltage]. *)
Definition high_voltage_market (db : list Dataset) (region : string)
  : M (list Dataset) :=
  ecoinvent_regions <- remind_to_ecoinvent_location region ;;
  database <- lift (db_database db) ;;
  let code := uuid4 (length db) in
  let first := [market_exchange production (Fin 1) (market_product "high")
                  (market_name "high") "kilowatt hour" region] in
  new_exchanges <-
    foldM (add_technology db ecoinvent_regions region)
          high_voltage_technologies first ;;
  ret (db ++ [new_dataset region "high" database code new_exchanges]).

Definition create_new_markets_high_voltage (db : list Dataset)
  : M (list Dataset) :=
  foldM high_voltage_market (rmd_regions self) db.

Definition medium_voltage_exchanges (region : string) : list Exchange :=
  [ market_exchange production (Fin 1) (market_product "medium")
      (market_name "medium") "kilowatt hour" region;
    market_exchange technosphere (Fin 1.0062) (market_product "high")
      (market_name "high") "kilowatt hour" region;
    market_exchange technosphere (Fin 0.0041) (market_product "medium")
      (market_name "medium") "kilowatt hour" region;
    market_exchange technosphere (Fin 5.4e-8) "sulfur hexafluoride, liquid"
      "market for sulfur hexafluoride, liquid" "kilogram" "RoW";
    sf6_emission (Fin 5.4e-8);
    market_exchange technosphere (Fin 1.8628e-8)
      "transmission network, electricity, medium voltage"
      "transmission network construction, electricity, medium voltage"
      "kilometer" "RoW" ].

Definition medium_voltage_market (db : list Dataset) (region : string)
  : M (list Dataset) :=
  database <- lift (db_database db) ;;
  let code := uuid1 (length db) in
  ret (db ++ [new_dataset region "medium" database code
                (medium_voltage_exchanges region)]).

Definition create_new_markets_medium_voltage (db : list Dataset)
  : M (list Dataset) :=
  foldM medium_voltage_market (rmd_regions self) db.

(** The body of the loop over the solar technologies of the low voltage
    builder: the exchanges and the running [solar_amount]. *)
Definition add_solar_technology (db : list Dataset) (region : string)
    (acc : number * list Exchange) (technology : string)
  : M (number * list Exchange) :=
  let '(solar_amount, new_exchanges) := acc in
  if Num.nonzero (electricity_markets self technology region) then
    ecoinvent_regions <- remind_to_ecoinvent_location region ;;
    let amount := electricity_markets self technology region in
    added <- lift (technology_exchanges db ecoinvent_regions
                     technology region) ;;
    ret (Num.add solar_amount amount, new_exchanges ++ added)
  else ret acc.

Definition low_voltage_first (region : string) : list Exchange :=
  [ market_exchange production (Fin 1) (market_product "low")
      (market_name "low") "kilowatt hour" region;
    market_exchange technosphere (Fin 2.99e-9) "sulfur hexafluoride, liquid"
      "market for sulfur hexafluoride, liquid" "kilogram" "RoW";
    sf6_emission (Fin 2.99e-9);
    market_exchange technosphere (Fin 8.74e-8)
      "distribution network, electricity, low voltage"
      "distribution network construction, electricity, low voltage"
      "kilometer" "RoW" ].

Definition low_voltage_last (region : string) (solar_amount : number)
  : list Exchange :=
  [ market_exchange technosphere
      (Num.mul (Num.sub (Fin 1) solar_amount) (Fin 1.0276))
      (market_product "medium") (market_name "medium") "kilowatt hour"
      region;
    market_exchange technosphere (Fin 0.0298) (market_product "low")
      (market_name "low") "kilowatt hour" region ].

Definition low_voltage_market (db : list Dataset) (region : string)
  : M (list Dataset) :=
  database <- lift (db_database db) ;;
  let code := uuid4 (length db) in
  acc <- foldM (add_solar_technology db region) solar_technologies
           (Fin 0, low_voltage_first region) ;;
  let '(solar_amount, new_exchanges) := acc in
  ret (db ++ [new_dataset region "low" database code
                (new_exchanges ++ low_voltage_last region solar_amount)]).

Definition create_new_markets_low_voltage (db : list Dataset)
  : M (list Dataset) :=
  foldM low_voltage_market (rmd_regions self) db.

(** ** Relinking *)

(** [exc['name'] = ..; exc['product'] = ..; exc['location'] = ..] *)
Definition set_link (exc : Exchange) (name product location : string)
  : Exchange :=
  {| exc_type := exc_type exc;
     exc_name := name;
     exc_product := Some product;
     exc_unit := exc_unit exc;
     exc_location := Some location;
     exc_amount := exc_amount exc;
     exc_loc := exc_loc exc;
     uncertainty_type := uncertainty_type exc;
     production_volume := production_volume exc;
     exc_input := exc_input exc;
     exc_categories := exc_categories exc;
     exc_scale := exc_scale exc;
     exc_shape := exc_shape exc;
     exc_size := exc_size exc;
     exc_minimum := exc_minimum exc;
     exc_maximum := exc_maximum exc |}.

(** [exc[key]] for a key that may be absent *)
Definition item {A} (field : option A) : result A :=
  match field with
  | Some v => Return v
  | None => Raise KeyError
  end.

(** One of the three [if "high" in exc['product']: ...] statements. *)
Definition relink_tier (tier : string) (exc : Exchange) : M Exchange :=
  product <- lift (item (exc_product exc)) ;;
  if Str.contains tier product then
    location <- lift (item (exc_location exc)) ;;
    regions <- ecoinvent_to_remind_location location ;;
    region <- lift (subscript0 regions) ;;
    ret (set_link exc (market_name tier) (market_product tier) region)
  else ret exc.

(** The filter of the inner [ws.get_many]: [x.get(field, '')] contains the
    value, for one of the four patterns. *)
Definition electricity_filter (exc : Exchange) : bool :=
  Str.contains "kilowatt hour" (exc_unit exc)
  || Str.contains "market for electricity" (exc_name exc)
  || Str.contains "electricity voltage transformation" (exc_name exc)
  || Str.contains "market group for electricity" (exc_name exc).

(** The guard [exc['type'] != 'production' and exc['unit'] == 'kilowatt hour'] *)
Definition relink_guard (exc : Exchange) : bool :=
  negb (exchange_type_eqb (exc_type exc) production)
  && Str.eqb (exc_unit exc) "kilowatt hour".

Definition relink_exchange (exc : Exchange) : M Exchange :=
  if electricity_filter exc && relink_guard exc then
    exc <- relink_tier "high" exc ;;
    exc <- relink_tier "medium" exc ;;
    relink_tier "low" exc
  else ret exc.

Fixpoint mapM {A B} (f : A -> M B) (l : list A) : M (list B) :=
  match l with
  | [] => ret []
  | a :: l' => b <- f a ;; bs <- mapM f l' ;; ret (b :: bs)
  end.

Definition set_exchanges (ds : Dataset) (excs : list Exchange) : Dataset :=
  {| ds_location := ds_location ds;
     ds_name := ds_name ds;
     reference_product := reference_product ds;
     ds_unit := ds_unit ds;
     ds_database := ds_database ds;
     ds_code := ds_code ds;
     ds_comment := ds_comment ds;
     exchanges := excs;
     parameters := parameters ds |}.

Definition relink_dataset (ds : Dataset) : M Dataset :=
  if negb (Str.contains "market group for electricity" (ds_name ds)) then
    excs <- mapM relink_exchange (exchanges ds) ;;
    ret (set_exchanges ds excs)
  else ret ds.

(** [relink_activities_to_new_markets]: the exchanges are rewritten in
    place; the database after the call is returned. *)
Definition relink_activities_to_new_markets (db : list Dataset)
  : M (list Dataset) :=
  mapM relink_dataset db.

(** ** The market update *)

Definition list_to_remove : list string :=
  [ "market group for electricity, high voltage";
    "market group for electricity, medium voltage";
    "market group for electricity, low voltage";
    "market for electricity, high voltage";
    "market for electricity, medium voltage";
    "market for electricity, low voltage";
    "electricity, high voltage, import";
    "electricity, high voltage, production mix" ].

(** [[i for i in self.db if not any(stop in i['name'] for stop in
    list_to_remove)]] *)
Definition remove_old_markets (db : list Dataset) : list Dataset :=
  List.filter (fun i => negb (Str.contains_any list_to_remove (ds_name i))) db.

Definition update_electricity_markets (db : list Dataset)
  : M (list Dataset) :=
  _ <- print (Msg "Remove old electricity datasets") ;;
  let db := remove_old_markets db in
  _ <- print (Msg "Create high voltage markets.") ;;
  db <- create_new_markets_high_voltage db ;;
  _ <- print (Msg "Create medium voltage markets.") ;;
  db <- create_new_markets_medium_voltage db ;;
  _ <- print (Msg "Create low voltage markets.") ;;
  db <- create_new_markets_low_voltage db ;;
  _ <- print (Msg "Link activities to new electricity markets.") ;;
  relink_activities_to_new_markets db.

(** ** Efficiency of a power plant *)

Definition set_parameters (ds : Dataset) (ps : list (string * number))
  : Dataset :=
  {| ds_location := ds_location ds;
     ds_name := ds_name ds;
     reference_product := reference_product ds;
     ds_unit := ds_unit ds;
     ds_database := ds_database ds;
     ds_code := ds_code ds;
     ds_comment := ds_comment ds;
     exchanges := exchanges ds;
     parameters := Some ps |}.

(** [d[k] = v] on a dict kept in insertion order *)
Fixpoint dict_set (d : list (string * number)) (k : string) (v : number)
  : list (string * number) :=
  match d with
  | [] => [(k, v)]
  | (k', v') :: d' =>
      if Str.eqb k' k then (k, v) :: d' else (k', v') :: dict_set d' k v
  end.

Definition not_allowed : list string := ["thermal"].

(** ['efficiency' in key and not any(item in key for item in not_allowed)] *)
Definition efficiency_key (key : string) : bool :=
  Str.contains "efficiency" key
  && negb (existsb (fun item => Str.contains item key) not_allowed).

(** The energy input of an ecoinvent dataset: for each fuel of the heating
    value table, the fuel exchanges whose name contains the fuel's label. *)
Definition ecoinvent_energy_input (ds : Dataset)
    (fuel_filters : list (Exchange -> bool)) : number :=
  Num.sum (concat
    (map (fun '(k, lhv) =>
            map (fun exc => Num.mul (Num.div lhv (Fin 3.6)) (exc_amount exc))
                (List.filter (fun exc => Str.contains k (exc_name exc))
                        (ws.technosphere_of ds fuel_filters)))
         (fuels_lhv self))).

(** The energy input of a dataset of another database. *)
Definition other_energy_input (ds : Dataset)
    (fuel_filters : list (Exchange -> bool)) : number :=
  Num.sum (map (fun exc => Num.div (exc_amount exc) (Fin 3.6))
               (ws.technosphere_of ds fuel_filters)).

(** [find_ecoinvent_fuel_efficiency]: the value returned and the dataset
    after the call (the derived value is stored in its parameters). *)
Definition find_ecoinvent_fuel_efficiency (ds : Dataset)
    (fuel_filters : list (Exchange -> bool)) : result (number * Dataset) :=
  if Str.contains "ecoinvent" (ds_database ds) then
    params <~ item (parameters ds) ;;
    match List.filter (fun kv => efficiency_key (fst kv)) params with
    | (_, v) :: _ => Return (v, ds)
    | [] =>
        let energy_input := ecoinvent_energy_input ds fuel_filters in
        ref <~ ws.reference_product_of ds ;;
        let efficiency := Num.div (exc_amount ref) energy_input in
        Return (efficiency,
                set_parameters ds (dict_set params "efficiency" efficiency))
    end
  else
    let energy_input := other_energy_input ds fuel_filters in
    ref <~ ws.reference_product_of ds ;;
    let efficiency := Num.div (exc_amount ref) energy_input in
    Return (efficiency, set_parameters ds [("efficiency", efficiency)]).

(** ** Emission rescaling *)

(** [wurst.rescale_exchange(exc, value, remove_uncertainty)]: the amount is
    multiplied by [value]; with [remove_uncertainty] the uncertainty type is
    set to 0, 'loc' to the new amount, and the fields 'shape', 'size',
    'minimum' and 'maximum' are deleted.  The field 'scale' is not among
    the fields deleted: it is kept. *)
Definition rescale_exchange (exc : Exchange) (value : number)
    (remove_uncertainty : bool) : Exchange :=
  let amount := Num.mul (exc_amount exc) value in
  {| exc_type := exc_type exc;
     exc_name := exc_name exc;
     exc_product := exc_product exc;
     exc_unit := exc_unit exc;
     exc_location := exc_location exc;
     exc_amount := amount;
     exc_loc := if remove_uncertainty then Some amount else exc_loc exc;
     uncertainty_type :=
       if remove_uncertainty then Some 0%Z else uncertainty_type exc;
     production_volume := production_volume exc;
     exc_input := exc_input exc;
     exc_categories := exc_categories exc;
     exc_scale := exc_scale exc;
     exc_shape := if remove_uncertainty then None else exc_shape exc;
     exc_size := if remove_uncertainty then None else exc_size exc;
     exc_minimum := if remove_uncertainty then None else exc_minimum exc;
     exc_maximum := if remove_uncertainty then None else exc_maximum exc |}.

(** The default of the keyword [remove_uncertainty] in wurst. *)
Definition remove_uncertainty_default : bool := true.

(** [if np.isnan(a):] on an array: the truth value of its only element;
    an array of several elements has none; an empty one counts as false. *)
Definition truth_of_isnan (a : list number) : result bool :=
  match a with
  | [] => Return false
  | [x] => Return (Num.is_nan x)
  | _ :: _ :: _ => Raise ValueError
  end.

(** [a[0]] on an array *)
Definition first_value (a : list number) : result number :=
  match a with
  | [] => Raise IndexError
  | x :: _ => Return x
  end.

(** The filter of the loop: the exchange's name contains one of the keys
    of [self.emissions_map]. *)
Definition emission_filter (exc : Exchange) : bool :=
  existsb (fun kv => Str.contains (fst kv) (exc_name exc))
          (map_to_list (emissions_map self)).

(** The body of the loop over the biosphere exchanges of
    [update_electricity_efficiency] for one exchange [exc] of the dataset
    [ds] (lines 895-907). *)
Definition rescale_emission (remind_technology : string) (ds : Dataset)
    (exc : Exchange) : M Exchange :=
  remind_emission_label <- lift (getitem (emissions_map self) (exc_name exc)) ;;
  region <- ecoinvent_to_remind_location (ds_location ds) ;;
  sector <- lift (getitem (electricity_emission_labels self)
                          remind_technology) ;;
  remind_emission <- lift (electricity_emissions self region
                             remind_emission_label sector) ;;
  nan <- lift (truth_of_isnan remind_emission) ;;
  _ <- (if nan : bool
        then print (NanEmission remind_emission remind_emission_label
                      (ds_name ds))
        else ret tt) ;;
  if Num.is_zero (exc_amount exc) then
    target <- lift (first_value remind_emission) ;;
    ret (rescale_exchange exc (Num.div target (Fin 1)) true)
  else
    target <- lift (first_value remind_emission) ;;
    ret (rescale_exchange exc (Num.div target (exc_amount exc))
           remove_uncertainty_default).

(** The loop [for exc in ws.biosphere(ds, ...)]: the matching biosphere
    exchanges are rescaled in place, the other exchanges are left as they
    are. *)
Definition rescale_emissions (remind_technology : string) (ds : Dataset)
  : M Dataset :=
  excs <- mapM (fun exc =>
                  if exchange_type_eqb (exc_type exc) biosphere
                     && emission_filter exc
                  then rescale_emission remind_technology ds exc
                  else ret exc)
               (exchanges ds) ;;
  ret (set_exchanges ds excs).

End Methods.

Arguments remind_to_ecoinvent_location self location : simpl never.
Arguments ecoinvent_to_remind_location self location : simpl never.

(** ** A small inventory and scenario, used to run the methods *)

Module Fixture.

Definition plant (name location product : string) : Dataset :=
  {| ds_location := location;
     ds_name := name;
     reference_product := product;
     ds_unit := "kilowatt hour";
     ds_database := "ecoinvent 3.5 cutoff";
     ds_code := name +:+ "@" +:+ location;
     ds_comment := "";
     exchanges :=
       [ {| exc_type := production; exc_name := name;
            exc_product := Some product; exc_unit := "kilowatt hour";
            exc_location := Some location; exc_amount := Fin 1;
            exc_loc := Some (Fin 1); uncertainty_type := Some 0%Z;
            production_volume := Some (Fin 0); exc_input := None;
            exc_categories := None; exc_scale := None; exc_shape := None;
            exc_size := None;
            exc_minimum := None; exc_maximum := None |} ];
     parameters := Some [] |}.

Definition coal_DE : Dataset :=
  plant "electricity production, hard coal" "DE" "electricity, high voltage".
Definition coal_FR : Dataset :=
  plant "electricity production, hard coal" "FR" "electricity, high voltage".
Definition gas_DE : Dataset :=
  plant "electricity production, natural gas, combined cycle power plant"
        "DE" "electricity, high voltage".
Definition pv_DE : Dataset :=
  plant "electricity production, photovoltaic, 3kWp slanted-roof installation"
        "DE" "electricity, low voltage".
Definition coal_GLO : Dataset :=
  plant "electricity production, hard coal" "GLO" "electricity, high voltage".
Definition coal_RER : Dataset :=
  plant "electricity production, hard coal" "RER" "electricity, high voltage".

Definition db : list Dataset := [coal_DE; coal_FR; gas_DE; pv_DE].

(** A geomatcher that knows Germany, France and Antarctica, takes "IND" for
    India, and knows the REMIND region EUR under its tuple key only. *)
Definition intersects (key : geo_key) : result (list geo_key) :=
  match key with
  | Ns "REMIND" "EUR" =>
      Return [Loc "DE"; Loc "FR"; Ns "REMIND" "EUR"; Loc "RER"]
  | _ => Raise KeyError
  end.

Definition within (key : geo_key) : result (list geo_key) :=
  match key with
  | Loc "DE" | Loc "FR" =>
      Return [Ns "REMIND" "EUR"; Ns "REMIND" "World"; Loc "RER"; Loc "GLO"]
  | Loc "AQ" => Return [Loc "GLO"]
  | Loc "IND" => Return [Ns "REMIND" "IND"; Ns "REMIND" "World"; Loc "GLO"]
  | _ => Raise KeyError
  end.

Definition coal : string := "SE|Electricity|Coal|w/o CCS".
Definition gas : string := "SE|Electricity|Gas|w/o CCS".
Definition solar : string := "SE|Electricity|Solar|PV".

Definition markets (technology region : string) : number :=
  if Str.eqb region "EUR" then
    if Str.eqb technology coal then Fin 0.5
    else if Str.eqb technology gas then Fin 0.3
    else if Str.eqb technology solar then Fin 0.2
    else Fin 0
  else Fin 0.

Definition emissions (region : pyobj) (pollutant sector : string)
  : result (list number) :=
  match region with
  | PyList ["EUR"] =>
      if Str.eqb pollutant "SO2" then Return [Fin 0.042]
      else if Str.eqb pollutant "NOx" then Return [NaN]
      else Raise KeyError
  | _ => Raise KeyError
  end.

Definition self : Electricity :=
  {| geo_intersects := intersects;
     geo_within := within;
     population := {[ "DE" := 7000000%Z; "FR" := 3000000%Z ]};
     scenario := "SSP2-Base";
     year := 2030;
     fuels_lhv := [("hard coal", Fin 26.7); ("lignite", Fin 11.2)];
     powerplant_map :=
       {[ "Coal PC" := ["electricity production, hard coal"];
          "Gas CC" :=
            ["electricity production, natural gas, combined cycle power plant"];
          "Solar PV" :=
            ["electricity production, photovoltaic, 3kWp slanted-roof installation"] ]};
     emissions_map :=
       {[ "Sulfur dioxide" := "SO2"; "Nitrogen oxides" := "NOx" ]};
     rmd_regions := ["EUR"];
     rmd_variables := [coal; gas; solar];
     electricity_markets := markets;
     rev_electricity_market_labels :=
       {[ coal := "Coal PC"; gas := "Gas CC"; solar := "Solar PV" ]};
     electricity_emissions := emissions;
     electricity_emission_labels := {[ "Coal PC" := "Power|Coal" ]} |}.

Definition uuid (n : nat) : string := "id" +:+ str (Z.of_nat n).

(** An emission to air with a lognormal uncertainty. *)
Definition emission (name : string) (amount : number) : Exchange :=
  {| exc_type := biosphere; exc_name := name; exc_product := None;
     exc_unit := "kilogram"; exc_location := None; exc_amount := amount;
     exc_loc := Some (Fin 0); uncertainty_type := Some 2%Z;
     production_volume := None;
     exc_input := Some ("biosphere3", "fd7aa71c-508c-480d-81a6-8052aad92646");
     exc_categories := Some ["air"];
     exc_scale := Some (Fin 0.1); exc_shape := None; exc_size := None;
     exc_minimum := None; exc_maximum := None |}.

(** An input of high voltage electricity, and a record that consumes it. *)
Definition electricity_input (name location : string) : Exchange :=
  {| exc_type := technosphere; exc_name := name;
     exc_product := Some "electricity, high voltage";
     exc_unit := "kilowatt hour"; exc_location := Some location;
     exc_amount := Fin 15.3; exc_loc := Some (Fin 15.3);
     uncertainty_type := Some 0%Z; production_volume := None;
     exc_input := None; exc_categories := None; exc_scale := None;
     exc_shape := None; exc_size := None;
     exc_minimum := None; exc_maximum := None |}.

Definition smelter (location : string) (input : Exchange) : Dataset :=
  {| ds_location := location;
     ds_name := "aluminium production, primary, liquid, prebake";
     reference_product := "aluminium, primary, liquid";
     ds_unit := "kilogram";
     ds_database := "ecoinvent 3.5 cutoff";
     ds_code := "smelter@" +:+ location;
     ds_comment := "";
     exchanges :=
       [ {| exc_type := production;
            exc_name := "aluminium production, primary, liquid, prebake";
            exc_product := Some "aluminium, primary, liquid";
            exc_unit := "kilogram";
            exc_location := Some location; exc_amount := Fin 1;
            exc_loc := Some (Fin 1); uncertainty_type := Some 0%Z;
            production_volume := Some (Fin 0); exc_input := None;
            exc_categories := None; exc_scale := None; exc_shape := None;
            exc_size := None;
            exc_minimum := None; exc_maximum := None |};
         input ];
     parameters := Some [] |}.

(** Before the relinking, after it, and a record already linked to the
    market of the region IND. *)
Definition smelter_DE : Dataset :=
  smelter "DE" (electricity_input "market for electricity, high voltage" "DE").
Definition smelter_DE_relinked : Dataset :=
  smelter "DE"
    (electricity_input
       "market group for electricity, high voltage, SSP2-Base, 2030" "EUR").
Definition smelter_IN_relinked : Dataset :=
  smelter "IN"
    (electricity_input
       "market group for electricity, high voltage, SSP2-Base, 2030" "IND").

(** Power plants for the efficiency computation: a fuel input and the
    electricity produced. *)
Definition fuel_input (name unit : string) (amount : number) : Exchange :=
  {| exc_type := technosphere; exc_name := name;
     exc_product := Some name; exc_unit := unit;
     exc_location := Some "RoW"; exc_amount := amount;
     exc_loc := Some amount; uncertainty_type := Some 0%Z;
     production_volume := None; exc_input := None; exc_categories := None;
     exc_scale := None; exc_shape := None; exc_size := None;
     exc_minimum := None; exc_maximum := None |}.

Definition power_plant (database : string)
    (params : option (list (string * number))) (fuel : Exchange) : Dataset :=
  {| ds_location := "DE";
     ds_name := "electricity production, hard coal";
     reference_product := "electricity, high voltage";
     ds_unit := "kilowatt hour";
     ds_database := database;
     ds_code := "plant";
     ds_comment := "";
     exchanges := exchanges coal_DE ++ [fuel];
     parameters := params |}.

Definition plant_with_parameter : Dataset :=
  power_plant "ecoinvent 3.5 cutoff"
    (Some [("thermal_efficiency", Fin 0.9); ("efficiency", Fin 0.38)])
    (fuel_input "market for hard coal" "kilogram" (Fin 0.4)).

Definition plant_without_parameter : Dataset :=
  power_plant "ecoinvent 3.5 cutoff"
    (Some [("thermal_efficiency", Fin 0.9)])
    (fuel_input "market for hard coal" "kilogram" (Fin 0.4)).

Definition carma_plant : Dataset :=
  power_plant "Carma CCS"
    (Some [("efficiency", Fin 0.5)])
    (fuel_input "Hard coal, burned in power plant/GLO" "megajoule" (Fin 9)).

Definition coal_kilogram : list (Exchange -> bool) :=
  [ (fun exc => Str.contains "hard coal" (exc_name exc)
                || Str.contains "lignite" (exc_name exc));
    (fun exc => Str.eqb (exc_unit exc) "kilogram") ].

Definition coal_megajoule : list (Exchange -> bool) :=
  [ (fun exc => Str.contains "Hard coal" (exc_name exc)
                || Str.contains "Lignite" (exc_name exc));
    (fun exc => Str.eqb (exc_unit exc) "megajoule") ].

Definition so2_zero : Exchange := emission "Sulfur dioxide" (Fin 0).
Definition so2_two : Exchange := emission "Sulfur dioxide" (Fin 2).
Definition nox : Exchange := emission "Nitrogen oxides" (Fin 2).

(** A German coal plant with two sulfur dioxide emissions, one of amount 0
    and one of amount 2. *)
Definition emitting_plant : Dataset :=
  {| ds_location := "DE";
     ds_name := "electricity production, hard coal";
     reference_product := "electricity, high voltage";
     ds_unit := "kilowatt hour";
     ds_database := "ecoinvent 3.5 cutoff";
     ds_code := "emitting plant";
     ds_comment := "";
     exchanges := exchanges coal_DE ++ [so2_zero; so2_two];
     parameters := Some [] |}.

(** The same instance with a geomatcher that places Norway in the two
    REMIND regions EUR and NEU, and an island in OAS, EUR and NEU. *)
Definition within_overlaps (key : geo_key) : result (list geo_key) :=
  match key with
  | Loc "NO" =>
      Return [Ns "REMIND" "EUR"; Ns "REMIND" "NEU"; Ns "REMIND" "World";
              Loc "GLO"]
  | Loc "XX" =>
      Return [Ns "REMIND" "OAS"; Ns "REMIND" "EUR"; Ns "REMIND" "NEU"]
  | _ => within key
  end.

Definition self_overlaps : Electricity :=
  {| geo_intersects := geo_intersects self;
     geo_within := within_overlaps;
     population := population self;
     scenario := scenario self;
     year := year self;
     fuels_lhv := fuels_lhv self;
     powerplant_map := powerplant_map self;
     emissions_map := emissions_map self;
     rmd_regions := rmd_regions self;
     rmd_variables := rmd_variables self;
     electricity_markets := electricity_markets self;
     rev_electricity_market_labels := rev_electricity_market_labels self;
     electricity_emissions := electricity_emissions self;
     electricity_emission_labels := electricity_emission_labels self |}.

(** A smelter in Antarctica, and an input whose product names two tiers. *)
Definition smelter_AQ : Dataset :=
  smelter "AQ" (electricity_input "market for electricity, high voltage" "AQ").

Definition transformation_input : Exchange :=
  {| exc_type := technosphere;
     exc_name := "electricity voltage transformation from high to medium voltage";
     exc_product := Some "electricity, medium voltage, from high voltage";
     exc_unit := "kilowatt hour"; exc_location := Some "DE";
     exc_amount := Fin 1; exc_loc := Some (Fin 1);
     uncertainty_type := Some 0%Z; production_volume := None;
     exc_input := None; exc_categories := None; exc_scale := None;
     exc_shape := None; exc_size := None;
     exc_minimum := None; exc_maximum := None |}.

(** The same instance with the geomatcher of the overlaps and a scenario
    that gives one emission intensity for each region asked for. *)
Definition emissions_per_region (region : pyobj) (pollutant sector : string)
  : result (list number) :=
  match region with
  | PyList regions => Return (map (fun _ => Fin 0.042) regions)
  | _ => Raise KeyError
  end.

Definition self_per_region : Electricity :=
  {| geo_intersects := geo_intersects self;
     geo_within := within_overlaps;
     population := population self;
     scenario := scenario self;
     year := year self;
     fuels_lhv := fuels_lhv self;
     powerplant_map := powerplant_map self;
     emissions_map := emissions_map self;
     rmd_regions := rmd_regions self;
     rmd_variables := rmd_variables self;
     electricity_markets := electricity_markets self;
     rev_electricity_market_labels := rev_electricity_market_labels self;
     electricity_emissions := emissions_per_region;
     electricity_emission_labels := electricity_emission_labels self |}.

(** A coal plant on the island of the overlaps, and an emission whose name
    contains a key of the emission map without being one. *)
Definition island_plant : Dataset :=
  {| ds_location := "XX";
     ds_name := "electricity production, hard coal";
     reference_product := "electricity, high voltage";
     ds_unit := "kilowatt hour";
     ds_database := "ecoinvent 3.5 cutoff";
     ds_code := "island plant";
     ds_comment := "";
     exchanges := exchanges coal_DE ++ [so2_two];
     parameters := Some [] |}.

Definition so2_low_population : Exchange :=
  emission "Sulfur dioxide, low population density" (Fin 2).

Definition plant_with_long_name : Dataset :=
  {| ds_location := "DE";
     ds_name := "electricity production, hard coal";
     reference_product := "electricity, high voltage";
     ds_unit := "kilowatt hour";
     ds_database := "ecoinvent 3.5 cutoff";
     ds_code := "plant with long name";
     ds_comment := "";
     exchanges := exchanges coal_DE ++ [so2_low_population];
     parameters := Some [] |}.

(** The same instance for a scenario whose only region, "ATL", is unknown
    to the geomatcher, every technology having the share 0.5 there. *)
Definition self_unknown_region : Electricity :=
  {| geo_intersects := geo_intersects self;
     geo_within := geo_within self;
     population := population self;
     scenario := scenario self;
     year := year self;
     fuels_lhv := fuels_lhv self;
     powerplant_map := powerplant_map self;
     emissions_map := emissions_map self;
     rmd_regions := ["ATL"];
     rmd_variables := rmd_variables self;
     electricity_markets := fun _ _ => Fin 0.5;
     rev_electricity_market_labels := rev_electricity_market_labels self;
     electricity_emissions := electricity_emissions self;
     electricity_emission_labels := electricity_emission_labels self |}.

End Fixture.

(** ** The properties, as the specification words them *)

Module Spec.

(** [sub] occurs in [s]. *)
Definition substring_of (sub s : string) : Prop :=
  exists pre post, s = pre +:+ sub +:+ post.

(** The three locations that the reverse mapping answers without the
    geomatcher. *)
Definition shortcut (location : string) : Prop :=
  In location ["GLO"; "RoW"; "IAI Area, Russia & RER w/o EU27 & EFTA"].

(** The sum of the populations of the suppliers' locations, a location
    without an entry counting for 0. *)
Definition population_sum (self : Electricity) (suppliers : list Dataset) : Z :=
  fold_right Z.add 0%Z
    (map (fun s => default 0%Z (population self !! ds_location s)) suppliers).

(** The reverse mapping answers a location without any REMIND region by a
    diagnostic and an empty list. *)
Definition empty_list_when_no_region (self : Electricity) : Prop :=
  forall location,
    ~ shortcut location ->
    remind_regions_within self location = Return [] ->
    output (ecoinvent_to_remind_location self location) <> [] /\
    outcome (ecoinvent_to_remind_location self location) = Return (PyList []).

Definition is_production (exc : Exchange) : bool :=
  exchange_type_eqb (exc_type exc) production.

(** A record has exactly one production exchange, of amount 1. *)
Definition one_production (m : Dataset) : Prop :=
  exists e, List.filter is_production (exchanges m) = [e] /\
            exc_amount e = Fin 1.

(** The technologies among [techs] with a non-zero share in [region]. *)
Definition contributing (self : Electricity) (techs : list string)
    (region : string) : list string :=
  List.filter (fun t => Num.nonzero (electricity_markets self t region)) techs.

(** Supplier resolution for a technology of a region: the region's
    locations, the names of the technology, and the suppliers found for
    them in [db]. *)
Definition resolved (self : Electricity) (db : list Dataset)
    (region technology : string) (suppliers : list Dataset) : Prop :=
  exists obj label names,
    outcome (remind_to_ecoinvent_location self region) = Return obj /\
    getitem (rev_electricity_market_labels self) technology = Return label /\
    getitem (powerplant_map self) label = Return names /\
    suppliers_with_fallback db obj names = Return suppliers.

(** [exc] is a technosphere input from the supplier [s]. *)
Definition input_from (exc : Exchange) (s : Dataset) : Prop :=
  exc_type exc = technosphere /\
  exc_product exc = Some (reference_product s) /\
  exc_name exc = ds_name s /\
  exc_location exc = Some (ds_location s).

(** [block] holds one technosphere input for each supplier resolved for the
    technology, and, when there is a supplier, the amounts of the block sum
    to the share of the technology in the region. *)
Definition allocated (self : Electricity) (db : list Dataset)
    (region technology : string) (block : list Exchange) : Prop :=
  exists suppliers,
    resolved self db region technology suppliers /\
    Forall2 input_from block suppliers /\
    (suppliers <> [] ->
     forall a, electricity_markets self technology region = Fin a ->
               Num.sum (map exc_amount block) ≈ Fin a).

(** The sum of the amounts of the technosphere exchanges of a record whose
    product is [product]. *)
Definition product_sum (product : string) (m : Dataset) : number :=
  Num.sum (map exc_amount
    (List.filter (fun e => exchange_type_eqb (exc_type e) technosphere
                           && match exc_product e with
                              | Some p => Str.eqb p product
                              | None => false
                              end)
                 (exchanges m))).

(** The share invariant taken by product: in the market that a builder
    adds for [region], the technosphere exchanges whose product is the
    reference product of a supplier of the technology sum to the share of
    the technology, within 1e-9. *)
Definition share_by_product (self : Electricity)
    (builder : list Dataset -> string -> M (list Dataset))
    (techs : list string) : Prop :=
  forall db region out m technology suppliers supplier a,
    builder db region = (out, Return (db ++ [m])) ->
    In technology techs ->
    electricity_markets self technology region = Fin a ->
    ~ (a == 0)%Q ->
    resolved self db region technology suppliers ->
    In supplier suppliers ->
    Num.within 1e-9 (product_sum (reference_product supplier) m) (Fin a).

(** The scenario's emission intensities [values] for the exchange [exc] of
    the dataset [ds], as the rescaler fetches them: the pollutant label of
    the flow, the REMIND region(s) of the dataset's location and the sector
    of the technology. *)
Definition target (self : Electricity) (remind_technology : string)
    (ds : Dataset) (exc : Exchange) (label : string) (values : list number)
  : Prop :=
  exists region sector,
    getitem (emissions_map self) (exc_name exc) = Return label /\
    outcome (ecoinvent_to_remind_location self (ds_location ds))
    = Return region /\
    getitem (electricity_emission_labels self) remind_technology
    = Return sector /\
    electricity_emissions self region label sector = Return values.

(** A NaN intensity makes the rescaler raise. *)
Definition nan_is_an_error (self : Electricity) : Prop :=
  forall remind_technology ds exc label,
    target self remind_technology ds exc label [NaN] ->
    exists e, outcome (rescale_emission self remind_technology ds exc)
              = Raise e.

(** The records that supplier resolution looks for in a set of locations. *)
Definition candidates (db : list Dataset) (names locations : list string)
  : list Dataset :=
  List.filter (fun ds => Str.mem (ds_name ds) names
                         && Str.mem (ds_location ds) locations
                         && Str.eqb (ds_unit ds) "kilowatt hour") db.

(** The first non-empty result among the region's locations, 'RER' and
    'RoW'; the last one when all are empty. *)
Definition cascade (db : list Dataset) (names locations : list string)
  : list Dataset :=
  match candidates db names locations with
  | (_ :: _) as found => found
  | [] =>
      match candidates db names ["RER"] with
      | (_ :: _) as found => found
      | [] => candidates db names ["RoW"]
      end
  end.

Definition tiers : list string := ["high"; "medium"; "low"].

(** [exc] refers to the market group of the tier. *)
Definition linked_to (self : Electricity) (tier : string) (exc : Exchange)
  : Prop :=
  exc_name exc = market_name self tier /\
  exc_product exc = Some (market_product tier).

(** The exchanges that the relinking engine rewrites. *)
Definition consumes_electricity (exc : Exchange) : bool :=
  electricity_filter exc && relink_guard exc.

(** Every electricity-consuming exchange of the records that are not
    market groups refers to the market group of a tier. *)
Definition already_relinked (self : Electricity) (db : list Dataset) : Prop :=
  forall ds, In ds db ->
    Str.contains "market group for electricity" (ds_name ds) = false ->
    forall exc, In exc (exchanges ds) ->
      consumes_electricity exc = true ->
      exists tier, In tier tiers /\ linked_to self tier exc.

(** Relinking a relinked database changes nothing. *)
Definition relink_idempotent (self : Electricity) : Prop :=
  forall db, already_relinked self db ->
             outcome (relink_activities_to_new_markets self db) = Return db.

(** [exc] has a location, and the reverse mapping answers that location by
    the location itself, first. *)
Definition location_fixed (self : Electricity) (exc : Exchange) : Prop :=
  exists loc rest,
    exc_location exc = Some loc /\
    outcome (ecoinvent_to_remind_location self loc)
    = Return (PyList (loc :: rest)).

(** [exc] has a product; if the product names a tier, [exc] refers to the
    market group of that tier and its location is fixed by the reverse
    mapping. *)
Definition settled (self : Electricity) (exc : Exchange) : Prop :=
  exists p, exc_product exc = Some p /\
    forall tier, In tier tiers -> Str.contains tier p = true ->
                 linked_to self tier exc /\ location_fixed self exc.

(** A parameter name that denotes an efficiency: it contains 'efficiency'
    and does not contain 'thermal'. *)
Definition efficiency_named (key : string) : Prop :=
  substring_of "efficiency" key /\ ~ substring_of "thermal" key.

(** The total energy input of a record, with heating values: over the fuel
    exchanges, and for each of them over the fuels whose label occurs in
    its name, (lower heating value / 3.6) * amount. *)
Definition energy_input_lhv (self : Electricity) (ds : Dataset)
    (fuel_filters : list (Exchange -> bool)) : number :=
  Num.sum (concat
    (map (fun exc =>
            map (fun fuel => Num.mul (Num.div (snd fuel) (Fin 3.6))
                                     (exc_amount exc))
                (List.filter (fun fuel => Str.contains (fst fuel) (exc_name exc))
                             (fuels_lhv self)))
         (ws.technosphere_of ds fuel_filters))).

(** The total energy input without heating values: amount / 3.6 over the
    fuel exchanges. *)
Definition energy_input_plain (ds : Dataset)
    (fuel_filters : list (Exchange -> bool)) : number :=
  Num.sum (map (fun exc => Num.div (exc_amount exc) (Fin 3.6))
               (ws.technosphere_of ds fuel_filters)).

End Spec.

(** ** The lookup tables *)

Module Tables.

(** [s.split(sep)] for a separator of one character *)
Fixpoint split (sep : Ascii.ascii) (s : string) : list string :=
  match s with
  | EmptyString => [EmptyString]
  | String c s' =>
      if Ascii.eqb c sep then EmptyString :: split sep s'
      else match split sep s' with
           | [] => [String c EmptyString]
           | field :: fields => String c field :: fields
           end
  end.

(** The separator [";"] of the mapping file. *)
Definition semicolon : Ascii.ascii := Ascii.ascii_of_nat 59.

(** The codes that [get_REMIND_geomatcher] leaves out. *)
Definition countries_not_found : list string :=
  ["CC"; "CX"; "GG"; "JE"; "BL"].

Section RegionMapping.

(** [str.strip] *)
Variable strip : string -> string.

(** [f.readline()] drops the first line; then
    [[[val.strip() for val in r.split(";")] for r in f.readlines()]] *)
Definition csv_list (lines : list string) : list (list string) :=
  map (fun r => map strip (split semicolon r)) (tail lines).

(** [(x[1], x[2])] *)
Definition columns (x : list string) : result (string * string) :=
  match nth_error x 1, nth_error x 2 with
  | Some iso, Some region => Return (iso, region)
  | _, _ => Raise IndexError
  end.

(** The body of the loop [for ISO, region in l] on the dict [rmnd_to_iso]:
    [rmnd_to_iso[region].append(ISO)], or a new list on a [KeyError]. *)
Definition add_country (rmnd_to_iso : gmap string (list string))
    (row : string * string) : gmap string (list string) :=
  let '(ISO, region) := row in
  if negb (Str.mem ISO countries_not_found) then
    match rmnd_to_iso !! region with
    | Some isos => <[region := isos ++ [ISO]]> rmnd_to_iso
    | None => <[region := [ISO]]> rmnd_to_iso
    end
  else rmnd_to_iso.

(** The dict [rmnd_to_iso] that [get_REMIND_geomatcher] builds from the
    lines of the mapping file and hands to the geomatcher. *)
Definition rmnd_to_iso (lines : list string)
  : result (gmap string (list string)) :=
  l <~ mapR columns (csv_list lines) ;;
  Return (fold_left add_country l ∅).

End RegionMapping.

(** [dict(filter(None, rows))] for the rows of a csv reader: the empty rows
    are dropped; a row of two fields is an entry, a later one replacing an
    earlier one with the same key; a row of another length is refused. *)
Definition dict_of_rows (rows : list (list string))
  : result (gmap string string) :=
  fold_left (fun acc row =>
               d <~ acc ;;
               match row with
               | [k; v] => Return (<[k := v]> d)
               | _ => Raise ValueError
               end)
            (List.filter (fun row => negb (length row =? 0)%nat) rows)
            (Return ∅).

(** The outcome of a loader: the table, the exception of the method itself
    when the file is missing, or an exception raised while reading. *)
Inductive loaded (A : Type) : Type :=
| Loaded (table : A)
| FileNotFoundError (message : string)
| Failed (e : exn).
Arguments Loaded {A} table.
Arguments FileNotFoundError {A} message.
Arguments Failed {A} e.

Definition of_result {A} (r : result A) : loaded A :=
  match r with
  | Return a => Loaded a
  | Raise e => Failed e
  end.

(** [get_population_dict] and [get_lower_heating_values], on the rows that
    the csv reader yields for the file, [None] when the path is no file. *)
Definition get_population_dict (file : option (list (list string)))
  : loaded (gmap string string) :=
  match file with
  | None =>
      FileNotFoundError
        "The population per country dictionary file could not be found."
  | Some rows => of_result (dict_of_rows rows)
  end.

Definition get_lower_heating_values (file : option (list (list string)))
  : loaded (gmap string string) :=
  match file with
  | None =>
      FileNotFoundError
        "The dictionary of lower heating values could not be found."
  | Some rows => of_result (dict_of_rows rows)
  end.

(** The codes listed for [region] by the rows [l], the codes left out
    excepted. *)
Definition isos_of (region : string) (l : list (string * string))
  : list string :=
  map fst (List.filter (fun row => Str.eqb (snd row) region
                                   && negb (Str.mem (fst row)
                                              countries_not_found)) l).

(** The number of occurrences of a character. *)
Fixpoint count (c : Ascii.ascii) (s : string) : nat :=
  match s with
  | EmptyString => 0
  | String d s' => (if Ascii.eqb d c then 1 else 0) + count c s'
  end.

(** The value in the last of the rows of two fields whose first field is
    [k]. *)
Definition last_value (k : string) (rows : list (list string))
  : option string :=
  match List.filter (fun row => match row with
                                | [k'; _] => Str.eqb k' k
                                | _ => false
                                end) (rev rows) with
  | [_; v] :: _ => Some v
  | _ => None
  end.

(** Lines of a mapping file and rows of a population file. *)
Definition mapping_lines : list string :=
  ["Country;ISO;Region"; "Germany;DE;EUR"; "Guernsey;GG;EUR";
   "India;IN;IND"; "France;FR;EUR"].

Definition short_mapping_lines : list string :=
  ["Country;ISO;Region"; "Germany;DE;EUR"; "India;IN"].

Definition population_rows : list (list string) :=
  [["country"; "population"]; ["DE"; "83000000"]; [];
   ["FR"; "67000000"]; ["DE"; "83100000"]].

Definition long_population_rows : list (list string) :=
  [["country"; "population"]; ["DE"; "83000000"; "2018"]].

End Tables.

(** The tier that the relinking engine takes for a product: the first of
    'high', 'medium' and 'low' that occurs in it. *)
Definition first_tier (p : string) : option string :=
  if Str.contains "high" p then Some "high"
  else if Str.contains "medium" p then Some "medium"
  else if Str.contains "low" p then Some "low"
  else None.

(** What an exchange carries besides its name, product and location. *)
Definition flow (exc : Exchange) :=
  (exc_type exc, exc_unit exc, exc_amount exc, exc_loc exc,
   uncertainty_type exc, production_volume exc, exc_input exc,
   exc_categories exc, exc_scale exc, exc_shape exc, exc_size exc,
   exc_minimum exc, exc_maximum exc).

(** What a dataset carries besides its exchanges. *)
Definition heading (ds : Dataset) :=
  (ds_location ds, ds_name ds, reference_product ds, ds_unit ds,
   ds_database ds, ds_code ds, ds_comment ds, parameters ds).

(** What identifies an exchange: all but its amount and the fields of its
    uncertainty. *)
Definition identity_of (exc : Exchange) :=
  (exc_type exc, exc_name exc, exc_product exc, exc_unit exc,
   exc_location exc, production_volume exc, exc_input exc,
   exc_categories exc).

(** The biosphere exchanges that the emission pass rescales. *)
Definition is_emission (self : Electricity) (exc : Exchange) : bool :=
  exchange_type_eqb (exc_type exc) biosphere && emission_filter self exc.

(** An exchange as the market builders write it: no uncertainty, and the
    point estimate 'loc' equal to the amount. *)
Definition certain (exc : Exchange) : Prop :=
  uncertainty_type exc = Some 0%Z /\ exc_loc exc = Some (exc_amount exc).

(** ** Efficiency rescaling *)

(** The efficiency tables of the scenario. *)
Record Efficiencies : Type := {
  electricity_efficiency_labels : gmap string string;
  (** [self.rmd.electricity_efficiencies.loc[dict(variable=.., region=..,
      value=0)].mean().values], for the region argument as the resolver
      returned it *)
  electricity_efficiencies_mean : string -> pyobj -> result number
}.

Section Rescaling.

Variable self : Electricity.
Variable rmd : Efficiencies.

(** [find_fuel_efficiency_scaling_factor]: the factor, and the dataset
    after the call. *)
Definition find_fuel_efficiency_scaling_factor (ds : Dataset)
    (fuel_filters : list (Exchange -> bool)) (technology : string)
  : M (number * Dataset) :=
  found <- lift (find_ecoinvent_fuel_efficiency self ds fuel_filters) ;;
  let '(ecoinvent_eff, ds) := found in
  remind_locations <- ecoinvent_to_remind_location self (ds_location ds) ;;
  variable <- lift (getitem (electricity_efficiency_labels rmd) technology) ;;
  remind_eff <- lift (electricity_efficiencies_mean rmd variable
                        remind_locations) ;;
  ret (Num.div ecoinvent_eff remind_eff, ds).

Definition possibles : list string :=
  ["efficiency"; "efficiency_oil_country"; "efficiency_electrical"].

(** [key in parameters] *)
Definition has_key (ps : list (string * number)) (key : string) : bool :=
  existsb (fun kv => Str.eqb (fst kv) key) ps.

(** [parameters[key] /= scaling_factor] *)
Definition divide_key (scaling_factor : number) (ps : list (string * number))
    (key : string) : list (string * number) :=
  map (fun kv => if Str.eqb (fst kv) key
                 then (fst kv, Num.div (snd kv) scaling_factor)
                 else kv) ps.

(** [update_ecoinvent_efficiency_parameter] *)
Definition update_ecoinvent_efficiency_parameter (ds : Dataset)
    (scaling_factor : number) : result Dataset :=
  parameters <~ item (parameters ds) ;;
  Return (set_parameters ds
            (fold_left (fun ps key =>
                          if has_key ps key
                          then divide_key scaling_factor ps key
                          else ps)
                       possibles parameters)).

(** The first two statements of the loop body of
    [update_electricity_efficiency]: the factor is computed and the
    efficiency parameters are divided by it. *)
Definition rescale_efficiency (ds : Dataset)
    (fuel_filters : list (Exchange -> bool)) (remind_technology : string)
  : M (number * Dataset) :=
  found <- find_fuel_efficiency_scaling_factor ds fuel_filters
             remind_technology ;;
  let '(scaling_factor, ds) := found in
  ds <- lift (update_ecoinvent_efficiency_parameter ds scaling_factor) ;;
  ret (scaling_factor, ds).

End Rescaling.

(** A small efficiency table: 0.45 for coal plants in EUR. *)
Definition efficiencies_fixture : Efficiencies :=
  {| electricity_efficiency_labels :=
       {[ "Coal PC" := "Tech|Electricity|Coal|PC|Efficiency" ]};
     electricity_efficiencies_mean := fun variable region =>
       match region with
       | PyList ["EUR"] =>
           if Str.eqb variable "Tech|Electricity|Coal|PC|Efficiency"
           then Return (Fin 0.45) else Raise KeyError
       | _ => Raise KeyError
       end |}.

(** ** Strings *)

Lemma append_String (c : Ascii.ascii) (s t : string) :
  String c s +:+ t = String c (s +:+ t).
Proof. reflexivity. Qed.

Lemma prefix_spec (sub s : string) :
  String.prefix sub s = true <-> exists post, s = sub +:+ post.
Proof.
  revert sub. induction s as [|d s IH]; intros [|c sub]; simpl.
  - split; [intros _; exists ""; reflexivity | reflexivity].
  - split; [discriminate | intros [post H]; discriminate].
  - split; [intros _; eexists; reflexivity | reflexivity].
  - destruct (Ascii.ascii_dec c d) as [->|Hne].
    + rewrite IH. split; intros [post H]; exists post;
        rewrite append_String in *; congruence.
    + split; [discriminate|].
      intros [post H]. rewrite append_String in H. congruence.
Qed.

Lemma contains_spec (sub s : string) :
  Str.contains sub s = true <-> Spec.substring_of sub s.
Proof.
  unfold Spec.substring_of.
  induction s as [|c s IH]; cbn [Str.contains].
  - rewrite orb_false_r, prefix_spec. split.
    + intros [post H]. exists "", post. exact H.
    + intros [pre [post H]]. destruct pre; [exists post; exact H | discriminate].
  - rewrite orb_true_iff, prefix_spec, IH. split.
    + intros [[post H] | [pre [post H]]].
      * exists "", post. exact H.
      * exists (String c pre), post. rewrite append_String. congruence.
    + intros [pre [post H]]. destruct pre as [|d pre].
      * left. exists post. exact H.
      * right. exists pre, post. rewrite append_String in H. congruence.
Qed.

Lemma contains_any_spec (stops : list string) (s : string) :
  Str.contains_any stops s = true <->
  exists stop, In stop stops /\ Spec.substring_of stop s.
Proof.
  unfold Str.contains_any. rewrite existsb_exists.
  split; intros [stop [Hin H]]; exists stop; split; auto;
    apply contains_spec; exact H.
Qed.

Lemma Str_eqb_eq (a b : string) : Str.eqb a b = true <-> a = b.
Proof. apply String.eqb_eq. Qed.

Lemma Str_eqb_neq (a b : string) : Str.eqb a b = false <-> a <> b.
Proof. apply String.eqb_neq. Qed.

(** ** The market update *)


(** ** Population-weighted shares *)

Lemma locs_population_from (self : Electricity) (suppliers : list Dataset)
    (start : Z) :
  fold_left (fun acc loc => (acc + population_of self (ds_location loc))%Z)
            suppliers start
  = (start + Spec.population_sum self suppliers)%Z.
Proof.
  unfold Spec.population_sum.
  revert start. induction suppliers as [|s suppliers IH]; intros start; simpl.
  - lia.
  - rewrite IH. unfold population_of. lia.
Qed.

Lemma locs_population_sum (self : Electricity) (suppliers : list Dataset) :
  locs_population self suppliers = Spec.population_sum self suppliers.
Proof. unfold locs_population. rewrite locs_population_from. lia. Qed.

(** C7. When the populations of the suppliers' locations sum to a positive
    number, [get_pop_weighted_share] returns the population of the
    supplier's location divided by that sum, a location without an entry in
    the population table counting for 0. *)
Theorem get_pop_weighted_share_correct
    (self : Electricity) (supplier : Dataset) (suppliers : list Dataset) :
  (0 < Spec.population_sum self suppliers)%Z ->
  get_pop_weighted_share self supplier suppliers =
    Return (Fin (inject_Z (default 0%Z (population self !! ds_location supplier))
                 / inject_Z (Spec.population_sum self suppliers))).
Proof.
  intros Hpos. unfold get_pop_weighted_share.
  rewrite locs_population_sum.
  destruct (Z.eqb_spec (Spec.population_sum self suppliers) 0) as [E|_].
  - lia.
  - reflexivity.
Qed.

(** Two suppliers whose locations count 7,000,000 and 3,000,000 inhabitants
    receive the shares 0.7 and 0.3. *)
Lemma get_pop_weighted_share_witness :
  (0 < Spec.population_sum Fixture.self [Fixture.coal_DE; Fixture.coal_FR])%Z /\
  population Fixture.self !! "DE" = Some 7000000%Z /\
  population Fixture.self !! "FR" = Some 3000000%Z /\
  exists x y,
    get_pop_weighted_share Fixture.self Fixture.coal_DE
      [Fixture.coal_DE; Fixture.coal_FR] = Return x /\
    get_pop_weighted_share Fixture.self Fixture.coal_FR
      [Fixture.coal_DE; Fixture.coal_FR] = Return y /\
    x ≈ Fin 0.7 /\ y ≈ Fin 0.3.
Proof.
  assert (Hpos : (0 < Spec.population_sum Fixture.self
                         [Fixture.coal_DE; Fixture.coal_FR])%Z)
    by (vm_compute; reflexivity).
  split; [exact Hpos|].
  split; [vm_compute; reflexivity|].
  split; [vm_compute; reflexivity|].
  eexists. eexists.
  split; [exact (get_pop_weighted_share_correct Fixture.self Fixture.coal_DE
                   [Fixture.coal_DE; Fixture.coal_FR] Hpos)|].
  split; [exact (get_pop_weighted_share_correct Fixture.self Fixture.coal_FR
                   [Fixture.coal_DE; Fixture.coal_FR] Hpos)|].
  split; vm_compute; reflexivity.
Defined.

(** ** The monad *)

Lemma bind_ret {A B} (a : A) (k : A -> M B) : bind (ret a) k = k a.
Proof. unfold bind, ret. destruct (k a). reflexivity. Qed.

Lemma bind_lift_Return {A B} (a : A) (k : A -> M B) :
  bind (lift (Return a)) k = k a.
Proof. apply bind_ret. Qed.

Lemma outcome_bind {A B} (c : M A) (k : A -> M B) (a : A) :
  outcome c = Return a -> outcome (bind c k) = outcome (k a).
Proof.
  destruct c as [out r]. simpl. intros ->.
  destruct (k a). reflexivity.
Qed.

(** ** Region correspondence *)

Lemma not_shortcut (location : string) :
  ~ Spec.shortcut location ->
  Str.eqb location "GLO" = false /\
  Str.eqb location "RoW" = false /\
  Str.eqb location "IAI Area, Russia & RER w/o EU27 & EFTA" = false.
Proof.
  intros H. repeat split; apply Str_eqb_neq; intros ->; apply H;
    unfold Spec.shortcut; simpl; auto.
Qed.

(** C3, as the code has it.  For a location that is not one of the three
    shortcuts and that the geomatcher places in no REMIND region,
    [ecoinvent_to_remind_location] prints the diagnostic 'no loc for
    <location>' and returns [None]; it returns no list. *)
Theorem no_region_prints_and_returns_None
    (self : Electricity) (location : string) :
  ~ Spec.shortcut location ->
  remind_regions_within self location = Return [] ->
  ecoinvent_to_remind_location self location
  = ([NoLocFor location], Return PyNone).
Proof.
  intros Hs Hnone. destruct (not_shortcut location Hs) as [H1 [H2 H3]].
  unfold ecoinvent_to_remind_location.
  rewrite H1, H2, H3, Hnone. reflexivity.
Qed.

Lemma no_region_prints_and_returns_None_witness :
  ~ Spec.shortcut "AQ" /\
  remind_regions_within Fixture.self "AQ" = Return [] /\
  ecoinvent_to_remind_location Fixture.self "AQ"
  = ([NoLocFor "AQ"], Return PyNone).
Proof.
  assert (Hs : ~ Spec.shortcut "AQ").
  { unfold Spec.shortcut. simpl. intros [H|[H|[H|[]]]]; discriminate H. }
  assert (Hn : remind_regions_within Fixture.self "AQ" = Return [])
    by reflexivity.
  split; [exact Hs|]. split; [exact Hn|].
  exact (no_region_prints_and_returns_None Fixture.self "AQ" Hs Hn).
Defined.

(** C3, as the specification words it, fails: Antarctica lies in no REMIND
    region, and the method answers [None] where an empty list is claimed. *)
Lemma empty_list_when_no_region_fails :
  ~ Spec.empty_list_when_no_region Fixture.self.
Proof.
  intros H. specialize (H "AQ").
  destruct H as [_ H].
  - unfold Spec.shortcut. simpl. intros [H|[H|[H|[]]]]; discriminate H.
  - reflexivity.
  - vm_compute in H. discriminate H.
Qed.

(** ** Market composer: the shape of the records *)

Lemma bind_Return_inv {A B} (c : M A) (k : A -> M B) out (b : B) :
  bind c k = (out, Return b) ->
  exists out1 a out2,
    c = (out1, Return a) /\ k a = (out2, Return b) /\ out = out1 ++ out2.
Proof.
  destruct c as [out1 [a|e]]; simpl.
  - destruct (k a) as [out2 r] eqn:E. intros H. inversion H; subst.
    exists out1, a, out2. auto.
  - discriminate.
Qed.

Lemma lift_Return_inv {A} (r : result A) out (a : A) :
  lift r = (out, Return a) -> r = Return a /\ out = [].
Proof. unfold lift. intros H. inversion H. auto. Qed.

Lemma ret_inv {A} (a b : A) out :
  ret a = (out, Return b) -> a = b /\ out = [].
Proof. unfold ret. intros H. inversion H. auto. Qed.

Ltac invert_bind H :=
  let out1 := fresh "out" in
  let a := fresh "v" in
  let out2 := fresh "out" in
  let H1 := fresh "Hc" in
  let H2 := fresh "Hk" in
  let H3 := fresh "Hout" in
  apply bind_Return_inv in H;
  destruct H as [out1 [a [out2 [H1 [H2 H3]]]]].

(** A loop that adds one record for each region. *)
Lemma foldM_appends (step : list Dataset -> string -> M (list Dataset))
    (P : list Dataset -> string -> Dataset -> Prop) :
  (forall db region out db',
      step db region = (out, Return db') ->
      exists m, db' = db ++ [m] /\ P db region m) ->
  forall regions db out db',
    foldM step regions db = (out, Return db') ->
    exists new, db' = db ++ new /\
                Forall2 (fun region m => exists db0, P db0 region m)
                        regions new.
Proof.
  intros Hstep. induction regions as [|r regions IH]; intros db out db' H.
  - apply ret_inv in H. destruct H as [<- _].
    exists []. rewrite app_nil_r. split; [reflexivity | constructor].
  - simpl in H. invert_bind H.
    apply Hstep in Hc. destruct Hc as [m [-> Hm]].
    apply IH in Hk. destruct Hk as [new [-> Hnew]].
    exists (m :: new). rewrite <- app_assoc. split; [reflexivity|].
    constructor; [exists db; exact Hm | exact Hnew].
Qed.

(** The same loop, with the database that each step has read: the initial
    one and the records added for the regions before. *)
Lemma foldM_appends_at (step : list Dataset -> string -> M (list Dataset))
    (P : list Dataset -> string -> Dataset -> Prop) :
  (forall db region out db',
      step db region = (out, Return db') ->
      exists m, db' = db ++ [m] /\ P db region m) ->
  forall regions db out db',
    foldM step regions db = (out, Return db') ->
    exists new,
      db' = db ++ new /\
      length new = length regions /\
      forall i region m,
        regions !! i = Some region -> new !! i = Some m ->
        P (db ++ take i new) region m.
Proof.
  intros Hstep. induction regions as [|r regions IH]; intros db out db' H.
  - apply ret_inv in H. destruct H as [<- _].
    exists []. rewrite app_nil_r. split; [reflexivity|].
    split; [reflexivity|]. intros i region m Hr. destruct i; discriminate Hr.
  - simpl in H. invert_bind H.
    apply Hstep in Hc. destruct Hc as [m [-> Hm]].
    apply IH in Hk. destruct Hk as [new [-> [Hlen Hnew]]].
    exists (m :: new). rewrite <- app_assoc. split; [reflexivity|].
    split; [simpl; congruence|].
    intros [|i] region m' Hr Hm'; simpl in Hr, Hm'.
    + inversion Hr; inversion Hm'; subst. simpl. rewrite app_nil_r. exact Hm.
    + simpl. specialize (Hnew i region m' Hr Hm').
      rewrite <- app_assoc in Hnew. exact Hnew.
Qed.

(** The loop over the technologies of the high voltage builder appends one
    block of exchanges for each contributing technology. *)
Lemma add_technology_loop (self : Electricity) (db : list Dataset)
    (obj : pyobj) (region : string) :
  forall techs acc0 out acc,
    foldM (add_technology self db obj region) techs acc0 = (out, Return acc) ->
    exists blocks,
      acc = acc0 ++ concat blocks /\
      Forall2 (fun t block =>
                 technology_exchanges self db obj t region = Return block)
              (Spec.contributing self techs region) blocks.
Proof.
  induction techs as [|t techs IH]; intros acc0 out acc H.
  - apply ret_inv in H. destruct H as [<- _].
    exists []. simpl. rewrite app_nil_r. split; [reflexivity | constructor].
  - simpl in H. invert_bind H.
    unfold add_technology in Hc. unfold Spec.contributing. simpl.
    destruct (Num.nonzero (electricity_markets self t region)).
    + invert_bind Hc. apply lift_Return_inv in Hc0. destruct Hc0 as [Hb _].
      apply ret_inv in Hk0. destruct Hk0 as [<- _].
      apply IH in Hk. destruct Hk as [blocks [-> Hblocks]].
      exists (v0 :: blocks). simpl. rewrite <- app_assoc.
      split; [reflexivity|]. constructor; assumption.
    + apply ret_inv in Hc. destruct Hc as [<- _].
      apply IH in Hk. exact Hk.
Qed.

(** The same for the loop over the solar technologies of the low voltage
    builder, which also accumulates the shares. *)
Lemma add_solar_technology_loop (self : Electricity) (db : list Dataset)
    (region : string) :
  forall techs solar0 acc0 out solar acc,
    foldM (add_solar_technology self db region) techs (solar0, acc0)
    = (out, Return (solar, acc)) ->
    exists blocks,
      acc = acc0 ++ concat blocks /\
      Forall2 (fun t block =>
                 exists obj,
                   outcome (remind_to_ecoinvent_location self region)
                   = Return obj /\
                   technology_exchanges self db obj t region = Return block)
              (Spec.contributing self techs region) blocks /\
      solar = fold_left Num.add
                (map (fun t => electricity_markets self t region)
                     (Spec.contributing self techs region)) solar0.
Proof.
  induction techs as [|t techs IH]; intros solar0 acc0 out solar acc H.
  - apply ret_inv in H. destruct H as [H _]. inversion H; subst.
    exists []. simpl. rewrite app_nil_r. repeat split; constructor.
  - simpl in H. invert_bind H. destruct v as [solar1 acc1].
    unfold add_solar_technology in Hc. unfold Spec.contributing. simpl.
    destruct (Num.nonzero (electricity_markets self t region)).
    + invert_bind Hc.
      destruct (technology_exchanges self db v t region) as [added|e] eqn:Hb;
        [|discriminate Hk0].
      inversion Hk0; subst.
      apply IH in Hk. destruct Hk as [blocks [-> [Hblocks Hsolar]]].
      exists (added :: blocks). simpl. rewrite <- app_assoc.
      split; [reflexivity|]. split; [|exact Hsolar].
      constructor; [|exact Hblocks].
      exists v. rewrite Hc0. auto.
    + apply ret_inv in Hc. destruct Hc as [E _]. inversion E; subst.
      apply IH in Hk. exact Hk.
Qed.

(** ** Market composer: the exchanges of a technology *)

Lemma mapR_Return {A B} (f : A -> result B) (l : list A) (bs : list B) :
  mapR f l = Return bs -> Forall2 (fun a b => f a = Return b) l bs.
Proof.
  revert bs. induction l as [|a l IH]; intros bs H; simpl in H.
  - inversion H. constructor.
  - destruct (f a) as [b|e] eqn:Ea; [|discriminate H]. simpl in H.
    destruct (mapR f l) as [bs'|e]; [|discriminate H]. simpl in H.
    inversion H; subst. constructor; auto.
Qed.

Lemma supplier_exchanges_inputs (self : Electricity) (amount : number)
    (suppliers : list Dataset) (block : list Exchange) :
  supplier_exchanges self amount suppliers = Return block ->
  Forall2 Spec.input_from block suppliers.
Proof.
  intros H. apply mapR_Return in H.
  induction H as [|s e l bs Hs _ IH]; constructor; auto.
  destruct (get_pop_weighted_share self s suppliers); simpl in Hs;
    [|discriminate Hs].
  inversion Hs. unfold Spec.input_from. simpl. auto.
Qed.

Lemma sum_Fin_from (qs : list Q) (start : Q) :
  fold_left Num.add (map Fin qs) (Fin start) = Fin (fold_left Qplus qs start).
Proof.
  revert start. induction qs as [|q qs IH]; intros start; simpl.
  - reflexivity.
  - apply IH.
Qed.

Lemma weighted_sum_from (a : Q) (pops : list Z) (T : Z) (start : Q) :
  (fold_left Qplus (map (fun p => a * (inject_Z p / inject_Z T)) pops) start
   == start + a * (inject_Z (fold_right Z.add 0%Z pops) / inject_Z T))%Q.
Proof.
  revert start. induction pops as [|p pops IH]; intros start; simpl.
  - unfold Qdiv. ring.
  - rewrite IH, inject_Z_plus. unfold Qdiv. ring.
Qed.

(** The amount of every exchange of the block, when the populations of the
    suppliers sum to [T]. *)
Lemma supplier_exchanges_amounts (self : Electricity) (a : Q)
    (suppliers : list Dataset) :
  forall l block,
    mapR (fun supplier =>
            share <~ get_pop_weighted_share self supplier suppliers ;;
            Return (market_exchange technosphere (Num.mul (Fin a) share)
                      (reference_product supplier) (ds_name supplier)
                      (ds_unit supplier) (ds_location supplier))) l
    = Return block ->
    l <> [] ->
    locs_population self suppliers <> 0%Z /\
    map exc_amount block =
    map Fin
      (map (fun p => (a * (inject_Z p / inject_Z (locs_population self suppliers)))%Q)
           (map (fun s => default 0%Z (population self !! ds_location s)) l)).
Proof.
  intros l block H Hne. apply mapR_Return in H.
  assert (HT : locs_population self suppliers <> 0%Z).
  { destruct H as [|s e l bs Hs _]; [congruence|].
    unfold get_pop_weighted_share in Hs.
    destruct (Z.eqb_spec (locs_population self suppliers) 0);
      [discriminate Hs | assumption]. }
  split; [exact HT|]. clear Hne.
  induction H as [|s e l bs Hs _ IH]; [reflexivity|].
  simpl. rewrite IH. f_equal.
  unfold get_pop_weighted_share in Hs.
  destruct (Z.eqb_spec (locs_population self suppliers) 0); [contradiction|].
  simpl in Hs. inversion Hs. reflexivity.
Qed.

(** The amounts of the block of a technology sum to its share. *)
Lemma supplier_exchanges_sum (self : Electricity) (a : Q)
    (suppliers : list Dataset) (block : list Exchange) :
  supplier_exchanges self (Fin a) suppliers = Return block ->
  suppliers <> [] ->
  Num.sum (map exc_amount block) ≈ Fin a.
Proof.
  intros H Hne.
  destruct (supplier_exchanges_amounts self a suppliers suppliers block H Hne)
    as [HT ->].
  unfold Num.sum, Num.zero. rewrite sum_Fin_from. simpl.
  rewrite weighted_sum_from.
  change (fold_right Z.add 0%Z
            (map (fun s => default 0%Z (population self !! ds_location s))
                 suppliers))
    with (Spec.population_sum self suppliers).
  rewrite <- locs_population_sum.
  assert (Hq : ~ (inject_Z (locs_population self suppliers) == 0)%Q).
  { intros E. apply HT. unfold Qeq in E. simpl in E. lia. }
  field. exact Hq.
Qed.

Lemma technology_exchanges_allocated (self : Electricity) (db : list Dataset)
    (obj : pyobj) (region technology : string) (block : list Exchange) :
  outcome (remind_to_ecoinvent_location self region) = Return obj ->
  technology_exchanges self db obj technology region = Return block ->
  Spec.allocated self db region technology block.
Proof.
  intros Hobj H. unfold technology_exchanges in H.
  destruct (getitem (rev_electricity_market_labels self) technology)
    as [label|e] eqn:Hl; [|discriminate H]. simpl in H.
  destruct (getitem (powerplant_map self) label)
    as [names|e] eqn:Hn; [|discriminate H]. simpl in H.
  destruct (suppliers_with_fallback db obj names)
    as [suppliers|e] eqn:Hs; [|discriminate H]. simpl in H.
  exists suppliers. split; [|split].
  - exists obj, label, names. auto.
  - eapply supplier_exchanges_inputs. exact H.
  - intros Hne a Ha. rewrite Ha in H.
    eapply supplier_exchanges_sum; eauto.
Qed.

Lemma outcome_Return {A} (c : M A) (a : A) :
  outcome c = Return a -> exists out, c = (out, Return a).
Proof. destruct c as [out r]. simpl. intros ->. exists out. reflexivity. Qed.

(** The record that the high voltage builder adds for a region: the
    production exchange, then one block for each contributing technology. *)
Lemma high_voltage_market_shape (self : Electricity) (uuid4 : nat -> string)
    (db : list Dataset) (region : string) (db' : list Dataset) :
  outcome (high_voltage_market self uuid4 db region) = Return db' ->
  exists m blocks,
    db' = db ++ [m] /\
    ds_location m = region /\
    ds_name m = market_name self "high" /\
    exchanges m =
      market_exchange production (Fin 1) (market_product "high")
        (market_name self "high") "kilowatt hour" region :: concat blocks /\
    Forall2 (Spec.allocated self db region)
      (Spec.contributing self (high_voltage_technologies self) region) blocks.
Proof.
  intros H. apply outcome_Return in H. destruct H as [out H].
  unfold high_voltage_market in H.
  invert_bind H. invert_bind Hk. invert_bind Hk0.
  apply ret_inv in Hk. destruct Hk as [<- _].
  apply add_technology_loop in Hc1. destruct Hc1 as [blocks [-> Hblocks]].
  eexists. exists blocks. split; [reflexivity|]. simpl.
  repeat split; try reflexivity.
  eapply Forall2_impl; [exact Hblocks|].
  intros t block Ht. eapply technology_exchanges_allocated; [|exact Ht].
  rewrite Hc. reflexivity.
Qed.

Lemma medium_voltage_market_shape (self : Electricity) (uuid1 : nat -> string)
    (db : list Dataset) (region : string) (db' : list Dataset) :
  outcome (medium_voltage_market self uuid1 db region) = Return db' ->
  exists m,
    db' = db ++ [m] /\
    ds_location m = region /\
    ds_name m = market_name self "medium" /\
    exchanges m = medium_voltage_exchanges self region.
Proof.
  intros H. apply outcome_Return in H. destruct H as [out H].
  unfold medium_voltage_market in H.
  invert_bind H. apply ret_inv in Hk. destruct Hk as [<- _].
  eexists. split; [reflexivity|]. simpl. auto.
Qed.

(** The record that the low voltage builder adds for a region: four fixed
    exchanges, one block for each contributing solar technology, and the
    inputs from the medium voltage market and from the market itself. *)
Lemma low_voltage_market_shape (self : Electricity) (uuid4 : nat -> string)
    (db : list Dataset) (region : string) (db' : list Dataset) :
  outcome (low_voltage_market self uuid4 db region) = Return db' ->
  exists m blocks solar_amount,
    db' = db ++ [m] /\
    ds_location m = region /\
    ds_name m = market_name self "low" /\
    exchanges m =
      low_voltage_first self region ++ concat blocks
        ++ low_voltage_last self region solar_amount /\
    Forall2 (Spec.allocated self db region)
      (Spec.contributing self (solar_technologies self) region) blocks /\
    solar_amount =
      fold_left Num.add
        (map (fun t => electricity_markets self t region)
             (Spec.contributing self (solar_technologies self) region))
        (Fin 0).
Proof.
  intros H. apply outcome_Return in H. destruct H as [out H].
  unfold low_voltage_market in H.
  invert_bind H. invert_bind Hk. destruct v0 as [solar acc].
  apply ret_inv in Hk0. destruct Hk0 as [<- _].
  apply add_solar_technology_loop in Hc0.
  destruct Hc0 as [blocks [-> [Hblocks Hsolar]]].
  eexists. exists blocks, solar. split; [reflexivity|].
  cbn [ds_location ds_name exchanges new_dataset].
  rewrite <- app_assoc.
  repeat split; try reflexivity; [|exact Hsolar].
  eapply Forall2_impl; [exact Hblocks|].
  intros t block [obj [Hobj Ht]].
  eapply technology_exchanges_allocated; eauto.
Qed.

(** ** Market composer: one production exchange *)

Lemma allocated_blocks_technosphere (self : Electricity) (db : list Dataset)
    (region : string) (techs : list string) (blocks : list (list Exchange)) :
  Forall2 (Spec.allocated self db region) techs blocks ->
  List.filter Spec.is_production (concat blocks) = [].
Proof.
  induction 1 as [|t block techs blocks Hb _ IH]; [reflexivity|].
  simpl. rewrite List.filter_app, IH, app_nil_r.
  destruct Hb as [suppliers [_ [Hin _]]].
  induction Hin as [|e s block suppliers [He _] _ IHb]; [reflexivity|].
  simpl. unfold Spec.is_production at 1. rewrite He. exact IHb.
Qed.

Lemma appended_markets (regions : list string) (new : list Dataset)
    (P : Dataset -> Prop) :
  Forall2 (fun region m =>
             exists db0 : list Dataset, ds_location m = region /\ P m)
          regions new ->
  map ds_location new = regions /\ Forall P new.
Proof.
  induction 1 as [|r m regions new [_ [Hloc HP]] _ [IH1 IH2]].
  - split; constructor.
  - split; [simpl; congruence | constructor; assumption].
Qed.

(** C8. Each of the three builders, when it completes, has appended one
    record for each scenario region, in the order of the regions, and every
    one of these records has exactly one exchange of type 'production',
    whose amount is 1. *)
Theorem market_has_one_production
    (self : Electricity) (uuid4 uuid1 : nat -> string) (db : list Dataset) :
  (forall db',
      outcome (create_new_markets_high_voltage self uuid4 db) = Return db' ->
      exists new, db' = db ++ new /\
                  map ds_location new = rmd_regions self /\
                  Forall Spec.one_production new) /\
  (forall db',
      outcome (create_new_markets_medium_voltage self uuid1 db) = Return db' ->
      exists new, db' = db ++ new /\
                  map ds_location new = rmd_regions self /\
                  Forall Spec.one_production new) /\
  (forall db',
      outcome (create_new_markets_low_voltage self uuid4 db) = Return db' ->
      exists new, db' = db ++ new /\
                  map ds_location new = rmd_regions self /\
                  Forall Spec.one_production new).
Proof.
  split; [|split]; intros db' H; apply outcome_Return in H;
    destruct H as [out H].
  - eapply (foldM_appends _
              (fun _ region m => ds_location m = region /\
                                 Spec.one_production m)) in H.
    + destruct H as [new [-> Hnew]]. exists new. split; [reflexivity|].
      apply appended_markets. exact Hnew.
    + clear. intros db region out db' H.
      assert (Ho : outcome (high_voltage_market self uuid4 db region)
                   = Return db') by (rewrite H; reflexivity).
      apply high_voltage_market_shape in Ho.
      destruct Ho as [m [blocks [-> [Hloc [_ [Hexc Hblocks]]]]]].
      exists m. repeat split; auto.
      eexists. rewrite Hexc. simpl.
      rewrite (allocated_blocks_technosphere _ _ _ _ _ Hblocks).
      split; reflexivity.
  - eapply (foldM_appends _
              (fun _ region m => ds_location m = region /\
                                 Spec.one_production m)) in H.
    + destruct H as [new [-> Hnew]]. exists new. split; [reflexivity|].
      apply appended_markets. exact Hnew.
    + clear. intros db region out db' H.
      assert (Ho : outcome (medium_voltage_market self uuid1 db region)
                   = Return db') by (rewrite H; reflexivity).
      apply medium_voltage_market_shape in Ho.
      destruct Ho as [m [-> [Hloc [_ Hexc]]]].
      exists m. repeat split; auto.
      eexists. rewrite Hexc. simpl. split; reflexivity.
  - eapply (foldM_appends _
              (fun _ region m => ds_location m = region /\
                                 Spec.one_production m)) in H.
    + destruct H as [new [-> Hnew]]. exists new. split; [reflexivity|].
      apply appended_markets. exact Hnew.
    + clear. intros db region out db' H.
      assert (Ho : outcome (low_voltage_market self uuid4 db region)
                   = Return db') by (rewrite H; reflexivity).
      apply low_voltage_market_shape in Ho.
      destruct Ho as [m [blocks [solar [-> [Hloc [_ [Hexc [Hblocks _]]]]]]]].
      exists m. repeat split; auto.
      eexists. rewrite Hexc.
      rewrite !List.filter_app.
      rewrite (allocated_blocks_technosphere _ _ _ _ _ Hblocks).
      simpl. split; reflexivity.
Qed.

(** The three builders complete on the small inventory, and the records
    they add for the region EUR have one production exchange of amount 1. *)
Lemma market_has_one_production_witness :
  exists high medium low,
    outcome (create_new_markets_high_voltage Fixture.self Fixture.uuid
               Fixture.db) = Return (Fixture.db ++ high) /\
    outcome (create_new_markets_medium_voltage Fixture.self Fixture.uuid
               Fixture.db) = Return (Fixture.db ++ medium) /\
    outcome (create_new_markets_low_voltage Fixture.self Fixture.uuid
               Fixture.db) = Return (Fixture.db ++ low) /\
    map ds_location (high ++ medium ++ low) = ["EUR"; "EUR"; "EUR"] /\
    Forall Spec.one_production (high ++ medium ++ low).
Proof.
  destruct (market_has_one_production Fixture.self Fixture.uuid Fixture.uuid
              Fixture.db) as [Hh [Hm Hl]].
  destruct (Hh _ eq_refl) as [high [Eh [Lh Ph]]].
  destruct (Hm _ eq_refl) as [medium [Em [Lm Pm]]].
  destruct (Hl _ eq_refl) as [low [El [Ll Pl]]].
  exists high, medium, low.
  split; [rewrite <- Eh; reflexivity|].
  split; [rewrite <- Em; reflexivity|].
  split; [rewrite <- El; reflexivity|].
  split.
  - rewrite !map_app, Lh, Lm, Ll. reflexivity.
  - rewrite !Forall_app. auto.
Defined.

(** ** Market composer: the shares of the technologies *)

(** C1, as the code has it.  When the high voltage builder completes it
    has added one record for each region.  The record of a region consists
    of the production exchange followed by one block of technosphere
    exchanges for each non-solar technology with a non-zero share, one
    exchange for each supplier resolved for the technology in the database
    as the builder found it; when there is such a supplier and the share is
    a finite number, the amounts of the block sum to the share.  The same
    holds for the low voltage builder and the solar technologies, whose
    blocks stand between the four fixed exchanges and the two closing
    inputs.  The amounts are not told apart by product: blocks of several
    technologies, and the closing inputs, can carry the same product. *)
Theorem technology_blocks_sum_to_share
    (self : Electricity) (uuid4 : nat -> string) (db : list Dataset) :
  (forall db',
      outcome (create_new_markets_high_voltage self uuid4 db) = Return db' ->
      exists new,
        db' = db ++ new /\
        length new = length (rmd_regions self) /\
        forall i region m,
          rmd_regions self !! i = Some region -> new !! i = Some m ->
          exists blocks,
            ds_location m = region /\
            exchanges m =
              market_exchange production (Fin 1) (market_product "high")
                (market_name self "high") "kilowatt hour" region
              :: concat blocks /\
            Forall2 (Spec.allocated self (db ++ take i new) region)
              (Spec.contributing self (high_voltage_technologies self) region)
              blocks) /\
  (forall db',
      outcome (create_new_markets_low_voltage self uuid4 db) = Return db' ->
      exists new,
        db' = db ++ new /\
        length new = length (rmd_regions self) /\
        forall i region m,
          rmd_regions self !! i = Some region -> new !! i = Some m ->
          exists blocks solar_amount,
            ds_location m = region /\
            exchanges m =
              low_voltage_first self region ++ concat blocks
                ++ low_voltage_last self region solar_amount /\
            Forall2 (Spec.allocated self (db ++ take i new) region)
              (Spec.contributing self (solar_technologies self) region)
              blocks).
Proof.
  split; intros db' H; apply outcome_Return in H; destruct H as [out H].
  - eapply (foldM_appends_at _
              (fun db0 region m =>
                 exists blocks,
                   ds_location m = region /\
                   exchanges m =
                     market_exchange production (Fin 1) (market_product "high")
                       (market_name self "high") "kilowatt hour" region
                     :: concat blocks /\
                   Forall2 (Spec.allocated self db0 region)
                     (Spec.contributing self
                        (high_voltage_technologies self) region) blocks))
      in H; [exact H|].
    clear. intros db region out db' H.
    assert (Ho : outcome (high_voltage_market self uuid4 db region)
                 = Return db') by (rewrite H; reflexivity).
    apply high_voltage_market_shape in Ho.
    destruct Ho as [m [blocks [-> [Hloc [_ [Hexc Hblocks]]]]]].
    exists m. split; [reflexivity|]. exists blocks. auto.
  - eapply (foldM_appends_at _
              (fun db0 region m =>
                 exists blocks solar_amount,
                   ds_location m = region /\
                   exchanges m =
                     low_voltage_first self region ++ concat blocks
                       ++ low_voltage_last self region solar_amount /\
                   Forall2 (Spec.allocated self db0 region)
                     (Spec.contributing self
                        (solar_technologies self) region) blocks))
      in H; [exact H|].
    clear. intros db region out db' H.
    assert (Ho : outcome (low_voltage_market self uuid4 db region)
                 = Return db') by (rewrite H; reflexivity).
    apply low_voltage_market_shape in Ho.
    destruct Ho as [m [blocks [solar [-> [Hloc [_ [Hexc [Hblocks _]]]]]]]].
    exists m. split; [reflexivity|]. exists blocks, solar. auto.
Qed.

(** Both builders complete on the small inventory, where coal, gas and the
    solar technology have the shares 0.5, 0.3 and 0.2 in EUR: the blocks of
    the two records of EUR are allocated to these technologies. *)
Lemma technology_blocks_sum_to_share_witness :
  exists high low high_blocks low_blocks solar_amount,
    outcome (create_new_markets_high_voltage Fixture.self Fixture.uuid
               Fixture.db) = Return (Fixture.db ++ [high]) /\
    outcome (create_new_markets_low_voltage Fixture.self Fixture.uuid
               Fixture.db) = Return (Fixture.db ++ [low]) /\
    exchanges high =
      market_exchange production (Fin 1) (market_product "high")
        (market_name Fixture.self "high") "kilowatt hour" "EUR"
      :: concat high_blocks /\
    Forall2 (Spec.allocated Fixture.self Fixture.db "EUR")
      [Fixture.coal; Fixture.gas] high_blocks /\
    exchanges low =
      low_voltage_first Fixture.self "EUR" ++ concat low_blocks
        ++ low_voltage_last Fixture.self "EUR" solar_amount /\
    Forall2 (Spec.allocated Fixture.self Fixture.db "EUR")
      [Fixture.solar] low_blocks.
Proof.
  destruct (technology_blocks_sum_to_share Fixture.self Fixture.uuid
              Fixture.db) as [Hh Hl].
  destruct (Hh _ eq_refl) as [high [Eh [Lh Ph]]].
  destruct (Hl _ eq_refl) as [low [El [Ll Pl]]].
  destruct high as [|high [|]]; try discriminate Lh.
  destruct low as [|low [|]]; try discriminate Ll.
  destruct (Ph 0%nat "EUR" high eq_refl eq_refl) as [hb [_ [Hhe Hha]]].
  destruct (Pl 0%nat "EUR" low eq_refl eq_refl) as [lb [solar [_ [Hle Hla]]]].
  exists high, low, hb, lb, solar.
  split; [rewrite <- Eh; reflexivity|].
  split; [rewrite <- El; reflexivity|].
  split; [exact Hhe|]. split; [exact Hha|].
  split; [exact Hle | exact Hla].
Defined.

(** C1, as the specification words it, fails on the small inventory.  In
    the high voltage market of EUR the exchanges whose product is
    'electricity, high voltage' are those of coal and of gas: they sum to
    0.8, not to the share 0.5 of coal.  In the low voltage market the
    exchanges whose product is 'electricity, low voltage' are the solar
    input and the market's own input of 0.0298: they sum to 0.2298, not to
    the solar share 0.2. *)
Lemma share_by_product_fails :
  ~ Spec.share_by_product Fixture.self
      (high_voltage_market Fixture.self Fixture.uuid)
      (high_voltage_technologies Fixture.self) /\
  ~ Spec.share_by_product Fixture.self
      (low_voltage_market Fixture.self Fixture.uuid)
      (solar_technologies Fixture.self).
Proof.
  split; intros H.
  - assert (W := H Fixture.db "EUR" [] _ Fixture.coal
                   [Fixture.coal_DE; Fixture.coal_FR] Fixture.coal_DE 0.5%Q
                   eq_refl).
    unfold Num.within in W. vm_compute in W.
    apply W; try reflexivity.
    + left. reflexivity.
    + discriminate.
    + exists (PyList ["DE"; "FR"; "RER"]), "Coal PC",
        ["electricity production, hard coal"]. auto.
    + left. reflexivity.
  - assert (W := H Fixture.db "EUR" [] _ Fixture.solar
                   [Fixture.pv_DE] Fixture.pv_DE 0.2%Q eq_refl).
    unfold Num.within in W. vm_compute in W.
    apply W; try reflexivity.
    + left. reflexivity.
    + discriminate.
    + exists (PyList ["DE"; "FR"; "RER"]), "Solar PV",
        ["electricity production, photovoltaic, 3kWp slanted-roof installation"].
      auto.
    + left. reflexivity.
Qed.

(** ** Emission rescaling *)

Lemma mul_NaN (x : number) : Num.mul x NaN = NaN.
Proof. destruct x; reflexivity. Qed.

(** What [rescale_emission] does once the intensities are fetched. *)
Lemma rescale_emission_fetched (self : Electricity)
    (remind_technology : string) (ds : Dataset) (exc : Exchange)
    (label : string) (values : list number) :
  Spec.target self remind_technology ds exc label values ->
  exists out,
    rescale_emission self remind_technology ds exc =
    bind (out, Return tt) (fun _ =>
      nan <- lift (truth_of_isnan values) ;;
      _ <- (if nan : bool
            then print (NanEmission values label (ds_name ds))
            else ret tt) ;;
      target <- lift (first_value values) ;;
      if Num.is_zero (exc_amount exc)
      then ret (rescale_exchange exc (Num.div target (Fin 1)) true)
      else ret (rescale_exchange exc (Num.div target (exc_amount exc))
                  remove_uncertainty_default)).
Proof.
  intros [region [sector [Hl [Hr [Hs Hv]]]]].
  apply outcome_Return in Hr. destruct Hr as [out Hr].
  exists out. unfold rescale_emission.
  rewrite Hl, bind_lift_Return, Hr, Hs. simpl. rewrite Hv. simpl.
  destruct (truth_of_isnan values) as [[|]|e]; simpl;
    destruct (first_value values); simpl;
    destruct (Num.is_zero (exc_amount exc)); reflexivity.
Qed.

(** In the branch of the non-zero amounts the rescaling reaches the target:
    an amount 2 and a target 1 give the factor 0.5 and the amount 1. *)
Lemma rescale_emission_nonzero (self : Electricity)
    (remind_technology : string) (ds : Dataset) (exc : Exchange)
    (label : string) (q t : Q) :
  Spec.target self remind_technology ds exc label [Fin t] ->
  exc_amount exc = Fin q -> ~ (q == 0)%Q ->
  exists exc',
    outcome (rescale_emission self remind_technology ds exc) = Return exc' /\
    exc' = rescale_exchange exc (Fin (t / q)) remove_uncertainty_default /\
    exc_amount exc' ≈ Fin t.
Proof.
  intros Ht Hq Hne.
  destruct (rescale_emission_fetched _ _ _ _ _ _ Ht) as [out ->].
  assert (Hz : Qeq_bool q 0 = false).
  { apply not_true_iff_false. intros E. apply Qeq_bool_iff in E. auto. }
  simpl. rewrite Hq. simpl. rewrite Hz. simpl.
  eexists. split; [reflexivity|]. split; [reflexivity|].
  simpl. rewrite Hq. simpl. field. exact Hne.
Qed.

(** In the branch of the zero amounts the amount is multiplied by the
    target, as in the other branch: it stays zero. *)
Lemma rescale_emission_zero (self : Electricity)
    (remind_technology : string) (ds : Dataset) (exc : Exchange)
    (label : string) (q t : Q) :
  Spec.target self remind_technology ds exc label [Fin t] ->
  exc_amount exc = Fin q -> (q == 0)%Q ->
  exists exc',
    outcome (rescale_emission self remind_technology ds exc) = Return exc' /\
    exc' = rescale_exchange exc (Fin (t / 1)) true /\
    exc_amount exc' ≈ Fin 0.
Proof.
  intros Ht Hq Hz.
  destruct (rescale_emission_fetched _ _ _ _ _ _ Ht) as [out ->].
  apply Qeq_bool_iff in Hz.
  simpl. rewrite Hq. simpl. rewrite Hz. simpl.
  eexists. split; [reflexivity|]. split; [reflexivity|].
  simpl. rewrite Hq. simpl. apply Qeq_bool_iff in Hz. rewrite Hz. ring.
Qed.

(** C2 at the input of the specification's example: a German coal plant
    with a sulfur dioxide emission of amount 0 and one of amount 2, for which
    the scenario gives the intensity 0.042.  The pass completes and prints
    nothing; the emission of amount 2 ends at 0.042; the emission of amount 0
    gets the uncertainty type 0 and a 'loc' equal to its amount, and stays
    at 0: it is not set to 0.042. *)
Theorem zero_emission_stays_zero :
  Spec.target Fixture.self "Coal PC" Fixture.emitting_plant Fixture.so2_zero
    "SO2" [Fin 0.042] /\
  exists production zero two,
    rescale_emissions Fixture.self "Coal PC" Fixture.emitting_plant
    = ([], Return (set_exchanges Fixture.emitting_plant
                     [production; zero; two])) /\
    rescale_emission Fixture.self "Coal PC" Fixture.emitting_plant
      Fixture.so2_zero = ([], Return zero) /\
    exc_amount two ≈ Fin 0.042 /\
    exc_amount zero ≈ Fin 0 /\
    ~ exc_amount zero ≈ Fin 0.042 /\
    uncertainty_type zero = Some 0%Z /\
    exc_loc zero = Some (exc_amount zero).
Proof.
  split.
  - exists (PyList ["EUR"]), "Power|Coal". repeat split; reflexivity.
  - eexists. eexists. eexists.
    split; [vm_compute; reflexivity|].
    split; [vm_compute; reflexivity|].
    repeat split; try reflexivity. vm_compute. discriminate.
Qed.

(** C4, as the code has it.  When the intensity fetched for an exchange is
    NaN, the rescaler prints the value with the pollutant label and the name
    of the dataset, raises nothing, and the amount of the exchange becomes
    NaN. *)
Theorem nan_emission_is_printed_and_propagated
    (self : Electricity) (remind_technology : string) (ds : Dataset)
    (exc : Exchange) (label : string) :
  Spec.target self remind_technology ds exc label [NaN] ->
  exists out exc',
    rescale_emission self remind_technology ds exc
    = (out ++ [NanEmission [NaN] label (ds_name ds)], Return exc') /\
    exc_amount exc' = NaN.
Proof.
  intros Ht.
  destruct (rescale_emission_fetched _ _ _ _ _ _ Ht) as [out ->].
  exists out. simpl.
  destruct (Num.is_zero (exc_amount exc)); simpl;
    eexists; (split; [reflexivity|]); simpl; apply mul_NaN.
Qed.

Lemma nan_emission_is_printed_and_propagated_witness :
  Spec.target Fixture.self "Coal PC" Fixture.coal_DE Fixture.nox
    "NOx" [NaN] /\
  exists out exc',
    rescale_emission Fixture.self "Coal PC" Fixture.coal_DE Fixture.nox
    = (out ++ [NanEmission [NaN] "NOx" (ds_name Fixture.coal_DE)],
       Return exc') /\
    exc_amount exc' = NaN.
Proof.
  assert (Ht : Spec.target Fixture.self "Coal PC" Fixture.coal_DE Fixture.nox
                 "NOx" [NaN]).
  { exists (PyList ["EUR"]), "Power|Coal". repeat split; reflexivity. }
  split; [exact Ht|].
  exact (nan_emission_is_printed_and_propagated Fixture.self "Coal PC"
           Fixture.coal_DE Fixture.nox "NOx" Ht).
Defined.

(** C4, as the specification words it, fails: for the nitrogen oxides of
    the German coal plant the scenario gives NaN, and the rescaler returns
    an exchange. *)
Lemma nan_is_an_error_fails : ~ Spec.nan_is_an_error Fixture.self.
Proof.
  intros H.
  destruct (H "Coal PC" Fixture.coal_DE Fixture.nox "NOx") as [e He].
  - exists (PyList ["EUR"]), "Power|Coal". repeat split; reflexivity.
  - vm_compute in He. discriminate He.
Qed.

(** ** Supplier resolution *)

Lemma mem_In (a : string) (l : list string) :
  Str.mem a l = true <-> In a l.
Proof.
  unfold Str.mem. rewrite existsb_exists. split.
  - intros [x [Hin E]]. apply Str_eqb_eq in E. congruence.
  - intros Hin. exists a. split; [exact Hin | apply Str_eqb_eq; reflexivity].
Qed.

(** The records found are those of the database with one of the names, one
    of the locations and the unit 'kilowatt hour'. *)
Lemma candidates_spec (db : list Dataset) (names locations : list string)
    (ds : Dataset) :
  In ds (Spec.candidates db names locations) <->
  In ds db /\ In (ds_name ds) names /\ In (ds_location ds) locations /\
  ds_unit ds = "kilowatt hour".
Proof.
  unfold Spec.candidates. rewrite filter_In, !andb_true_iff, !mem_In.
  rewrite Str_eqb_eq. tauto.
Qed.

Lemma get_suppliers_of_a_list (db : list Dataset)
    (locations names : list string) :
  get_suppliers_of_a_region db (PyList locations) names
  = Return (Spec.candidates db names locations).
Proof. reflexivity. Qed.

(** For a region whose locations come as a list, supplier resolution is the
    cascade: the region's locations, then 'RER', then 'RoW'. *)
Lemma suppliers_with_fallback_cascade (db : list Dataset)
    (locations names : list string) :
  suppliers_with_fallback db (PyList locations) names
  = Return (Spec.cascade db names locations).
Proof.
  unfold suppliers_with_fallback, Spec.cascade.
  rewrite !get_suppliers_of_a_list. simpl.
  destruct (Spec.candidates db names locations) as [|s l]; simpl.
  - destruct (Spec.candidates db names ["RER"]); reflexivity.
  - reflexivity.
Qed.

(** For every instance the region "World" is answered by the string "GLO",
    not by a list. *)
Lemma World_is_the_string_GLO (self : Electricity) :
  remind_to_ecoinvent_location self "World" = ([], Return (PyStr "GLO")).
Proof. reflexivity. Qed.

(** C6 at the region "World".  The resolver answers "GLO" as a string;
    the lookup iterates over it and searches the locations "G", "L" and
    "O".  With a coal plant at GLO and one at RER in the database, the
    cascade over the location GLO finds the plant at GLO, and the code
    returns the plant at RER. *)
Theorem World_suppliers_miss_GLO :
  let db := [Fixture.coal_GLO; Fixture.coal_RER] in
  let names := ["electricity production, hard coal"] in
  remind_to_ecoinvent_location Fixture.self "World"
  = ([], Return (PyStr "GLO")) /\
  iterate (PyStr "GLO") = Return ["G"; "L"; "O"] /\
  suppliers_with_fallback db (PyStr "GLO") names = Return [Fixture.coal_RER] /\
  Spec.cascade db names ["GLO"] = [Fixture.coal_GLO].
Proof. repeat split; reflexivity. Qed.

(** ** Relinking *)

Lemma set_link_same (exc : Exchange) (name product location : string) :
  exc_name exc = name ->
  exc_product exc = Some product ->
  exc_location exc = Some location ->
  set_link exc name product location = exc.
Proof.
  destruct exc. simpl. intros -> -> ->. reflexivity.
Qed.

Lemma set_exchanges_same (ds : Dataset) : set_exchanges ds (exchanges ds) = ds.
Proof. destruct ds. reflexivity. Qed.

Lemma relink_tier_settled (self : Electricity) (tier : string)
    (exc : Exchange) :
  In tier Spec.tiers -> Spec.settled self exc ->
  outcome (relink_tier self tier exc) = Return exc.
Proof.
  intros Htier [p [Hp Hs]]. unfold relink_tier.
  rewrite Hp. cbn [item]. rewrite bind_lift_Return.
  destruct (Str.contains tier p) eqn:Hc; [|reflexivity].
  destruct (Hs tier Htier Hc) as [[Hname Hprod] [loc [rest [Hloc Hfix]]]].
  rewrite Hloc. cbn [item]. rewrite bind_lift_Return.
  rewrite (outcome_bind _ _ _ Hfix). cbn [subscript0].
  rewrite bind_lift_Return.
  rewrite set_link_same; auto.
Qed.

Lemma relink_exchange_settled (self : Electricity) (exc : Exchange) :
  (Spec.consumes_electricity exc = true -> Spec.settled self exc) ->
  outcome (relink_exchange self exc) = Return exc.
Proof.
  intros Hs. unfold relink_exchange.
  fold (Spec.consumes_electricity exc).
  destruct (Spec.consumes_electricity exc); [|reflexivity].
  specialize (Hs eq_refl).
  assert (Hin : forall t, In t Spec.tiers -> In t Spec.tiers) by auto.
  rewrite (outcome_bind _ _ exc);
    [|apply relink_tier_settled; [simpl; auto | exact Hs]].
  rewrite (outcome_bind _ _ exc);
    [|apply relink_tier_settled; [simpl; auto | exact Hs]].
  apply relink_tier_settled; [simpl; auto | exact Hs].
Qed.

Lemma mapM_unchanged {A} (f : A -> M A) (l : list A) :
  (forall a, In a l -> outcome (f a) = Return a) ->
  outcome (mapM f l) = Return l.
Proof.
  induction l as [|a l IH]; intros H; simpl.
  - reflexivity.
  - rewrite (outcome_bind _ _ a); [|apply H; simpl; auto].
    rewrite (outcome_bind _ _ l); [|apply IH; intros; apply H; simpl; auto].
    reflexivity.
Qed.

(** C5, as the code has it.  The engine processes again the exchanges it
    has relinked: they still have the unit 'kilowatt hour' and a product
    that names a tier.  It writes the same name and product, and maps the
    location once more.  The run changes no record when every
    electricity-consuming exchange of the records that are not market groups
    has a product and, if the product names a tier, refers to the market
    group of that tier and carries a location that the reverse mapping
    answers by that same location, first. *)
Theorem relink_again_unchanged (self : Electricity) (db : list Dataset) :
  (forall ds, In ds db ->
     Str.contains "market group for electricity" (ds_name ds) = false ->
     forall exc, In exc (exchanges ds) ->
       Spec.consumes_electricity exc = true -> Spec.settled self exc) ->
  outcome (relink_activities_to_new_markets self db) = Return db.
Proof.
  intros H. unfold relink_activities_to_new_markets.
  apply mapM_unchanged. intros ds Hds. unfold relink_dataset.
  destruct (Str.contains "market group for electricity" (ds_name ds)) eqn:Hm;
    [reflexivity|].
  simpl.
  rewrite (outcome_bind _ _ (exchanges ds)).
  - simpl. rewrite set_exchanges_same. reflexivity.
  - apply mapM_unchanged. intros exc Hexc.
    apply relink_exchange_settled. intros Hc.
    exact (H ds Hds Hm exc Hexc Hc).
Qed.

Lemma smelter_IN_settled :
  forall ds, In ds [Fixture.smelter_IN_relinked] ->
    Str.contains "market group for electricity" (ds_name ds) = false ->
    forall exc, In exc (exchanges ds) ->
      Spec.consumes_electricity exc = true -> Spec.settled Fixture.self exc.
Proof.
  intros ds [<-|[]] _ exc [<-|[<-|[]]] Hc.
  - vm_compute in Hc. discriminate Hc.
  - exists "electricity, high voltage". split; [reflexivity|].
    intros tier [<-|[<-|[<-|[]]]] Ht; vm_compute in Ht; try discriminate Ht.
    split; [split; reflexivity|].
    exists "IND", []. split; reflexivity.
Defined.

(** A smelter in India whose electricity input is linked to the high voltage
    market of the region IND: the geomatcher takes "IND" for India, which
    lies in IND, and a further run leaves the record as it is. *)
Lemma relink_again_unchanged_witness :
  outcome (relink_activities_to_new_markets Fixture.self
             [Fixture.smelter_IN_relinked])
  = Return [Fixture.smelter_IN_relinked].
Proof.
  exact (relink_again_unchanged Fixture.self [Fixture.smelter_IN_relinked]
           smelter_IN_settled).
Defined.

(** The first run on the smelter in Germany links its input to the market
    of EUR; the database is then relinked, and the second run raises: the
    geomatcher does not know the location "EUR". *)
Lemma second_relink_raises :
  outcome (relink_activities_to_new_markets Fixture.self [Fixture.smelter_DE])
  = Return [Fixture.smelter_DE_relinked] /\
  Spec.already_relinked Fixture.self [Fixture.smelter_DE_relinked] /\
  outcome (relink_activities_to_new_markets Fixture.self
             [Fixture.smelter_DE_relinked]) = Raise KeyError.
Proof.
  split; [reflexivity|]. split; [|reflexivity].
  intros ds [<-|[]] _ exc [<-|[<-|[]]] Hc.
  - vm_compute in Hc. discriminate Hc.
  - exists "high". split; [left; reflexivity | split; reflexivity].
Qed.

(** C5, as the specification words it, fails. *)
Lemma relink_idempotent_fails : ~ Spec.relink_idempotent Fixture.self.
Proof.
  intros H. destruct second_relink_raises as [_ [Hr He]].
  apply H in Hr. rewrite He in Hr. discriminate Hr.
Qed.

(** ** Sums of numbers *)

Lemma Num_eq_refl (x : number) : x ≈ x.
Proof. destruct x; simpl; auto. reflexivity. Qed.

Lemma Num_eq_sym (x y : number) : x ≈ y -> y ≈ x.
Proof. destruct x, y; simpl; auto. intros H. symmetry. exact H. Qed.

Lemma Num_eq_trans (x y z : number) : x ≈ y -> y ≈ z -> x ≈ z.
Proof.
  destruct x, y, z; simpl; try tauto; try congruence.
  intros H1 H2. rewrite H1. exact H2.
Qed.

#[export] Instance Num_eq_equivalence : Equivalence Num.eq :=
  {| Equivalence_Reflexive := Num_eq_refl;
     Equivalence_Symmetric := Num_eq_sym;
     Equivalence_Transitive := Num_eq_trans |}.

#[export] Instance Num_add_proper : Proper (Num.eq ==> Num.eq ==> Num.eq) Num.add.
Proof.
  intros x x' Hx y y' Hy.
  destruct x, x', y, y'; simpl in *; try tauto; try congruence.
  - rewrite Hx, Hy. reflexivity.
  - subst. destruct (Bool.eqb negative0 negative2); simpl; auto.
Qed.

Lemma qneg_proper (a b : Q) : (a == b)%Q -> Num.qneg a = Num.qneg b.
Proof. intros H. unfold Num.qneg. rewrite H. reflexivity. Qed.

Lemma Qeq_bool_proper (a b c : Q) :
  (a == b)%Q -> Qeq_bool a c = Qeq_bool b c.
Proof.
  intros H. destruct (Qeq_bool b c) eqn:E.
  - apply Qeq_bool_iff. apply Qeq_bool_iff in E. rewrite H. exact E.
  - apply not_true_iff_false. intros E'. apply Qeq_bool_iff in E'.
    apply not_true_iff_false in E. apply E. apply Qeq_bool_iff.
    rewrite <- H. exact E'.
Qed.

#[export] Instance Num_div_proper : Proper (Num.eq ==> Num.eq ==> Num.eq) Num.div.
Proof.
  intros x x' Hx y y' Hy.
  destruct x as [a|s|], x' as [a'|s'|], y as [b|t|], y' as [b'|t'|];
    simpl in *; try tauto; try reflexivity.
  - rewrite (Qeq_bool_proper b b' 0 Hy), (Qeq_bool_proper a a' 0 Hx).
    destruct (Qeq_bool b' 0) eqn:Eb.
    + destruct (Qeq_bool a' 0); simpl; auto. apply qneg_proper. exact Hx.
    + simpl. rewrite Hx, Hy. reflexivity.
  - subst. rewrite (qneg_proper b b' Hy). reflexivity.
Qed.

Lemma Num_add_comm (x y : number) : Num.add x y ≈ Num.add y x.
Proof.
  destruct x, y; simpl; auto; try ring.
  destruct negative, negative0; simpl; auto.
Qed.

Lemma Num_add_assoc (x y z : number) :
  Num.add x (Num.add y z) ≈ Num.add (Num.add x y) z.
Proof.
  destruct x, y, z; simpl; auto; try ring;
    repeat match goal with b : bool |- _ => destruct b end; simpl; auto.
Qed.

Lemma Num_add_zero_l (x : number) : Num.add Num.zero x ≈ x.
Proof. destruct x; simpl; auto. ring. Qed.

Lemma Num_add_zero_r (x : number) : Num.add x Num.zero ≈ x.
Proof. destruct x; simpl; auto. ring. Qed.

#[local] Arguments Num.add x y : simpl never.
#[local] Arguments Num.eq x y : simpl never.

Lemma fold_left_add (l : list number) (start : number) :
  fold_left Num.add l start ≈ Num.add start (Num.sum_r l).
Proof.
  revert start. induction l as [|x l IH]; intros start; simpl.
  - symmetry. apply Num_add_zero_r.
  - rewrite IH. symmetry. apply Num_add_assoc.
Qed.

Lemma sum_sum_r (l : list number) : Num.sum l ≈ Num.sum_r l.
Proof. unfold Num.sum. rewrite fold_left_add. apply Num_add_zero_l. Qed.

Lemma sum_r_app (l1 l2 : list number) :
  Num.sum_r (l1 ++ l2) ≈ Num.add (Num.sum_r l1) (Num.sum_r l2).
Proof.
  induction l1 as [|x l1 IH]; simpl.
  - symmetry. apply Num_add_zero_l.
  - rewrite IH. apply Num_add_assoc.
Qed.

Lemma sum_r_concat (ls : list (list number)) :
  Num.sum_r (concat ls) ≈ Num.sum_r (map Num.sum_r ls).
Proof.
  induction ls as [|l ls IH]; simpl.
  - reflexivity.
  - rewrite sum_r_app, IH. reflexivity.
Qed.

Lemma sum_r_ext {A} (f g : A -> number) (l : list A) :
  (forall x, f x ≈ g x) -> Num.sum_r (map f l) ≈ Num.sum_r (map g l).
Proof.
  intros H. induction l as [|x l IH]; simpl.
  - reflexivity.
  - rewrite IH, (H x). reflexivity.
Qed.

Lemma sum_r_filter {A} (f : A -> number) (p : A -> bool) (l : list A) :
  Num.sum_r (map f (List.filter p l))
  ≈ Num.sum_r (map (fun x => if p x then f x else Num.zero) l).
Proof.
  induction l as [|x l IH]; simpl.
  - reflexivity.
  - destruct (p x); simpl; rewrite IH.
    + reflexivity.
    + symmetry. apply Num_add_zero_l.
Qed.

Lemma sum_r_zero {A} (l : list A) :
  Num.sum_r (map (fun _ => Num.zero) l) ≈ Num.zero.
Proof.
  induction l as [|x l IH]; simpl.
  - reflexivity.
  - rewrite IH. apply Num_add_zero_l.
Qed.

Lemma sum_r_add {A} (g h : A -> number) (l : list A) :
  Num.sum_r (map (fun x => Num.add (g x) (h x)) l)
  ≈ Num.add (Num.sum_r (map g l)) (Num.sum_r (map h l)).
Proof.
  induction l as [|x l IH]; simpl.
  - symmetry. apply Num_add_zero_l.
  - rewrite IH.
    rewrite <- !Num_add_assoc.
    apply Num_add_proper; [reflexivity|].
    rewrite !Num_add_assoc.
    apply Num_add_proper; [apply Num_add_comm | reflexivity].
Qed.

(** A double sum can be taken in either order. *)
Lemma sum_r_swap {A B} (g : A -> B -> number) (ks : list A) (es : list B) :
  Num.sum_r (map (fun k => Num.sum_r (map (fun e => g k e) es)) ks)
  ≈ Num.sum_r (map (fun e => Num.sum_r (map (fun k => g k e) ks)) es).
Proof.
  induction ks as [|k ks IH]; simpl.
  - symmetry. apply sum_r_zero.
  - rewrite IH. symmetry. apply sum_r_add.
Qed.

(** The sum over the pairs (fuel, exchange) that match, fuel by fuel or
    exchange by exchange. *)
Lemma sum_matching_pairs {A B} (f : A -> B -> number) (p : A -> B -> bool)
    (ks : list A) (es : list B) :
  Num.sum (concat (map (fun k => map (f k) (List.filter (p k) es)) ks))
  ≈ Num.sum (concat (map (fun e => map (fun k => f k e)
                                       (List.filter (fun k => p k e) ks)) es)).
Proof.
  rewrite !sum_sum_r, !sum_r_concat, !map_map.
  rewrite (sum_r_ext _ (fun k => Num.sum_r (map (fun e => if p k e then f k e
                                                      else Num.zero) es)))
    by (intros k; apply sum_r_filter).
  rewrite (sum_r_ext (fun e => Num.sum_r (map _ (List.filter _ ks)))
             (fun e => Num.sum_r (map (fun k => if p k e then f k e
                                            else Num.zero) ks)))
    by (intros e; apply (sum_r_filter (fun k => f k e) (fun k => p k e))).
  apply (sum_r_swap (fun k e => if p k e then f k e else Num.zero)).
Qed.

(** ** Efficiency of a power plant *)

Lemma efficiency_key_named (key : string) :
  efficiency_key key = true <-> Spec.efficiency_named key.
Proof.
  unfold efficiency_key, Spec.efficiency_named, not_allowed.
  cbn [existsb]. rewrite orb_false_r.
  rewrite andb_true_iff, negb_true_iff, <- not_true_iff_false.
  rewrite !contains_spec. reflexivity.
Qed.

Lemma first_efficiency_key (pre post : list (string * number))
    (key : string) (v : number) :
  Spec.efficiency_named key ->
  (forall kv, In kv pre -> ~ Spec.efficiency_named (fst kv)) ->
  exists rest,
    List.filter (fun kv => efficiency_key (fst kv)) (pre ++ (key, v) :: post)
    = (key, v) :: rest.
Proof.
  intros Hk Hpre. induction pre as [|kv pre IH]; simpl.
  - apply efficiency_key_named in Hk. rewrite Hk. eexists. reflexivity.
  - destruct (efficiency_key (fst kv)) eqn:E.
    + exfalso. apply (Hpre kv); [simpl; auto|].
      apply efficiency_key_named. exact E.
    + apply IH. intros kv' Hin. apply Hpre. simpl. auto.
Qed.

Lemma no_efficiency_key (ps : list (string * number)) :
  (forall kv, In kv ps -> ~ Spec.efficiency_named (fst kv)) ->
  List.filter (fun kv => efficiency_key (fst kv)) ps = [].
Proof.
  intros H. induction ps as [|kv ps IH]; simpl; [reflexivity|].
  destruct (efficiency_key (fst kv)) eqn:E.
  - exfalso. apply (H kv); [simpl; auto|].
    apply efficiency_key_named. exact E.
  - apply IH. intros kv' Hin. apply H. simpl. auto.
Qed.

Lemma contains_false (sub s : string) :
  ~ Spec.substring_of sub s -> Str.contains sub s = false.
Proof.
  intros H. apply not_true_iff_false. intros E. apply H.
  apply contains_spec. exact E.
Qed.

(** The energy input that the method sums fuel by fuel is the sum over the
    fuel exchanges of the specification. *)
Lemma ecoinvent_energy_input_lhv (self : Electricity) (ds : Dataset)
    (fuel_filters : list (Exchange -> bool)) :
  ecoinvent_energy_input self ds fuel_filters
  ≈ Spec.energy_input_lhv self ds fuel_filters.
Proof.
  unfold ecoinvent_energy_input, Spec.energy_input_lhv.
  rewrite <- (sum_matching_pairs
                (fun (fuel : string * number) exc =>
                   Num.mul (Num.div (snd fuel) (Fin 3.6)) (exc_amount exc))
                (fun fuel exc => Str.contains (fst fuel) (exc_name exc))).
  assert (E : forall (l : list (string * number)) es,
             map (fun '(k, lhv) =>
                    map (fun exc : Exchange =>
                           Num.mul (Num.div lhv (Fin 3.6)) (exc_amount exc))
                        (List.filter (fun exc => Str.contains k (exc_name exc)) es))
                 l
             = map (fun fuel : string * number =>
                      map (fun exc =>
                             Num.mul (Num.div (snd fuel) (Fin 3.6))
                                     (exc_amount exc))
                          (List.filter (fun exc => Str.contains (fst fuel)
                                                     (exc_name exc)) es))
                   l).
  { intros l es. apply map_ext. intros [k lhv]. reflexivity. }
  rewrite E. reflexivity.
Qed.

(** C9. For a record of an ecoinvent database [find_ecoinvent_fuel_efficiency]
    returns the first parameter of the record whose name contains
    'efficiency' and not 'thermal', when there is one, and leaves the record
    as it is.  When there is none it returns the amount of the reference
    product divided by the energy input, the sum over the fuel exchanges and
    the fuels named in them of (lower heating value / 3.6) * amount, and
    stores it as the parameter 'efficiency'.  For a record of another
    database it returns the amount of the reference product divided by the
    sum of amount / 3.6 over the fuel exchanges, whatever the parameters of
    the record, and stores it as the only parameter. *)
Theorem find_ecoinvent_fuel_efficiency_correct
    (self : Electricity) (ds : Dataset)
    (fuel_filters : list (Exchange -> bool)) :
  (forall ps pre key v post,
      Spec.substring_of "ecoinvent" (ds_database ds) ->
      parameters ds = Some ps ->
      ps = pre ++ (key, v) :: post ->
      Spec.efficiency_named key ->
      (forall kv, In kv pre -> ~ Spec.efficiency_named (fst kv)) ->
      find_ecoinvent_fuel_efficiency self ds fuel_filters = Return (v, ds)) /\
  (forall ps ref,
      Spec.substring_of "ecoinvent" (ds_database ds) ->
      parameters ds = Some ps ->
      (forall kv, In kv ps -> ~ Spec.efficiency_named (fst kv)) ->
      ws.reference_product_of ds = Return ref ->
      exists efficiency,
        find_ecoinvent_fuel_efficiency self ds fuel_filters
        = Return (efficiency,
                  set_parameters ds (dict_set ps "efficiency" efficiency)) /\
        efficiency ≈ Num.div (exc_amount ref)
                             (Spec.energy_input_lhv self ds fuel_filters)) /\
  (forall ref,
      ~ Spec.substring_of "ecoinvent" (ds_database ds) ->
      ws.reference_product_of ds = Return ref ->
      exists efficiency,
        find_ecoinvent_fuel_efficiency self ds fuel_filters
        = Return (efficiency,
                  set_parameters ds [("efficiency", efficiency)]) /\
        efficiency = Num.div (exc_amount ref)
                             (Spec.energy_input_plain ds fuel_filters)).
Proof.
  split; [|split].
  - intros ps pre key v post Hdb Hps -> Hkey Hpre.
    unfold find_ecoinvent_fuel_efficiency.
    apply contains_spec in Hdb. rewrite Hdb, Hps. cbn [item rbind].
    destruct (first_efficiency_key pre post key v Hkey Hpre) as [rest ->].
    reflexivity.
  - intros ps ref Hdb Hps Hnone Href.
    unfold find_ecoinvent_fuel_efficiency.
    apply contains_spec in Hdb. rewrite Hdb, Hps. cbn [item rbind].
    rewrite (no_efficiency_key ps Hnone), Href. cbn [rbind].
    eexists. split; [reflexivity|].
    apply Num_div_proper; [reflexivity | apply ecoinvent_energy_input_lhv].
  - intros ref Hdb Href.
    unfold find_ecoinvent_fuel_efficiency.
    rewrite (contains_false _ _ Hdb), Href. cbn [rbind].
    eexists. split; reflexivity.
Qed.

(** A coal plant with the parameters thermal_efficiency = 0.9 and
    efficiency = 0.38 gives 0.38; without the second parameter, burning
    0.4 kg of hard coal (26.7 MJ/kg) for 1 kWh, it gives 30/89; a Carma plant
    with 9 MJ of coal for 1 kWh gives 0.4, although it has a parameter. *)
Lemma find_ecoinvent_fuel_efficiency_witness :
  find_ecoinvent_fuel_efficiency Fixture.self Fixture.plant_with_parameter
    Fixture.coal_kilogram
  = Return (Fin 0.38, Fixture.plant_with_parameter) /\
  (exists efficiency ds',
      find_ecoinvent_fuel_efficiency Fixture.self
        Fixture.plant_without_parameter Fixture.coal_kilogram
      = Return (efficiency, ds') /\
      efficiency ≈ Fin (30 # 89)) /\
  (exists efficiency ds',
      find_ecoinvent_fuel_efficiency Fixture.self Fixture.carma_plant
        Fixture.coal_megajoule
      = Return (efficiency, ds') /\
      efficiency ≈ Fin 0.4).
Proof.
  assert (Heco : Spec.substring_of "ecoinvent" "ecoinvent 3.5 cutoff")
    by (exists "", " 3.5 cutoff"; reflexivity).
  assert (Hthermal : ~ Spec.efficiency_named "thermal_efficiency").
  { intros H. apply efficiency_key_named in H. discriminate H. }
  assert (Hcarma : ~ Spec.substring_of "ecoinvent" "Carma CCS").
  { intros H. apply contains_spec in H. discriminate H. }
  assert (Hnone : forall kv : string * number,
             In kv [("thermal_efficiency", Fin 0.9)] ->
             ~ Spec.efficiency_named (fst kv)).
  { intros kv [<-|[]]. exact Hthermal. }
  split; [|split].
  - apply (proj1 (find_ecoinvent_fuel_efficiency_correct Fixture.self
                    Fixture.plant_with_parameter Fixture.coal_kilogram)
             _ [("thermal_efficiency", Fin 0.9)] "efficiency" (Fin 0.38) []
             Heco eq_refl eq_refl).
    + apply efficiency_key_named. reflexivity.
    + intros kv [<-|[]]. exact Hthermal.
  - destruct (proj1 (proj2 (find_ecoinvent_fuel_efficiency_correct
                              Fixture.self Fixture.plant_without_parameter
                              Fixture.coal_kilogram))
                _ _ Heco eq_refl Hnone eq_refl)
      as [efficiency [E Heff]].
    exists efficiency. eexists. split; [exact E|].
    vm_compute in E. inversion E. vm_compute. reflexivity.
  - destruct (proj2 (proj2 (find_ecoinvent_fuel_efficiency_correct
                              Fixture.self Fixture.carma_plant
                              Fixture.coal_megajoule))
                _ Hcarma eq_refl)
      as [efficiency [E Heff]].
    exists efficiency. eexists. split; [exact E|].
    rewrite Heff. vm_compute. reflexivity.
Defined.

(** * Further properties of the methods *)

(** ** Region correspondence: what the reverse mapping returns *)

Lemma In_list_remove_first (x a : string) (l : list string) :
  In x l -> x <> a -> In x (list_remove_first a l).
Proof.
  intros Hin Hne. induction l as [|y l IH]; simpl in *; [contradiction|].
  destruct (Str.eqb y a) eqn:E.
  - apply Str_eqb_eq in E. destruct Hin as [->|Hin]; [congruence | exact Hin].
  - destruct Hin as [->|Hin]; simpl; auto.
Qed.

Lemma list_remove_first_incl (x a : string) (l : list string) :
  In x (list_remove_first a l) -> In x l.
Proof.
  induction l as [|y l IH]; simpl; [auto|].
  destruct (Str.eqb y a); simpl; intuition.
Qed.

Lemma list_remove_first_NoDup (a : string) (l : list string) :
  List.NoDup l -> List.NoDup (list_remove_first a l) /\ ~ In a (list_remove_first a l).
Proof.
  induction 1 as [|y l Hy Hl [IH1 IH2]]; simpl.
  - split; [constructor | auto].
  - destruct (Str.eqb y a) eqn:E.
    + apply Str_eqb_eq in E. subst. auto.
    + apply Str_eqb_neq in E. split.
      * constructor; [|exact IH1].
        intros Hin. apply Hy. eapply list_remove_first_incl. exact Hin.
      * simpl. intros [H|H]; [congruence | exact (IH2 H)].
Qed.

Lemma apply_exclusion_incl (x : string) (l : list string)
    (entry : string * string) :
  In x (apply_exclusion l entry) -> In x l.
Proof.
  destruct entry as [a b]. unfold apply_exclusion.
  destruct (Str.mem a l && Str.mem b l); [apply list_remove_first_incl | auto].
Qed.

Lemma apply_exclusion_keeps (x : string) (l : list string)
    (entry : string * string) :
  In x l -> fst entry <> x -> In x (apply_exclusion l entry).
Proof.
  destruct entry as [a b]. unfold apply_exclusion. simpl. intros Hin Hne.
  destruct (Str.mem a l && Str.mem b l); [|exact Hin].
  apply In_list_remove_first; auto.
Qed.

Lemma apply_exclusion_NoDup (l : list string) (entry : string * string) :
  List.NoDup l -> List.NoDup (apply_exclusion l entry).
Proof.
  destruct entry as [a b]. unfold apply_exclusion. intros H.
  destruct (Str.mem a l && Str.mem b l); [|exact H].
  apply list_remove_first_NoDup. exact H.
Qed.

Lemma exclusions_incl (x : string) (table : list (string * string)) :
  forall l, In x (fold_left apply_exclusion table l) -> In x l.
Proof.
  induction table as [|e table IH]; intros l H; simpl in H; [exact H|].
  apply IH in H. eapply apply_exclusion_incl. exact H.
Qed.

Lemma exclusions_keep (x : string) (table : list (string * string)) :
  (forall e, In e table -> fst e <> x) ->
  forall l, In x l -> In x (fold_left apply_exclusion table l).
Proof.
  induction table as [|e table IH]; intros Hne l H; simpl; [exact H|].
  apply IH; [intros e' He'; apply Hne; simpl; auto|].
  apply apply_exclusion_keeps; [exact H | apply Hne; simpl; auto].
Qed.

Lemma exclusions_NoDup (table : list (string * string)) :
  forall l, List.NoDup l -> List.NoDup (fold_left apply_exclusion table l).
Proof.
  induction table as [|e table IH]; intros l H; simpl; [exact H|].
  apply IH. apply apply_exclusion_NoDup. exact H.
Qed.

Lemma exclusions_nonempty (table : list (string * string)) :
  (forall e, In e table -> fst e <> snd e) ->
  forall l, l <> [] -> fold_left apply_exclusion table l <> [].
Proof.
  induction table as [|[a b] table IH]; intros Hne l H; simpl; [exact H|].
  apply IH; [intros e He; apply Hne; simpl; auto|].
  unfold apply_exclusion.
  destruct (Str.mem a l && Str.mem b l) eqn:E; [|exact H].
  apply andb_true_iff in E. destruct E as [_ Hb]. apply mem_In in Hb.
  assert (Hin : In b (list_remove_first a l)).
  { apply In_list_remove_first; [exact Hb|].
    intros ->. apply (Hne (a, a)); simpl; auto. }
  intros E. rewrite E in Hin. contradiction.
Qed.

Lemma priority_table_distinct :
  forall e, In e priority_table -> fst e <> snd e.
Proof.
  intros e He. unfold priority_table in He. simpl in He.
  repeat (destruct He as [<-|He]; [simpl; discriminate|]). contradiction.
Qed.

(** An entry of a table removes its first region from a list without
    duplicates that holds both, when no earlier entry can remove the
    second. *)
Lemma exclusion_removes (pre post : list (string * string)) (a b : string)
    (l : list string) :
  List.NoDup l -> In b l -> a <> b ->
  (forall e, In e pre -> fst e <> b) ->
  ~ In a (fold_left apply_exclusion (pre ++ (a, b) :: post) l).
Proof.
  intros Hnd Hb Hab Hpre.
  rewrite fold_left_app. simpl.
  set (l1 := fold_left apply_exclusion pre l).
  assert (Hnd1 : List.NoDup l1) by (apply exclusions_NoDup; exact Hnd).
  assert (Hb1 : In b l1) by (apply exclusions_keep; assumption).
  intros Hin. apply exclusions_incl in Hin.
  unfold apply_exclusion in Hin.
  destruct (Str.mem a l1) eqn:Ea.
  - apply mem_In in Hb1. rewrite Hb1 in Hin. simpl in Hin.
    apply (proj2 (list_remove_first_NoDup a l1 Hnd1)). exact Hin.
  - simpl in Hin. apply mem_In in Hin. congruence.
Qed.

Lemma remind_regions_found (rs : list geo_key) (found : list (option string)) :
  mapR is_remind_region rs = Return found ->
  forall r, In r (omap id found) ->
            In (Ns "REMIND" r) rs /\ r <> "World".
Proof.
  intros H. apply mapR_Return in H.
  induction H as [|k o rs found Hk _ IH]; intros r Hr; simpl in Hr.
  - contradiction.
  - destruct o as [name|]; simpl in Hr.
    + destruct Hr as [<-|Hr]; [|destruct (IH r Hr); simpl; auto].
      destruct k as [[|c s]|ns n]; simpl in Hk; try discriminate Hk.
      destruct (Str.eqb ns "REMIND") eqn:E1; simpl in Hk;
        [|discriminate Hk].
      destruct (Str.eqb n "World") eqn:E2; simpl in Hk; [discriminate Hk|].
      inversion Hk; subst. apply Str_eqb_eq in E1. apply Str_eqb_neq in E2.
      subst. simpl. auto.
    + destruct (IH r Hr). simpl. auto.
Qed.

(** What [ecoinvent_to_remind_location] returns for a location that is no
    shortcut, in terms of the regions found by the geomatcher. *)
Lemma ecoinvent_to_remind_location_cases (self : Electricity)
    (location : string) (found : list string) :
  ~ Spec.shortcut location ->
  remind_regions_within self location = Return found ->
  ecoinvent_to_remind_location self location =
    match found with
    | [] => ([NoLocFor location], Return PyNone)
    | [r] => ([], Return (PyList [r]))
    | _ :: _ :: _ =>
        ([], Return (PyList (fold_left apply_exclusion priority_table found)))
    end.
Proof.
  intros Hs Hf. destruct (not_shortcut location Hs) as [H1 [H2 H3]].
  unfold ecoinvent_to_remind_location. rewrite H1, H2, H3, Hf.
  destruct found as [|r [|r' found]]; reflexivity.
Qed.

Lemma shortcut_dec (location : string) :
  {Spec.shortcut location} + {~ Spec.shortcut location}.
Proof.
  unfold Spec.shortcut. apply in_dec. apply String.string_dec.
Qed.

Lemma Return_PyList_inj (a b : list string) :
  outcome (@pair (list diagnostic) _ [] (Return (PyList a)))
  = Return (PyList b) -> a = b.
Proof. intros H. inversion H. reflexivity. Qed.

(** X1. Whenever [ecoinvent_to_remind_location] returns a list, the list is
    not empty: [[0]] on it, as the callers write, raises no [IndexError]. *)
Theorem reverse_mapping_list_not_empty
    (self : Electricity) (location : string) (l : list string) :
  outcome (ecoinvent_to_remind_location self location) = Return (PyList l) ->
  l <> [].
Proof.
  intros H. destruct (shortcut_dec location) as [Hs|Hs].
  - unfold Spec.shortcut in Hs. simpl in Hs.
    destruct Hs as [<-|[<-|[<-|[]]]]; vm_compute in H; inversion H;
      discriminate.
  - destruct (remind_regions_within self location) as [found|e] eqn:Hf.
    + rewrite (ecoinvent_to_remind_location_cases self location found Hs Hf)
        in H.
      destruct found as [|r [|r' found]].
      * discriminate H.
      * apply Return_PyList_inj in H. subst. discriminate.
      * apply Return_PyList_inj in H. subst.
        apply exclusions_nonempty; [apply priority_table_distinct|].
        discriminate.
    + destruct (not_shortcut location Hs) as [H1 [H2 H3]].
      unfold ecoinvent_to_remind_location in H.
      rewrite H1, H2, H3, Hf in H. discriminate H.
Qed.

Lemma reverse_mapping_list_not_empty_witness :
  outcome (ecoinvent_to_remind_location Fixture.self_overlaps "NO")
  = Return (PyList ["NEU"]) /\ ["NEU"] <> [].
Proof.
  assert (H : outcome (ecoinvent_to_remind_location Fixture.self_overlaps "NO")
              = Return (PyList ["NEU"])) by reflexivity.
  split; [exact H|].
  exact (reverse_mapping_list_not_empty Fixture.self_overlaps "NO" ["NEU"] H).
Defined.

(** X2. For a location that is no shortcut, every region that
    [ecoinvent_to_remind_location] returns was given by the geomatcher
    under the namespace 'REMIND', and none is 'World'. *)
Theorem reverse_mapping_regions_found
    (self : Electricity) (location : string) (l : list string)
    (rs : list geo_key) :
  ~ Spec.shortcut location ->
  geo_within self (Loc location) = Return rs ->
  outcome (ecoinvent_to_remind_location self location) = Return (PyList l) ->
  forall r, In r l -> In (Ns "REMIND" r) rs /\ r <> "World".
Proof.
  intros Hs Hrs H r Hr.
  destruct (remind_regions_within self location) as [found|e] eqn:Hf.
  - rewrite (ecoinvent_to_remind_location_cases self location found Hs Hf)
      in H.
    unfold remind_regions_within in Hf. rewrite Hrs in Hf. simpl in Hf.
    destruct (mapR is_remind_region rs) as [os|e] eqn:Ho; [|discriminate Hf].
    simpl in Hf. inversion Hf; subst.
    apply (remind_regions_found rs os Ho).
    destruct (omap id os) as [|r1 [|r2 found]].
    + discriminate H.
    + apply Return_PyList_inj in H. subst. exact Hr.
    + apply Return_PyList_inj in H. subst.
      eapply exclusions_incl. exact Hr.
  - destruct (not_shortcut location Hs) as [H1 [H2 H3]].
    unfold ecoinvent_to_remind_location in H.
    rewrite H1, H2, H3, Hf in H. discriminate H.
Qed.

Lemma reverse_mapping_regions_found_witness :
  outcome (ecoinvent_to_remind_location Fixture.self_overlaps "NO")
  = Return (PyList ["NEU"]) /\
  forall r, In r ["NEU"] ->
    In (Ns "REMIND" r)
       [Ns "REMIND" "EUR"; Ns "REMIND" "NEU"; Ns "REMIND" "World"; Loc "GLO"]
    /\ r <> "World".
Proof.
  split; [reflexivity|].
  apply (reverse_mapping_regions_found Fixture.self_overlaps "NO" ["NEU"]).
  - unfold Spec.shortcut. simpl. intros [H|[H|[H|[]]]]; discriminate H.
  - reflexivity.
  - reflexivity.
Defined.

(** X3. The tie-break.  For every entry (a, b) of the priority table other
    than the last one, ('OAS', 'EUR'): when the geomatcher finds several
    regions, without repetition, and both a and b are among them, the list
    returned does not contain a. *)
Theorem tie_break_removes_first
    (self : Electricity) (location : string) (found l : list string)
    (a b : string) :
  In (a, b) priority_table -> b <> "EUR" ->
  ~ Spec.shortcut location ->
  remind_regions_within self location = Return found ->
  List.NoDup found -> In a found -> In b found ->
  outcome (ecoinvent_to_remind_location self location) = Return (PyList l) ->
  ~ In a l.
Proof.
  intros Hin HbE Hs Hf Hnd Ha Hb H.
  assert (Hab : a <> b) by exact (priority_table_distinct (a, b) Hin).
  rewrite (ecoinvent_to_remind_location_cases self location found Hs Hf) in H.
  destruct found as [|r1 [|r2 found]].
  - contradiction.
  - destruct Ha as [<-|[]]. destruct Hb as [<-|[]]. congruence.
  - apply Return_PyList_inj in H. subst.
    assert (Hfst : forall e, In e priority_table -> fst e <> b).
    { clear - Hin HbE. unfold priority_table in *. simpl in Hin.
      repeat (destruct Hin as [E|Hin];
              [inversion E; subst; try congruence;
               intros e He; simpl in He;
               repeat (destruct He as [<-|He]; [simpl; discriminate|]);
               contradiction|]).
      contradiction. }
    destruct (in_split _ _ Hin) as [pre [post Esplit]].
    rewrite Esplit. apply exclusion_removes; auto.
    intros e He. apply Hfst. rewrite Esplit. apply in_or_app. auto.
Qed.

Lemma tie_break_removes_first_witness :
  remind_regions_within Fixture.self_overlaps "NO" = Return ["EUR"; "NEU"] /\
  outcome (ecoinvent_to_remind_location Fixture.self_overlaps "NO")
  = Return (PyList ["NEU"]) /\
  ~ In "EUR" ["NEU"].
Proof.
  split; [reflexivity|]. split; [reflexivity|].
  apply (tie_break_removes_first Fixture.self_overlaps "NO"
           ["EUR"; "NEU"] ["NEU"] "EUR" "NEU").
  - unfold priority_table. simpl. auto.
  - discriminate.
  - unfold Spec.shortcut. simpl. intros [H|[H|[H|[]]]]; discriminate H.
  - reflexivity.
  - repeat constructor; simpl; intuition discriminate.
  - simpl. auto.
  - simpl. auto.
  - reflexivity.
Defined.

(** ** Supplier resolution: what is returned *)

Lemma filter_sublist {A} (f : A -> bool) (l : list A) :
  sublist (List.filter f l) l.
Proof.
  induction l as [|x l IH]; simpl.
  - constructor.
  - destruct (f x); [apply sublist_skip | apply sublist_cons]; exact IH.
Qed.

Lemma get_suppliers_Return (db : list Dataset) (obj : pyobj)
    (names : list string) (l : list Dataset) :
  get_suppliers_of_a_region db obj names = Return l ->
  exists locs, iterate obj = Return locs /\ l = Spec.candidates db names locs.
Proof.
  unfold get_suppliers_of_a_region.
  destruct (iterate obj) as [locs|e]; simpl; [|discriminate].
  intros H. inversion H. exists locs. split; reflexivity.
Qed.

(** X4. Whatever the value that stands for the region's locations, the
    records that supplier resolution returns are records of the database,
    in the order of the database, each with one of the technology names and
    the unit 'kilowatt hour', and located in one of the region's locations,
    in 'RER' or in 'RoW'. *)
Theorem suppliers_are_candidates
    (db : list Dataset) (obj : pyobj) (names : list string)
    (l : list Dataset) :
  suppliers_with_fallback db obj names = Return l ->
  sublist l db /\
  exists locs,
    iterate obj = Return locs /\
    forall ds, In ds l ->
      In (ds_name ds) names /\
      ds_unit ds = "kilowatt hour" /\
      (In (ds_location ds) locs \/ ds_location ds = "RER"
       \/ ds_location ds = "RoW").
Proof.
  unfold suppliers_with_fallback. intros H.
  destruct (get_suppliers_of_a_region db obj names) as [l1|e] eqn:H1;
    [|discriminate H].
  apply get_suppliers_Return in H1. destruct H1 as [locs [Hlocs ->]].
  cbn [rbind] in H.
  assert (Hcases :
            l = Spec.candidates db names locs \/
            l = Spec.candidates db names ["RER"] \/
            l = Spec.candidates db names ["RoW"]).
  { rewrite !get_suppliers_of_a_list in H.
    destruct (Spec.candidates db names locs) as [|s1 l1]; simpl in H.
    - destruct (Spec.candidates db names ["RER"]) as [|s2 l2] eqn:E2;
        simpl in H; inversion H; auto.
    - inversion H. auto. }
  split.
  - destruct Hcases as [->|[->| ->]]; apply filter_sublist.
  - exists locs. split; [exact Hlocs|]. intros ds Hds.
    destruct Hcases as [->|[->| ->]]; apply candidates_spec in Hds;
      destruct Hds as [_ [Hn [Hl Hu]]]; repeat split; auto;
      simpl in Hl; destruct Hl as [<-|[]]; auto.
Qed.

Lemma suppliers_are_candidates_witness :
  sublist [Fixture.coal_RER] [Fixture.coal_GLO; Fixture.coal_RER] /\
  exists locs,
    iterate (PyStr "GLO") = Return locs /\
    forall ds, In ds [Fixture.coal_RER] ->
      In (ds_name ds) ["electricity production, hard coal"] /\
      ds_unit ds = "kilowatt hour" /\
      (In (ds_location ds) locs \/ ds_location ds = "RER"
       \/ ds_location ds = "RoW").
Proof.
  exact (suppliers_are_candidates [Fixture.coal_GLO; Fixture.coal_RER]
           (PyStr "GLO") ["electricity production, hard coal"]
           [Fixture.coal_RER] eq_refl).
Defined.

(** ** Population-weighted allocation: the shares of a supplier set *)

Lemma fraction_sum_from (pops : list Z) (T : Z) (start : Q) :
  (fold_left Qplus (map (fun p => inject_Z p / inject_Z T) pops) start
   == start + inject_Z (fold_right Z.add 0%Z pops) / inject_Z T)%Q.
Proof.
  revert start. induction pops as [|p pops IH]; intros start; simpl.
  - unfold Qdiv. ring.
  - rewrite IH, inject_Z_plus. unfold Qdiv. ring.
Qed.

Lemma shares_of (self : Electricity) (suppliers l : list Dataset) :
  locs_population self suppliers <> 0%Z ->
  mapR (fun s => get_pop_weighted_share self s suppliers) l
  = Return (map Fin
              (map (fun p => (inject_Z p
                              / inject_Z (locs_population self suppliers))%Q)
                   (map (fun s => default 0%Z (population self !! ds_location s))
                        l))).
Proof.
  intros HT. induction l as [|s l IH]; simpl; [reflexivity|].
  rewrite IH. unfold get_pop_weighted_share at 1.
  destruct (Z.eqb_spec (locs_population self suppliers) 0); [contradiction|].
  reflexivity.
Qed.

(** X5. When the populations of the suppliers' locations do not sum to
    zero, every supplier has a share and the shares of the suppliers sum
    to 1. *)
Theorem shares_sum_to_one (self : Electricity) (suppliers : list Dataset) :
  locs_population self suppliers <> 0%Z ->
  exists shares,
    mapR (fun s => get_pop_weighted_share self s suppliers) suppliers
    = Return shares /\
    Num.sum shares ≈ Fin 1.
Proof.
  intros HT. eexists. split; [apply shares_of; exact HT|].
  unfold Num.sum, Num.zero. rewrite sum_Fin_from.
  unfold Num.eq. rewrite fraction_sum_from.
  change (fold_right Z.add 0%Z
            (map (fun s => default 0%Z (population self !! ds_location s))
                 suppliers))
    with (Spec.population_sum self suppliers).
  rewrite <- locs_population_sum.
  assert (Hq : ~ (inject_Z (locs_population self suppliers) == 0)%Q).
  { intros E. apply HT. unfold Qeq in E. simpl in E. lia. }
  field. exact Hq.
Qed.

Lemma shares_sum_to_one_witness :
  exists shares,
    mapR (fun s => get_pop_weighted_share Fixture.self s
                     [Fixture.coal_DE; Fixture.coal_FR])
         [Fixture.coal_DE; Fixture.coal_FR] = Return shares /\
    Num.sum shares ≈ Fin 1.
Proof.
  apply (shares_sum_to_one Fixture.self [Fixture.coal_DE; Fixture.coal_FR]).
  vm_compute. discriminate.
Defined.

Lemma population_sum_absent (self : Electricity) (suppliers : list Dataset) :
  (forall s, In s suppliers -> population self !! ds_location s = None) ->
  Spec.population_sum self suppliers = 0%Z.
Proof.
  unfold Spec.population_sum.
  induction suppliers as [|s suppliers IH]; intros H; simpl; [reflexivity|].
  rewrite (H s), IH; simpl; auto.
  intros s' Hs'. apply H. simpl. auto.
Qed.

(** X6. When supplier resolution finds suppliers and none of their
    locations has an entry in the population table, as for suppliers found
    at 'RER' or 'RoW' with a table of countries, the exchanges of the
    technology are not built: the division of the share raises
    [ZeroDivisionError]. *)
Theorem suppliers_without_population_raise
    (self : Electricity) (db : list Dataset) (obj : pyobj)
    (technology region label : string) (names : list string)
    (suppliers : list Dataset) :
  getitem (rev_electricity_market_labels self) technology = Return label ->
  getitem (powerplant_map self) label = Return names ->
  suppliers_with_fallback db obj names = Return suppliers ->
  suppliers <> [] ->
  (forall s, In s suppliers -> population self !! ds_location s = None) ->
  technology_exchanges self db obj technology region
  = Raise ZeroDivisionError.
Proof.
  intros Hl Hn Hs Hne Habs. unfold technology_exchanges.
  rewrite Hl. cbn [rbind]. rewrite Hn. cbn [rbind]. rewrite Hs. cbn [rbind].
  destruct suppliers as [|s suppliers]; [congruence|].
  unfold supplier_exchanges. cbn [mapR].
  unfold get_pop_weighted_share at 1.
  rewrite locs_population_sum, (population_sum_absent _ _ Habs).
  reflexivity.
Qed.

Lemma suppliers_without_population_raise_witness :
  technology_exchanges Fixture.self [Fixture.coal_GLO; Fixture.coal_RER]
    (PyList ["DE"; "FR"]) Fixture.coal "EUR"
  = Raise ZeroDivisionError.
Proof.
  apply (suppliers_without_population_raise Fixture.self
           [Fixture.coal_GLO; Fixture.coal_RER] (PyList ["DE"; "FR"])
           Fixture.coal "EUR" "Coal PC"
           ["electricity production, hard coal"] [Fixture.coal_RER]);
    try reflexivity.
  - discriminate.
  - intros s [<-|[]]. reflexivity.
Defined.

(** X7. With a population table without negative counts, the share of a
    supplier of the set is a fraction between 0 and 1. *)
Theorem share_is_a_fraction
    (self : Electricity) (supplier : Dataset) (suppliers : list Dataset) :
  (forall s, In s suppliers ->
             (0 <= default 0 (population self !! ds_location s))%Z) ->
  In supplier suppliers ->
  locs_population self suppliers <> 0%Z ->
  exists q, get_pop_weighted_share self supplier suppliers = Return (Fin q) /\
            (0 <= q)%Q /\ (q <= 1)%Q.
Proof.
  intros Hpos Hin HT.
  assert (Hle : (default 0 (population self !! ds_location supplier)
                 <= Spec.population_sum self suppliers)%Z).
  { clear HT. unfold Spec.population_sum.
    induction suppliers as [|s suppliers IH]; [contradiction|].
    simpl. destruct Hin as [->|Hin].
    - assert (0 <= fold_right Z.add 0
                     (map (fun s => default 0 (population self !! ds_location s))
                          suppliers))%Z; [|lia].
      clear IH. induction suppliers as [|s' suppliers IH]; simpl; [lia|].
      assert (0 <= default 0 (population self !! ds_location s'))%Z
        by (apply Hpos; simpl; auto).
      assert (0 <= fold_right Z.add 0
                     (map (fun s => default 0 (population self !! ds_location s))
                          suppliers))%Z; [|lia].
      apply IH. intros s0 Hs0. apply Hpos. simpl in *. tauto.
    - assert (0 <= default 0 (population self !! ds_location s))%Z
        by (apply Hpos; simpl; auto).
      assert (default 0 (population self !! ds_location supplier)
              <= fold_right Z.add 0
                   (map (fun s => default 0 (population self !! ds_location s))
                        suppliers))%Z; [|lia].
      apply IH; [|exact Hin]. intros s0 Hs0. apply Hpos. simpl. auto. }
  unfold get_pop_weighted_share.
  rewrite locs_population_sum in *.
  destruct (Z.eqb_spec (Spec.population_sum self suppliers) 0);
    [contradiction|].
  eexists. split; [reflexivity|].
  assert (H0 : (0 <= default 0 (population self !! ds_location supplier))%Z)
    by (apply Hpos; exact Hin).
  unfold population_of.
  set (p := default 0%Z (population self !! ds_location supplier)) in *.
  set (T := Spec.population_sum self suppliers) in *.
  assert (HTpos : (0 < T)%Z) by lia.
  split.
  - apply Qle_shift_div_l.
    + unfold Qlt. simpl. lia.
    + unfold Qle. simpl. lia.
  - apply Qle_shift_div_r.
    + unfold Qlt. simpl. lia.
    + unfold Qle. simpl. lia.
Qed.

Lemma share_is_a_fraction_witness :
  exists q, get_pop_weighted_share Fixture.self Fixture.coal_FR
              [Fixture.coal_DE; Fixture.coal_FR] = Return (Fin q) /\
            (0 <= q)%Q /\ (q <= 1)%Q.
Proof.
  apply (share_is_a_fraction Fixture.self Fixture.coal_FR
           [Fixture.coal_DE; Fixture.coal_FR]).
  - intros s [<-|[<-|[]]]; vm_compute; discriminate.
  - simpl. auto.
  - vm_compute. discriminate.
Defined.

(** ** Market composer: the database tag and the small databases *)

Lemma db_database_app (db more : list Dataset) (database : string) :
  db_database db = Return database ->
  db_database (db ++ more) = Return database.
Proof.
  unfold db_database. destruct db as [|d0 [|d1 db]]; simpl; try discriminate.
  auto.
Qed.

Lemma db_database_short (db : list Dataset) :
  (length db < 2)%nat -> db_database db = Raise IndexError.
Proof.
  unfold db_database. destruct db as [|d0 [|d1 db]]; simpl; auto. lia.
Qed.

(** X8. On a database of at least two records the medium voltage builder
    always completes and prints nothing: it appends, for each region in
    turn, the record of the six fixed exchanges, tagged with the database of
    the second record; the scenario's shares play no part. *)
Theorem medium_voltage_builder_total
    (self : Electricity) (uuid1 : nat -> string) (db : list Dataset)
    (database : string) :
  db_database db = Return database ->
  exists new,
    create_new_markets_medium_voltage self uuid1 db = ([], Return (db ++ new))
    /\ length new = length (rmd_regions self)
    /\ forall i region m,
         rmd_regions self !! i = Some region -> new !! i = Some m ->
         m = new_dataset self region "medium" database
               (uuid1 (length db + i)%nat)
               (medium_voltage_exchanges self region).
Proof.
  unfold create_new_markets_medium_voltage.
  generalize (rmd_regions self) as regions. intros regions. revert db.
  induction regions as [|r regions IH]; intros db Hdb.
  - exists []. rewrite app_nil_r. split; [reflexivity|].
    split; [reflexivity|]. intros i region m Hr. destruct i; discriminate Hr.
  - cbn [foldM]. unfold medium_voltage_market at 1.
    rewrite Hdb, bind_lift_Return, bind_ret.
    set (m0 := new_dataset self r "medium" database (uuid1 (length db))
                 (medium_voltage_exchanges self r)).
    destruct (IH (db ++ [m0]) (db_database_app db [m0] database Hdb))
      as [new [E [Hlen Hnew]]].
    exists (m0 :: new). rewrite E, <- app_assoc. split; [reflexivity|].
    split; [simpl; congruence|].
    intros [|i] region m Hr Hm; simpl in Hr, Hm.
    + inversion Hr; inversion Hm; subst. unfold m0.
      rewrite Nat.add_0_r. reflexivity.
    + rewrite (Hnew i region m Hr Hm).
      rewrite length_app. simpl.
      replace (length db + 1 + i)%nat with (length db + S i)%nat by lia.
      reflexivity.
Qed.

Lemma medium_voltage_builder_total_witness :
  exists new,
    create_new_markets_medium_voltage Fixture.self Fixture.uuid Fixture.db
    = ([], Return (Fixture.db ++ new))
    /\ length new = 1%nat
    /\ forall i region m,
         ["EUR"] !! i = Some region -> new !! i = Some m ->
         m = new_dataset Fixture.self region "medium" "ecoinvent 3.5 cutoff"
               (Fixture.uuid (4 + i)%nat)
               (medium_voltage_exchanges Fixture.self region).
Proof.
  exact (medium_voltage_builder_total Fixture.self Fixture.uuid Fixture.db
           "ecoinvent 3.5 cutoff" eq_refl).
Defined.

(** X9. On a database of fewer than two records, with at least one region
    in the scenario, no builder adds a record: the medium and the low
    voltage builders raise [IndexError] at once, the high voltage builder
    as soon as the first region's locations are resolved. *)
Theorem builders_need_two_records
    (self : Electricity) (uuid4 uuid1 : nat -> string) (db : list Dataset)
    (region : string) (regions : list string) :
  (length db < 2)%nat ->
  rmd_regions self = region :: regions ->
  create_new_markets_medium_voltage self uuid1 db = ([], Raise IndexError) /\
  create_new_markets_low_voltage self uuid4 db = ([], Raise IndexError) /\
  (forall obj,
      outcome (remind_to_ecoinvent_location self region) = Return obj ->
      outcome (create_new_markets_high_voltage self uuid4 db)
      = Raise IndexError).
Proof.
  intros Hlen Hr. apply db_database_short in Hlen.
  unfold create_new_markets_medium_voltage, create_new_markets_low_voltage,
    create_new_markets_high_voltage.
  rewrite Hr. cbn [foldM].
  unfold medium_voltage_market, low_voltage_market, high_voltage_market.
  rewrite Hlen. repeat split.
  intros obj Hobj.
  destruct (remind_to_ecoinvent_location self region) as [out r].
  simpl in Hobj. subst. reflexivity.
Qed.

Lemma builders_need_two_records_witness :
  create_new_markets_medium_voltage Fixture.self Fixture.uuid [Fixture.coal_DE]
  = ([], Raise IndexError) /\
  create_new_markets_low_voltage Fixture.self Fixture.uuid [Fixture.coal_DE]
  = ([], Raise IndexError) /\
  (forall obj,
      outcome (remind_to_ecoinvent_location Fixture.self "EUR") = Return obj ->
      outcome (create_new_markets_high_voltage Fixture.self Fixture.uuid
                 [Fixture.coal_DE]) = Raise IndexError).
Proof.
  apply (builders_need_two_records Fixture.self Fixture.uuid Fixture.uuid
           [Fixture.coal_DE] "EUR" []).
  - simpl. lia.
  - reflexivity.
Defined.

(** ** Market composer: a region unknown to the geomatcher *)

Lemma unknown_region_is_None (self : Electricity) (region : string) :
  region <> "World" ->
  geo_intersects self (Ns "REMIND" region) = Raise KeyError ->
  remind_to_ecoinvent_location self region
  = ([CantFindLocation (Ns "REMIND" region)], Return PyNone).
Proof.
  intros Hw Hg. unfold remind_to_ecoinvent_location.
  apply Str_eqb_neq in Hw. rewrite Hw, Hg. reflexivity.
Qed.

Lemma bind_Return_pair {A B} (out : list diagnostic) (a : A)
    (k : A -> M B) :
  bind (out, Return a) k = (out ++ fst (k a), snd (k a)).
Proof. unfold bind. destruct (k a). reflexivity. Qed.

Lemma add_technology_none_contributing (self : Electricity)
    (db : list Dataset) (obj : pyobj) (region : string) :
  forall techs acc,
    Spec.contributing self techs region = [] ->
    foldM (add_technology self db obj region) techs acc = ([], Return acc).
Proof.
  induction techs as [|t techs IH]; intros acc H; [reflexivity|].
  unfold Spec.contributing in H. simpl in H. cbn [foldM].
  unfold add_technology at 1.
  destruct (Num.nonzero (electricity_markets self t region));
    [discriminate H|].
  rewrite bind_ret. apply IH. exact H.
Qed.

Lemma add_technology_first_raises (self : Electricity)
    (db : list Dataset) (obj : pyobj) (region : string) (e : exn) :
  forall techs t rest acc,
    Spec.contributing self techs region = t :: rest ->
    technology_exchanges self db obj t region = Raise e ->
    foldM (add_technology self db obj region) techs acc = ([], Raise e).
Proof.
  induction techs as [|t' techs IH]; intros t rest acc H He;
    [discriminate H|].
  unfold Spec.contributing in H. simpl in H. cbn [foldM].
  unfold add_technology at 1.
  destruct (Num.nonzero (electricity_markets self t' region)).
  - inversion H; subst. rewrite He. reflexivity.
  - rewrite bind_ret. eapply IH; eauto.
Qed.

(** X10. On a database of at least two records: a region that the
    geomatcher does not know, with no contributing technology: the high
    voltage builder prints that it cannot find the location and adds a
    market that holds the production exchange only. *)
Theorem unknown_region_without_share
    (self : Electricity) (uuid4 : nat -> string) (db : list Dataset)
    (region database : string) :
  region <> "World" ->
  geo_intersects self (Ns "REMIND" region) = Raise KeyError ->
  db_database db = Return database ->
  Spec.contributing self (high_voltage_technologies self) region = [] ->
  high_voltage_market self uuid4 db region
  = ([CantFindLocation (Ns "REMIND" region)],
     Return (db ++ [new_dataset self region "high" database
                      (uuid4 (length db))
                      [market_exchange production (Fin 1)
                         (market_product "high") (market_name self "high")
                         "kilowatt hour" region]])).
Proof.
  intros Hw Hg Hdb Hc. unfold high_voltage_market.
  rewrite (unknown_region_is_None self region Hw Hg), Hdb.
  rewrite bind_Return_pair, bind_lift_Return.
  rewrite (add_technology_none_contributing self db PyNone region _ _ Hc).
  reflexivity.
Qed.

Lemma unknown_region_without_share_witness :
  high_voltage_market Fixture.self Fixture.uuid Fixture.db "ATL"
  = ([CantFindLocation (Ns "REMIND" "ATL")],
     Return (Fixture.db ++
             [new_dataset Fixture.self "ATL" "high" "ecoinvent 3.5 cutoff"
                (Fixture.uuid 4)
                [market_exchange production (Fin 1)
                   (market_product "high") (market_name Fixture.self "high")
                   "kilowatt hour" "ATL"]])).
Proof.
  apply (unknown_region_without_share Fixture.self Fixture.uuid Fixture.db
           "ATL" "ecoinvent 3.5 cutoff"); try reflexivity.
  discriminate.
Defined.

(** X11. On a database of at least two records: a region that the
    geomatcher does not know, with a contributing technology whose names
    are known: the high voltage builder prints that it cannot find the
    location and raises [TypeError] when it looks for the suppliers, the
    locations being [None]. *)
Theorem unknown_region_with_share
    (self : Electricity) (uuid4 : nat -> string) (db : list Dataset)
    (region database technology label : string)
    (rest names : list string) :
  region <> "World" ->
  geo_intersects self (Ns "REMIND" region) = Raise KeyError ->
  db_database db = Return database ->
  Spec.contributing self (high_voltage_technologies self) region
  = technology :: rest ->
  getitem (rev_electricity_market_labels self) technology = Return label ->
  getitem (powerplant_map self) label = Return names ->
  high_voltage_market self uuid4 db region
  = ([CantFindLocation (Ns "REMIND" region)], Raise TypeError).
Proof.
  intros Hw Hg Hdb Hc Hl Hn. unfold high_voltage_market.
  rewrite (unknown_region_is_None self region Hw Hg), Hdb.
  rewrite bind_Return_pair, bind_lift_Return.
  rewrite (add_technology_first_raises self db PyNone region TypeError
             _ _ _ _ Hc).
  - reflexivity.
  - unfold technology_exchanges. rewrite Hl. cbn [rbind]. rewrite Hn.
    reflexivity.
Qed.

Lemma unknown_region_with_share_witness :
  high_voltage_market Fixture.self_unknown_region Fixture.uuid Fixture.db "ATL"
  = ([CantFindLocation (Ns "REMIND" "ATL")], Raise TypeError).
Proof.
  apply (unknown_region_with_share Fixture.self_unknown_region Fixture.uuid
           Fixture.db "ATL" "ecoinvent 3.5 cutoff" Fixture.coal "Coal PC"
           [Fixture.gas] ["electricity production, hard coal"]);
    try reflexivity.
  discriminate.
Defined.

(** ** Market composer: technologies without supplier *)

Lemma resolved_functional (self : Electricity) (db : list Dataset)
    (region technology : string) (s1 s2 : list Dataset) :
  Spec.resolved self db region technology s1 ->
  Spec.resolved self db region technology s2 -> s1 = s2.
Proof.
  intros [o1 [l1 [n1 [Ho1 [Hl1 [Hn1 Hs1]]]]]]
         [o2 [l2 [n2 [Ho2 [Hl2 [Hn2 Hs2]]]]]].
  rewrite Ho1 in Ho2. inversion Ho2; subst.
  rewrite Hl1 in Hl2. inversion Hl2; subst.
  rewrite Hn1 in Hn2. inversion Hn2; subst.
  rewrite Hs1 in Hs2. inversion Hs2. reflexivity.
Qed.

Lemma blocks_without_supplier (self : Electricity) (db : list Dataset)
    (region : string) (techs : list string) (blocks : list (list Exchange)) :
  Forall2 (Spec.allocated self db region) techs blocks ->
  (forall t, In t techs -> Spec.resolved self db region t []) ->
  concat blocks = [].
Proof.
  induction 1 as [|t block techs blocks Hb _ IH]; intros Hnone;
    [reflexivity|].
  simpl. rewrite IH by (intros t' Ht'; apply Hnone; simpl; auto).
  destruct Hb as [suppliers [Hr [Hin _]]].
  rewrite (resolved_functional _ _ _ _ _ _ Hr (Hnone t (or_introl eq_refl)))
    in Hin.
  inversion Hin. reflexivity.
Qed.

(** The loop over the solar technologies completes when supplier
    resolution succeeds with no supplier for each contributing
    technology. *)
Lemma add_solar_technology_completes (self : Electricity)
    (db : list Dataset) (region : string) :
  forall techs acc,
    (forall t, In t (Spec.contributing self techs region) ->
               Spec.resolved self db region t []) ->
    exists acc',
      outcome (foldM (add_solar_technology self db region) techs acc)
      = Return acc'.
Proof.
  induction techs as [|t techs IH]; intros [solar0 acc0] Hnone.
  - exists (solar0, acc0). reflexivity.
  - cbn [foldM]. unfold add_solar_technology at 1.
    unfold Spec.contributing in Hnone. cbn [List.filter] in Hnone.
    destruct (Num.nonzero (electricity_markets self t region)).
    + destruct (Hnone t (or_introl eq_refl))
        as [obj [label [names [Hobj [Hl [Hn Hs]]]]]].
      assert (Hadded : technology_exchanges self db obj t region = Return []).
      { unfold technology_exchanges. rewrite Hl. cbn [rbind].
        rewrite Hn. cbn [rbind]. rewrite Hs. reflexivity. }
      destruct (IH (Num.add solar0 (electricity_markets self t region),
                    acc0 ++ []))
        as [acc' Hacc'].
      { intros t' Ht'. apply Hnone. right. exact Ht'. }
      exists acc'.
      rewrite (outcome_bind _ _ (Num.add solar0
                                   (electricity_markets self t region),
                                 acc0 ++ [])); [exact Hacc'|].
      rewrite (outcome_bind _ _ obj Hobj), Hadded.
      reflexivity.
    + rewrite bind_ret. apply IH. exact Hnone.
Qed.

(** X12. On a database of at least two records: when supplier resolution
    succeeds and finds no supplier for any of the solar technologies that
    contribute in a region, the low voltage builder completes for the
    region and adds no solar input, and still deducts the shares of these
    technologies from the input of medium voltage electricity: the record
    it appends holds the four fixed exchanges, the medium voltage input of
    (1 - sum of the solar shares) * 1.0276 and the input 0.0298 from the
    market itself. *)
Theorem missing_suppliers_are_dropped
    (self : Electricity) (uuid4 : nat -> string) (db : list Dataset)
    (region database : string) :
  db_database db = Return database ->
  (forall t,
      In t (Spec.contributing self (solar_technologies self) region) ->
      Spec.resolved self db region t []) ->
  exists m,
    outcome (low_voltage_market self uuid4 db region) = Return (db ++ [m]) /\
    exchanges m =
      low_voltage_first self region ++
      low_voltage_last self region
        (fold_left Num.add
           (map (fun t => electricity_markets self t region)
                (Spec.contributing self (solar_technologies self) region))
           (Fin 0)).
Proof.
  intros Hdb Hnone.
  destruct (add_solar_technology_completes self db region
              (solar_technologies self) (Fin 0, low_voltage_first self region)
              Hnone) as [[solar acc] Hloop].
  assert (H : outcome (low_voltage_market self uuid4 db region)
              = Return (db ++ [new_dataset self region "low" database
                                 (uuid4 (length db))
                                 (acc ++ low_voltage_last self region
                                           solar)])).
  { unfold low_voltage_market. rewrite Hdb, bind_lift_Return.
    rewrite (outcome_bind _ _ (solar, acc) Hloop). reflexivity. }
  pose proof H as Hshape. apply low_voltage_market_shape in Hshape.
  destruct Hshape as [m [blocks [solar' [E [_ [_ [Hexc [Hblocks ->]]]]]]]].
  exists m. split; [rewrite H, E; reflexivity|].
  rewrite Hexc, (blocks_without_supplier _ _ _ _ _ Hblocks Hnone).
  reflexivity.
Qed.

(** Without a photovoltaic plant in the inventory the solar share 0.2 of
    EUR is deducted and nothing is added for it. *)
Lemma missing_suppliers_are_dropped_witness :
  exists m,
    outcome (low_voltage_market Fixture.self Fixture.uuid
               [Fixture.coal_DE; Fixture.coal_FR] "EUR")
    = Return ([Fixture.coal_DE; Fixture.coal_FR] ++ [m]) /\
    exchanges m =
      low_voltage_first Fixture.self "EUR" ++
      low_voltage_last Fixture.self "EUR" (Num.add (Fin 0) (Fin 0.2)).
Proof.
  apply (missing_suppliers_are_dropped Fixture.self Fixture.uuid
           [Fixture.coal_DE; Fixture.coal_FR] "EUR" "ecoinvent 3.5 cutoff").
  - reflexivity.
  - intros t [<-|[]].
    exists (PyList ["DE"; "FR"; "RER"]), "Solar PV",
      ["electricity production, photovoltaic, 3kWp slanted-roof installation"].
    repeat split; reflexivity.
Defined.

(** ** Market composer: the exchanges written *)

Lemma technology_exchanges_certain (self : Electricity) (db : list Dataset)
    (obj : pyobj) (technology region : string) (block : list Exchange) :
  technology_exchanges self db obj technology region = Return block ->
  Forall certain block.
Proof.
  unfold technology_exchanges. intros H.
  destruct (getitem (rev_electricity_market_labels self) technology);
    [|discriminate H]. cbn [rbind] in H.
  destruct (getitem (powerplant_map self) a); [|discriminate H].
  cbn [rbind] in H.
  destruct (suppliers_with_fallback db obj a0) as [suppliers|];
    [|discriminate H]. cbn [rbind] in H.
  unfold supplier_exchanges in H. apply mapR_Return in H.
  induction H as [|s e l bs Hs _ IH]; constructor; auto.
  destruct (get_pop_weighted_share self s suppliers); [|discriminate Hs].
  inversion Hs. split; reflexivity.
Qed.

Lemma blocks_certain (self : Electricity) (db : list Dataset) (obj : pyobj)
    (region : string) (techs : list string) (blocks : list (list Exchange)) :
  Forall2 (fun t block =>
             technology_exchanges self db obj t region = Return block)
          techs blocks ->
  Forall certain (concat blocks).
Proof.
  induction 1 as [|t block techs blocks Hb _ IH]; simpl.
  - constructor.
  - apply Forall_app. split; [|exact IH].
    eapply technology_exchanges_certain. exact Hb.
Qed.

Lemma regions_appended (regions : list string) (new : list Dataset)
    (P : Dataset -> Prop) :
  Forall2 (fun (region : string) m => exists db0 : list Dataset, P m)
          regions new ->
  Forall P new.
Proof.
  induction 1 as [|r m regions new [_ HP] _ IH]; constructor; assumption.
Qed.

Lemma builder_keeps (step : list Dataset -> string -> M (list Dataset))
    (P : Dataset -> Prop) :
  (forall db region out db',
      step db region = (out, Return db') ->
      exists m, db' = db ++ [m] /\ P m) ->
  forall regions db db',
    outcome (foldM step regions db) = Return db' ->
    exists new, db' = db ++ new /\ Forall P new.
Proof.
  intros Hstep regions db db' H.
  apply outcome_Return in H. destruct H as [out H].
  apply (foldM_appends step (fun _ _ m => P m) Hstep) in H.
  destruct H as [new [-> Hnew]]. exists new.
  split; [reflexivity | eapply regions_appended; exact Hnew].
Qed.

(** X13. Every exchange of every record that the three builders add has
    the uncertainty type 0 and a point estimate 'loc' equal to its
    amount. *)
Theorem market_exchanges_are_certain
    (self : Electricity) (uuid4 uuid1 : nat -> string) (db : list Dataset) :
  (forall db',
      outcome (create_new_markets_high_voltage self uuid4 db) = Return db' ->
      exists new, db' = db ++ new /\
                  Forall (fun m => Forall certain (exchanges m)) new) /\
  (forall db',
      outcome (create_new_markets_medium_voltage self uuid1 db) = Return db' ->
      exists new, db' = db ++ new /\
                  Forall (fun m => Forall certain (exchanges m)) new) /\
  (forall db',
      outcome (create_new_markets_low_voltage self uuid4 db) = Return db' ->
      exists new, db' = db ++ new /\
                  Forall (fun m => Forall certain (exchanges m)) new).
Proof.
  split; [|split]; intros db'; apply builder_keeps; clear.
  - intros db region out db' H. unfold high_voltage_market in H.
    invert_bind H. invert_bind Hk. invert_bind Hk0.
    apply ret_inv in Hk. destruct Hk as [<- _].
    apply add_technology_loop in Hc1. destruct Hc1 as [blocks [-> Hblocks]].
    eexists. split; [reflexivity|]. cbn [exchanges new_dataset].
    apply Forall_app. split.
    + repeat constructor.
    + eapply blocks_certain. exact Hblocks.
  - intros db region out db' H. unfold medium_voltage_market in H.
    invert_bind H. apply ret_inv in Hk. destruct Hk as [<- _].
    eexists. split; [reflexivity|]. cbn [exchanges new_dataset].
    repeat constructor.
  - intros db region out db' H. unfold low_voltage_market in H.
    invert_bind H. invert_bind Hk. destruct v0 as [solar acc].
    apply ret_inv in Hk0. destruct Hk0 as [<- _].
    apply add_solar_technology_loop in Hc0.
    destruct Hc0 as [blocks [-> [Hblocks _]]].
    eexists. split; [reflexivity|]. cbn [exchanges new_dataset].
    rewrite !Forall_app. repeat split.
    + repeat constructor.
    + clear - Hblocks.
      induction Hblocks as [|t block techs blocks [obj [_ Hb]] _ IH]; simpl.
      * constructor.
      * apply Forall_app. split; [|exact IH].
        eapply technology_exchanges_certain. exact Hb.
    + repeat constructor.
Qed.

Lemma market_exchanges_are_certain_witness :
  exists high medium low,
    outcome (create_new_markets_high_voltage Fixture.self Fixture.uuid
               Fixture.db) = Return (Fixture.db ++ high) /\
    outcome (create_new_markets_medium_voltage Fixture.self Fixture.uuid
               Fixture.db) = Return (Fixture.db ++ medium) /\
    outcome (create_new_markets_low_voltage Fixture.self Fixture.uuid
               Fixture.db) = Return (Fixture.db ++ low) /\
    Forall (fun m => Forall certain (exchanges m)) (high ++ medium ++ low).
Proof.
  destruct (market_exchanges_are_certain Fixture.self Fixture.uuid
              Fixture.uuid Fixture.db) as [Hh [Hm Hl]].
  destruct (Hh _ eq_refl) as [high [Eh Ph]].
  destruct (Hm _ eq_refl) as [medium [Em Pm]].
  destruct (Hl _ eq_refl) as [low [El Pl]].
  exists high, medium, low.
  split; [rewrite <- Eh; reflexivity|].
  split; [rewrite <- Em; reflexivity|].
  split; [rewrite <- El; reflexivity|].
  rewrite !Forall_app. auto.
Defined.

(** ** The market update: how the steps compose *)

Lemma market_name_is_a_market_group (self : Electricity) (tier : string) :
  Str.contains "market group for electricity" (market_name self tier) = true.
Proof.
  apply contains_spec.
  exists "", (", " +:+ tier +:+ " voltage, " +:+ scenario self +:+ ", "
              +:+ str (year self)).
  reflexivity.
Qed.

Lemma market_name_is_removed (self : Electricity) (tier : string) :
  In tier Spec.tiers ->
  Str.contains_any list_to_remove (market_name self tier) = true.
Proof.
  intros Ht. apply contains_any_spec.
  exists ("market group for electricity, " +:+ tier +:+ " voltage").
  split.
  - unfold Spec.tiers in Ht. simpl in Ht.
    destruct Ht as [<-|[<-|[<-|[]]]]; simpl; auto.
  - exists "", (", " +:+ scenario self +:+ ", " +:+ str (year self)).
    unfold Spec.tiers in Ht. simpl in Ht.
    destruct Ht as [<-|[<-|[<-|[]]]]; reflexivity.
Qed.

Lemma high_voltage_market_named (self : Electricity) (uuid4 : nat -> string)
    (db : list Dataset) (region : string) out (db' : list Dataset) :
  high_voltage_market self uuid4 db region = (out, Return db') ->
  exists m, db' = db ++ [m] /\ ds_name m = market_name self "high".
Proof.
  intros H.
  assert (Ho : outcome (high_voltage_market self uuid4 db region) = Return db')
    by (rewrite H; reflexivity).
  apply high_voltage_market_shape in Ho.
  destruct Ho as [m [blocks [-> [_ [Hn _]]]]]. exists m. auto.
Qed.

Lemma medium_voltage_market_named (self : Electricity) (uuid1 : nat -> string)
    (db : list Dataset) (region : string) out (db' : list Dataset) :
  medium_voltage_market self uuid1 db region = (out, Return db') ->
  exists m, db' = db ++ [m] /\ ds_name m = market_name self "medium".
Proof.
  intros H.
  assert (Ho : outcome (medium_voltage_market self uuid1 db region)
               = Return db') by (rewrite H; reflexivity).
  apply medium_voltage_market_shape in Ho.
  destruct Ho as [m [-> [_ [Hn _]]]]. exists m. auto.
Qed.

Lemma low_voltage_market_named (self : Electricity) (uuid4 : nat -> string)
    (db : list Dataset) (region : string) out (db' : list Dataset) :
  low_voltage_market self uuid4 db region = (out, Return db') ->
  exists m, db' = db ++ [m] /\ ds_name m = market_name self "low".
Proof.
  intros H.
  assert (Ho : outcome (low_voltage_market self uuid4 db region) = Return db')
    by (rewrite H; reflexivity).
  apply low_voltage_market_shape in Ho.
  destruct Ho as [m [blocks [solar [-> [_ [Hn _]]]]]]. exists m. auto.
Qed.

Lemma remove_old_markets_app (db new : list Dataset) :
  remove_old_markets (db ++ new)
  = remove_old_markets db ++ remove_old_markets new.
Proof. unfold remove_old_markets. apply List.filter_app. Qed.

Lemma remove_old_markets_named (self : Electricity) (tier : string)
    (new : list Dataset) :
  In tier Spec.tiers ->
  Forall (fun m => ds_name m = market_name self tier) new ->
  remove_old_markets new = [].
Proof.
  intros Ht. induction 1 as [|m new Hm _ IH]; [reflexivity|].
  unfold remove_old_markets in *. cbn [List.filter].
  rewrite Hm, (market_name_is_removed self tier Ht). exact IH.
Qed.

(** X14. The records that a builder adds are removed by the first step of
    a later market update: on the database that a builder returns,
    [remove_old_markets] leaves what it leaves of the database the builder
    started from. *)
Theorem new_markets_are_removed_by_the_next_update
    (self : Electricity) (uuid4 uuid1 : nat -> string) (db : list Dataset) :
  (forall db',
      outcome (create_new_markets_high_voltage self uuid4 db) = Return db' ->
      remove_old_markets db' = remove_old_markets db) /\
  (forall db',
      outcome (create_new_markets_medium_voltage self uuid1 db) = Return db' ->
      remove_old_markets db' = remove_old_markets db) /\
  (forall db',
      outcome (create_new_markets_low_voltage self uuid4 db) = Return db' ->
      remove_old_markets db' = remove_old_markets db).
Proof.
  split; [|split]; intros db' H.
  - apply (builder_keeps _ (fun m => ds_name m = market_name self "high")
             (high_voltage_market_named self uuid4)) in H.
    destruct H as [new [-> Hnew]].
    rewrite remove_old_markets_app,
      (remove_old_markets_named self "high" new), app_nil_r;
      [reflexivity | simpl; auto | exact Hnew].
  - apply (builder_keeps _ (fun m => ds_name m = market_name self "medium")
             (medium_voltage_market_named self uuid1)) in H.
    destruct H as [new [-> Hnew]].
    rewrite remove_old_markets_app,
      (remove_old_markets_named self "medium" new), app_nil_r;
      [reflexivity | simpl; auto | exact Hnew].
  - apply (builder_keeps _ (fun m => ds_name m = market_name self "low")
             (low_voltage_market_named self uuid4)) in H.
    destruct H as [new [-> Hnew]].
    rewrite remove_old_markets_app,
      (remove_old_markets_named self "low" new), app_nil_r;
      [reflexivity | simpl; auto | exact Hnew].
Qed.

Lemma new_markets_are_removed_by_the_next_update_witness :
  exists high medium low,
    outcome (create_new_markets_high_voltage Fixture.self Fixture.uuid
               Fixture.db) = Return high /\
    outcome (create_new_markets_medium_voltage Fixture.self Fixture.uuid
               Fixture.db) = Return medium /\
    outcome (create_new_markets_low_voltage Fixture.self Fixture.uuid
               Fixture.db) = Return low /\
    remove_old_markets high = remove_old_markets Fixture.db /\
    remove_old_markets medium = remove_old_markets Fixture.db /\
    remove_old_markets low = remove_old_markets Fixture.db.
Proof.
  destruct (new_markets_are_removed_by_the_next_update Fixture.self
              Fixture.uuid Fixture.uuid Fixture.db) as [Hh [Hm Hl]].
  eexists. eexists. eexists.
  split; [reflexivity|]. split; [reflexivity|]. split; [reflexivity|].
  split; [apply Hh; reflexivity|].
  split; [apply Hm; reflexivity | apply Hl; reflexivity].
Defined.

Lemma outcome_bind_inv {A B} (c : M A) (k : A -> M B) (b : B) :
  outcome (bind c k) = Return b ->
  exists a, outcome c = Return a /\ outcome (k a) = Return b.
Proof.
  destruct c as [out [a|e]]; simpl.
  - destruct (k a) as [out' r] eqn:E. simpl. intros ->.
    exists a. rewrite E. auto.
  - discriminate.
Qed.

Lemma mapM_outcome_cons {A B} (f : A -> M B) (a : A) (l : list A)
    (l' : list B) :
  outcome (mapM f (a :: l)) = Return l' ->
  exists b bs, outcome (f a) = Return b /\ outcome (mapM f l) = Return bs /\
               l' = b :: bs.
Proof.
  cbn [mapM]. intros H.
  apply outcome_bind_inv in H. destruct H as [b [Hb H]].
  apply outcome_bind_inv in H. destruct H as [bs [Hbs H]].
  inversion H. exists b, bs. auto.
Qed.

Lemma mapM_outcome_app {A B} (f : A -> M B) (l1 l2 : list A) (l' : list B) :
  outcome (mapM f (l1 ++ l2)) = Return l' ->
  exists l1' l2',
    outcome (mapM f l1) = Return l1' /\ outcome (mapM f l2) = Return l2' /\
    l' = l1' ++ l2'.
Proof.
  revert l'. induction l1 as [|a l1 IH]; intros l' H.
  - exists [], l'. auto.
  - change ((a :: l1) ++ l2) with (a :: (l1 ++ l2)) in H.
    apply mapM_outcome_cons in H. destruct H as [b [bs [Hb [Hbs ->]]]].
    apply IH in Hbs. destruct Hbs as [l1' [l2' [H1 [H2 ->]]]].
    exists (b :: l1'), l2'. repeat split; auto.
    cbn [mapM]. rewrite (outcome_bind _ _ b Hb), (outcome_bind _ _ l1' H1).
    reflexivity.
Qed.

Lemma relink_leaves_markets (self : Electricity) (new : list Dataset) :
  Forall (fun m => exists tier, ds_name m = market_name self tier) new ->
  outcome (relink_activities_to_new_markets self new) = Return new.
Proof.
  intros H. unfold relink_activities_to_new_markets.
  apply mapM_unchanged. intros m Hm.
  rewrite List.Forall_forall in H. destruct (H m Hm) as [tier Hn].
  unfold relink_dataset. rewrite Hn, market_name_is_a_market_group.
  reflexivity.
Qed.

Lemma Forall_named (self : Electricity) (tier : string) (new : list Dataset) :
  Forall (fun m => ds_name m = market_name self tier) new ->
  Forall (fun m => exists tier, ds_name m = market_name self tier) new.
Proof. apply List.Forall_impl. intros m Hm. exists tier. exact Hm. Qed.

(** X15. When [update_electricity_markets] completes, the database it
    returns is the relinked remainder of the old database followed by the
    high, the medium and the low voltage markets, in this order and as the
    builders made them: the relinking leaves the new markets untouched. *)
Theorem update_electricity_markets_result
    (self : Electricity) (uuid4 uuid1 : nat -> string)
    (db db' : list Dataset) :
  outcome (update_electricity_markets self uuid4 uuid1 db) = Return db' ->
  exists kept high medium low,
    db' = kept ++ high ++ medium ++ low /\
    outcome (relink_activities_to_new_markets self (remove_old_markets db))
    = Return kept /\
    outcome (create_new_markets_high_voltage self uuid4
               (remove_old_markets db))
    = Return (remove_old_markets db ++ high) /\
    outcome (create_new_markets_medium_voltage self uuid1
               (remove_old_markets db ++ high))
    = Return (remove_old_markets db ++ high ++ medium) /\
    outcome (create_new_markets_low_voltage self uuid4
               (remove_old_markets db ++ high ++ medium))
    = Return (remove_old_markets db ++ high ++ medium ++ low).
Proof.
  unfold update_electricity_markets. intros H.
  apply outcome_bind_inv in H. destruct H as [[] [_ H]].
  apply outcome_bind_inv in H. destruct H as [[] [_ H]].
  apply outcome_bind_inv in H. destruct H as [db1 [H1 H]].
  apply outcome_bind_inv in H. destruct H as [[] [_ H]].
  apply outcome_bind_inv in H. destruct H as [db2 [H2 H]].
  apply outcome_bind_inv in H. destruct H as [[] [_ H]].
  apply outcome_bind_inv in H. destruct H as [db3 [H3 H]].
  apply outcome_bind_inv in H. destruct H as [[] [_ H]].
  destruct (builder_keeps _ (fun m => ds_name m = market_name self "high")
              (high_voltage_market_named self uuid4) _ _ _ H1)
    as [high [-> Hhigh]].
  destruct (builder_keeps _ (fun m => ds_name m = market_name self "medium")
              (medium_voltage_market_named self uuid1) _ _ _ H2)
    as [medium [-> Hmedium]].
  destruct (builder_keeps _ (fun m => ds_name m = market_name self "low")
              (low_voltage_market_named self uuid4) _ _ _ H3)
    as [low [-> Hlow]].
  rewrite <- !app_assoc in *.
  unfold relink_activities_to_new_markets in H.
  apply mapM_outcome_app in H. destruct H as [kept [new [Hkept [Hnew ->]]]].
  assert (Enew : new = high ++ medium ++ low).
  { assert (Hall : Forall (fun m => exists tier,
                               ds_name m = market_name self tier)
                          (high ++ medium ++ low)).
    { rewrite !Forall_app. repeat split; eapply Forall_named; eassumption. }
    pose proof (relink_leaves_markets self _ Hall) as Hsame.
    unfold relink_activities_to_new_markets in Hsame.
    rewrite Hsame in Hnew. inversion Hnew. reflexivity. }
  subst new. exists kept, high, medium, low. auto.
Qed.

Lemma update_electricity_markets_result_witness :
  exists db' kept high medium low,
    outcome (update_electricity_markets Fixture.self Fixture.uuid Fixture.uuid
               (Fixture.db ++ [Fixture.smelter_DE])) = Return db' /\
    db' = kept ++ high ++ medium ++ low /\
    outcome (relink_activities_to_new_markets Fixture.self
               (remove_old_markets (Fixture.db ++ [Fixture.smelter_DE])))
    = Return kept /\
    length high = 1%nat /\ length medium = 1%nat /\ length low = 1%nat.
Proof.
  destruct (update_electricity_markets_result Fixture.self Fixture.uuid
              Fixture.uuid (Fixture.db ++ [Fixture.smelter_DE]) _ eq_refl)
    as [kept [high [medium [low [E [Hk [Hh [Hm Hl]]]]]]]].
  eexists. exists kept, high, medium, low.
  split; [reflexivity|]. split; [exact E|]. split; [exact Hk|].
  vm_compute in Hh.
  destruct high as [|h [|]]; try discriminate Hh.
  injection Hh as <-.
  vm_compute in Hm.
  destruct medium as [|m [|]]; try discriminate Hm.
  injection Hm as <-.
  vm_compute in Hl.
  destruct low as [|l [|]]; try discriminate Hl.
  repeat split.
Defined.

(** ** Relinking: what is rewritten *)

Lemma no_region_gives_None (self : Electricity)
    (location : string) :
  ~ Spec.shortcut location ->
  remind_regions_within self location = Return [] ->
  ecoinvent_to_remind_location self location
  = ([NoLocFor location], Return PyNone).
Proof.
  intros Hs Hnone.
  exact (ecoinvent_to_remind_location_cases self location [] Hs Hnone).
Qed.

Lemma relink_tier_miss (self : Electricity) (tier p : string)
    (exc : Exchange) :
  exc_product exc = Some p -> Str.contains tier p = false ->
  relink_tier self tier exc = ret exc.
Proof.
  intros Hp Hc. unfold relink_tier. rewrite Hp. cbn [item].
  rewrite bind_lift_Return, Hc. reflexivity.
Qed.

Lemma relink_tier_hit (self : Electricity) (tier p loc region : string)
    (obj : pyobj) (exc : Exchange) :
  exc_product exc = Some p -> Str.contains tier p = true ->
  exc_location exc = Some loc ->
  outcome (ecoinvent_to_remind_location self loc) = Return obj ->
  subscript0 obj = Return region ->
  outcome (relink_tier self tier exc)
  = Return (set_link exc (market_name self tier) (market_product tier) region).
Proof.
  intros Hp Hc Hl Ho Hr. unfold relink_tier. rewrite Hp. cbn [item].
  rewrite bind_lift_Return, Hc, Hl. cbn [item]. rewrite bind_lift_Return.
  rewrite (outcome_bind _ _ _ Ho), Hr, bind_lift_Return. reflexivity.
Qed.

Lemma relink_tier_linked (self : Electricity) (tier tier' name region : string)
    (exc : Exchange) :
  Str.contains tier' (market_product tier) = false ->
  relink_tier self tier'
    (set_link exc name (market_product tier) region)
  = ret (set_link exc name (market_product tier) region).
Proof.
  intros Hc. eapply relink_tier_miss; [reflexivity | exact Hc].
Qed.

(** X16. The rewrite of one exchange.  An exchange that the engine
    processes (it passes the filter, is no production exchange and has the
    unit 'kilowatt hour') and has a product is linked to the market of the
    first of the tiers 'high', 'medium', 'low' named in its product, at the
    first region that the reverse mapping gives for its location; its other
    fields are kept.  When the product names no tier the exchange is left
    as it is. *)
Theorem relink_exchange_first_tier
    (self : Electricity) (exc : Exchange) (p : string) :
  Spec.consumes_electricity exc = true ->
  exc_product exc = Some p ->
  (first_tier p = None -> relink_exchange self exc = ([], Return exc)) /\
  (forall tier loc obj region,
      first_tier p = Some tier ->
      exc_location exc = Some loc ->
      outcome (ecoinvent_to_remind_location self loc) = Return obj ->
      subscript0 obj = Return region ->
      outcome (relink_exchange self exc)
      = Return (set_link exc (market_name self tier) (market_product tier)
                  region)).
Proof.
  intros Hc Hp. unfold relink_exchange.
  unfold Spec.consumes_electricity in Hc. rewrite Hc. unfold first_tier.
  split.
  - intros Hn.
    destruct (Str.contains "high" p) eqn:Eh; [discriminate Hn|].
    destruct (Str.contains "medium" p) eqn:Em; [discriminate Hn|].
    destruct (Str.contains "low" p) eqn:El; [discriminate Hn|].
    rewrite (relink_tier_miss self "high" p exc Hp Eh), bind_ret.
    rewrite (relink_tier_miss self "medium" p exc Hp Em), bind_ret.
    apply (relink_tier_miss self "low" p exc Hp El).
  - intros tier loc obj region Ht Hl Ho Hr.
    destruct (Str.contains "high" p) eqn:Eh.
    + inversion Ht; subst tier.
      rewrite (outcome_bind _ _ _
                 (relink_tier_hit self "high" p loc region obj exc
                    Hp Eh Hl Ho Hr)).
      rewrite relink_tier_linked by reflexivity. rewrite bind_ret.
      rewrite relink_tier_linked by reflexivity. reflexivity.
    + rewrite (relink_tier_miss self "high" p exc Hp Eh), bind_ret.
      destruct (Str.contains "medium" p) eqn:Em.
      * inversion Ht; subst tier.
        rewrite (outcome_bind _ _ _
                   (relink_tier_hit self "medium" p loc region obj exc
                      Hp Em Hl Ho Hr)).
        rewrite relink_tier_linked by reflexivity. reflexivity.
      * rewrite (relink_tier_miss self "medium" p exc Hp Em), bind_ret.
        destruct (Str.contains "low" p) eqn:El; [|discriminate Ht].
        inversion Ht; subst tier.
        apply (relink_tier_hit self "low" p loc region obj exc
                 Hp El Hl Ho Hr).
Qed.

(** An input whose product names the medium and the high voltage is linked
    to the high voltage market, at the region EUR of its location DE. *)
Lemma relink_exchange_first_tier_witness :
  first_tier "electricity, medium voltage, from high voltage" = Some "high" /\
  outcome (relink_exchange Fixture.self Fixture.transformation_input)
  = Return (set_link Fixture.transformation_input
              (market_name Fixture.self "high") (market_product "high")
              "EUR").
Proof.
  split; [reflexivity|].
  apply (proj2 (relink_exchange_first_tier Fixture.self
                  Fixture.transformation_input
                  "electricity, medium voltage, from high voltage"
                  eq_refl eq_refl)
           "high" "DE" (PyList ["EUR"]) "EUR"); reflexivity.
Defined.

Lemma flow_set_link (exc : Exchange) (name product location : string) :
  flow (set_link exc name product location) = flow exc.
Proof. reflexivity. Qed.

Lemma relink_tier_flow (self : Electricity) (tier : string)
    (exc exc' : Exchange) :
  outcome (relink_tier self tier exc) = Return exc' -> flow exc' = flow exc.
Proof.
  unfold relink_tier. intros H.
  apply outcome_bind_inv in H. destruct H as [p [_ H]].
  destruct (Str.contains tier p).
  - apply outcome_bind_inv in H. destruct H as [loc [_ H]].
    apply outcome_bind_inv in H. destruct H as [obj [_ H]].
    apply outcome_bind_inv in H. destruct H as [region [_ H]].
    inversion H. apply flow_set_link.
  - inversion H. reflexivity.
Qed.

Lemma relink_exchange_flow (self : Electricity) (exc exc' : Exchange) :
  outcome (relink_exchange self exc) = Return exc' ->
  flow exc' = flow exc /\
  (Spec.consumes_electricity exc = false -> exc' = exc).
Proof.
  unfold relink_exchange. fold (Spec.consumes_electricity exc).
  destruct (Spec.consumes_electricity exc); intros H.
  - split; [|discriminate].
    apply outcome_bind_inv in H. destruct H as [e1 [H1 H]].
    apply outcome_bind_inv in H. destruct H as [e2 [H2 H3]].
    apply relink_tier_flow in H1, H2, H3. congruence.
  - inversion H. auto.
Qed.

Lemma mapM_outcome_Forall2 {A B} (f : A -> M B) (l : list A) (l' : list B) :
  outcome (mapM f l) = Return l' ->
  Forall2 (fun a b => outcome (f a) = Return b) l l'.
Proof.
  revert l'. induction l as [|a l IH]; intros l' H.
  - inversion H. constructor.
  - apply mapM_outcome_cons in H. destruct H as [b [bs [Hb [Hbs ->]]]].
    constructor; auto.
Qed.

(** X17. When the relinking completes, the database has the same records
    in the same order; a record keeps all its fields but the exchanges, and
    its exchanges are as many, in the same order, each with the type, unit,
    amount and uncertainty fields it had: only names, products and
    locations are rewritten.  A record whose name contains 'market group
    for electricity' and an exchange that the engine does not process are
    returned as they were. *)
Theorem relink_keeps_flows
    (self : Electricity) (db db' : list Dataset) :
  outcome (relink_activities_to_new_markets self db) = Return db' ->
  Forall2 (fun ds ds' =>
             heading ds' = heading ds /\
             Forall2 (fun exc exc' =>
                        flow exc' = flow exc /\
                        (Spec.consumes_electricity exc = false ->
                         exc' = exc))
                     (exchanges ds) (exchanges ds') /\
             (Str.contains "market group for electricity" (ds_name ds) = true
              -> ds' = ds))
          db db'.
Proof.
  unfold relink_activities_to_new_markets. intros H.
  apply mapM_outcome_Forall2 in H.
  eapply Forall2_impl; [exact H|]. clear. intros ds ds' H.
  unfold relink_dataset in H.
  destruct (Str.contains "market group for electricity" (ds_name ds)).
  - inversion H; subst. split; [reflexivity|]. split; [|reflexivity].
    induction (exchanges ds'); constructor; auto.
  - cbn [negb] in H.
    apply outcome_bind_inv in H. destruct H as [excs [Hexcs H]].
    inversion H; subst. split; [reflexivity|]. split; [|discriminate].
    cbn [exchanges set_exchanges].
    apply mapM_outcome_Forall2 in Hexcs.
    eapply Forall2_impl; [exact Hexcs|].
    intros exc exc'. apply relink_exchange_flow.
Qed.

Lemma relink_keeps_flows_witness :
  Forall2 (fun ds ds' =>
             heading ds' = heading ds /\
             Forall2 (fun exc exc' =>
                        flow exc' = flow exc /\
                        (Spec.consumes_electricity exc = false ->
                         exc' = exc))
                     (exchanges ds) (exchanges ds') /\
             (Str.contains "market group for electricity" (ds_name ds) = true
              -> ds' = ds))
          [Fixture.smelter_DE] [Fixture.smelter_DE_relinked].
Proof.
  exact (relink_keeps_flows Fixture.self [Fixture.smelter_DE]
           [Fixture.smelter_DE_relinked] eq_refl).
Defined.

(** ** Relinking: what makes it fail *)

Lemma mapM_outcome_In {A B} (f : A -> M B) (l : list A) (l' : list B)
    (a : A) :
  outcome (mapM f l) = Return l' -> In a l ->
  exists b, outcome (f a) = Return b.
Proof.
  intros H Hin. apply mapM_outcome_Forall2 in H.
  induction H as [|x y l l' Hxy _ IH]; [contradiction|].
  destruct Hin as [->|Hin]; [exists y; exact Hxy | exact (IH Hin)].
Qed.

Lemma relink_needs_every_exchange (self : Electricity)
    (db db' : list Dataset) (ds : Dataset) (exc : Exchange) :
  outcome (relink_activities_to_new_markets self db) = Return db' ->
  In ds db ->
  Str.contains "market group for electricity" (ds_name ds) = false ->
  In exc (exchanges ds) ->
  exists exc', outcome (relink_exchange self exc) = Return exc'.
Proof.
  intros H Hds Hm Hexc. unfold relink_activities_to_new_markets in H.
  destruct (mapM_outcome_In _ _ _ ds H Hds) as [ds' Hds'].
  unfold relink_dataset in Hds'. rewrite Hm in Hds'. cbn [negb] in Hds'.
  apply outcome_bind_inv in Hds'. destruct Hds' as [excs [Hexcs _]].
  exact (mapM_outcome_In _ _ _ exc Hexcs Hexc).
Qed.

(** X18. An exchange that the engine processes and that has no product
    makes the rewrite raise [KeyError].  One whose product names a tier and
    whose location lies in no REMIND region makes it print 'no loc for
    <location>' and raise [TypeError], the reverse mapping having returned
    [None]; the relinking of a database that holds such an exchange, in a
    record that is no market group, does not complete. *)
Theorem relink_fails_without_region
    (self : Electricity) (exc : Exchange) :
  Spec.consumes_electricity exc = true ->
  (exc_product exc = None ->
   relink_exchange self exc = ([], Raise KeyError)) /\
  (forall p tier loc,
      exc_product exc = Some p -> first_tier p = Some tier ->
      exc_location exc = Some loc ->
      ~ Spec.shortcut loc ->
      remind_regions_within self loc = Return [] ->
      relink_exchange self exc = ([NoLocFor loc], Raise TypeError) /\
      forall db ds db',
        In ds db ->
        Str.contains "market group for electricity" (ds_name ds) = false ->
        In exc (exchanges ds) ->
        outcome (relink_activities_to_new_markets self db) <> Return db').
Proof.
  intros Hc. split.
  - intros Hp. unfold relink_exchange.
    unfold Spec.consumes_electricity in Hc. rewrite Hc.
    unfold relink_tier. rewrite Hp. reflexivity.
  - intros p tier loc Hp Ht Hl Hs Hnone.
    assert (Hnoloc := no_region_gives_None self loc Hs Hnone).
    assert (E : relink_exchange self exc = ([NoLocFor loc], Raise TypeError)).
    { unfold relink_exchange.
      unfold Spec.consumes_electricity in Hc. rewrite Hc.
      assert (Hhit : forall t, Str.contains t p = true ->
                relink_tier self t exc = ([NoLocFor loc], Raise TypeError)).
      { intros t Hcont. unfold relink_tier. rewrite Hp. cbn [item].
        rewrite bind_lift_Return, Hcont, Hl. cbn [item].
        rewrite bind_lift_Return, Hnoloc. reflexivity. }
      unfold first_tier in Ht.
      destruct (Str.contains "high" p) eqn:Eh.
      - rewrite (Hhit "high" Eh). reflexivity.
      - rewrite (relink_tier_miss self "high" p exc Hp Eh), bind_ret.
        destruct (Str.contains "medium" p) eqn:Em.
        + rewrite (Hhit "medium" Em). reflexivity.
        + rewrite (relink_tier_miss self "medium" p exc Hp Em), bind_ret.
          destruct (Str.contains "low" p) eqn:El; [|discriminate Ht].
          apply (Hhit "low" El). }
    split; [exact E|].
    intros db ds db' Hds Hm Hexc H.
    destruct (relink_needs_every_exchange self db db' ds exc H Hds Hm Hexc)
      as [exc' Hexc'].
    rewrite E in Hexc'. discriminate Hexc'.
Qed.

Lemma relink_fails_without_region_witness :
  relink_exchange Fixture.self
    (Fixture.electricity_input "market for electricity, high voltage" "AQ")
  = ([NoLocFor "AQ"], Raise TypeError) /\
  forall db',
    outcome (relink_activities_to_new_markets Fixture.self
               [Fixture.smelter_DE; Fixture.smelter_AQ]) <> Return db'.
Proof.
  destruct (proj2 (relink_fails_without_region Fixture.self
                     (Fixture.electricity_input
                        "market for electricity, high voltage" "AQ")
                     eq_refl)
              "electricity, high voltage" "high" "AQ" eq_refl eq_refl eq_refl)
    as [E Hdb].
  - unfold Spec.shortcut. simpl. intros [H|[H|[H|[]]]]; discriminate H.
  - reflexivity.
  - split; [exact E|]. intros db'.
    apply (Hdb [Fixture.smelter_DE; Fixture.smelter_AQ] Fixture.smelter_AQ db').
    + simpl. auto.
    + reflexivity.
    + simpl. auto.
Defined.

(** ** Efficiency rescaling *)

Lemma divide_absent_key (f : number) (ps : list (string * number))
    (key : string) :
  has_key ps key = false -> divide_key f ps key = ps.
Proof.
  unfold has_key, divide_key. induction ps as [|kv ps IH]; simpl;
    [reflexivity|].
  intros H. apply orb_false_iff in H. destruct H as [H1 H2].
  rewrite H1, (IH H2). reflexivity.
Qed.

Lemma update_step (f : number) (ps : list (string * number)) (key : string) :
  (if has_key ps key then divide_key f ps key else ps) = divide_key f ps key.
Proof.
  destruct (has_key ps key) eqn:E; [reflexivity|].
  symmetry. apply divide_absent_key. exact E.
Qed.

Lemma divide_possibles (f : number) (ps : list (string * number)) :
  fold_left (fun ps key => if has_key ps key then divide_key f ps key else ps)
            possibles ps
  = map (fun kv => if Str.mem (fst kv) possibles
                   then (fst kv, Num.div (snd kv) f) else kv) ps.
Proof.
  unfold possibles. cbn [fold_left]. rewrite !update_step.
  unfold divide_key. rewrite !map_map. apply map_ext. intros [k v].
  unfold Str.mem. cbn [existsb fst snd].
  destruct (Str.eqb k "efficiency") eqn:E1;
    destruct (Str.eqb k "efficiency_oil_country") eqn:E2;
    destruct (Str.eqb k "efficiency_electrical") eqn:E3;
    cbn [fst snd orb]; rewrite ?E1, ?E2, ?E3; cbn [fst snd orb];
    rewrite ?E1, ?E2, ?E3; try reflexivity;
    repeat match goal with
           | H : Str.eqb k _ = true |- _ => apply Str_eqb_eq in H
           end; subst; discriminate.
Qed.

Lemma divide_possibles_update (ds : Dataset) (factor : number)
    (ps : list (string * number)) :
  parameters ds = Some ps ->
  update_ecoinvent_efficiency_parameter ds factor
  = Return (set_parameters ds
              (map (fun kv => if Str.mem (fst kv) possibles
                              then (fst kv, Num.div (snd kv) factor)
                              else kv) ps)).
Proof.
  unfold update_ecoinvent_efficiency_parameter.
  intros ->. cbn [item rbind]. rewrite divide_possibles. reflexivity.
Qed.

(** X19. [update_ecoinvent_efficiency_parameter] raises [KeyError] on a
    record without parameters.  Otherwise it keeps the parameters and their
    order, divides by the factor the value of every parameter named
    'efficiency', 'efficiency_oil_country' or 'efficiency_electrical', and
    leaves the value of every other parameter. *)
Theorem efficiency_parameters_divided (ds : Dataset) (factor : number) :
  (parameters ds = None ->
   update_ecoinvent_efficiency_parameter ds factor = Raise KeyError) /\
  (forall ps,
      parameters ds = Some ps ->
      update_ecoinvent_efficiency_parameter ds factor
      = Return (set_parameters ds
                  (map (fun kv => if Str.mem (fst kv) possibles
                                  then (fst kv, Num.div (snd kv) factor)
                                  else kv) ps))).
Proof.
  unfold update_ecoinvent_efficiency_parameter. split.
  - intros ->. reflexivity.
  - intros ps Hps. apply divide_possibles_update. exact Hps.
Qed.

Lemma efficiency_parameters_divided_witness :
  update_ecoinvent_efficiency_parameter Fixture.plant_with_parameter (Fin 2)
  = Return (set_parameters Fixture.plant_with_parameter
              [("thermal_efficiency", Fin 0.9);
               ("efficiency", Num.div (Fin 0.38) (Fin 2))]).
Proof.
  exact (proj2 (efficiency_parameters_divided Fixture.plant_with_parameter
                  (Fin 2)) _ eq_refl).
Defined.

(** X20. The factor and the parameter update together.  When the
    efficiency found for a record is a finite non-zero number e and the
    scenario's mean efficiency for the record's region(s) is a finite
    non-zero number t, the factor is e / t, and every parameter of value e
    named 'efficiency', 'efficiency_oil_country' or 'efficiency_electrical'
    has the value t afterwards. *)
Theorem rescaled_efficiency_is_the_target
    (self : Electricity) (rmd : Efficiencies) (ds ds1 : Dataset)
    (fuel_filters : list (Exchange -> bool)) (technology variable : string)
    (regions : pyobj) (ps : list (string * number)) (e t : Q) :
  find_ecoinvent_fuel_efficiency self ds fuel_filters = Return (Fin e, ds1) ->
  parameters ds1 = Some ps ->
  outcome (ecoinvent_to_remind_location self (ds_location ds1))
  = Return regions ->
  getitem (electricity_efficiency_labels rmd) technology = Return variable ->
  electricity_efficiencies_mean rmd variable regions = Return (Fin t) ->
  ~ (e == 0)%Q -> ~ (t == 0)%Q ->
  exists ps',
    outcome (rescale_efficiency self rmd ds fuel_filters technology)
    = Return (Fin (e / t), set_parameters ds1 ps') /\
    map fst ps' = map fst ps /\
    forall key v,
      In (key, v) ps -> In key possibles -> v ≈ Fin e ->
      exists v', In (key, v') ps' /\ v' ≈ Fin t.
Proof.
  intros Hf Hps Hr Hv Hm He Ht.
  assert (Ht0 : Qeq_bool t 0 = false).
  { apply not_true_iff_false. intros E. apply Qeq_bool_iff in E. auto. }
  set (f := (e / t)%Q).
  assert (Hf0 : ~ (f == 0)%Q).
  { unfold f. intros E. apply He.
    assert (E' : (e == e / t * t)%Q) by (field; exact Ht).
    rewrite E', E. ring. }
  assert (Hfb : Qeq_bool f 0 = false).
  { apply not_true_iff_false. intros E. apply Qeq_bool_iff in E. auto. }
  exists (map (fun kv => if Str.mem (fst kv) possibles
                         then (fst kv, Num.div (snd kv) (Fin f)) else kv) ps).
  split; [|split].
  - assert (Hfactor :
              outcome (find_fuel_efficiency_scaling_factor self rmd ds
                         fuel_filters technology)
              = Return (Fin f, ds1)).
    { unfold find_fuel_efficiency_scaling_factor.
      rewrite Hf, bind_lift_Return. cbv beta iota.
      rewrite (outcome_bind _ _ _ Hr).
      rewrite Hv, bind_lift_Return, Hm, bind_lift_Return.
      cbn [Num.div]. rewrite Ht0. reflexivity. }
    unfold rescale_efficiency.
    rewrite (outcome_bind _ _ _ Hfactor). cbv beta iota.
    rewrite (divide_possibles_update ds1 (Fin f) ps Hps).
    rewrite bind_lift_Return. reflexivity.
  - rewrite map_map. apply map_ext. intros [k v]. cbn [fst].
    destruct (Str.mem k possibles); reflexivity.
  - intros key v Hin Hkey Hve.
    apply mem_In in Hkey.
    exists (Num.div v (Fin f)). split.
    + apply in_map_iff. exists (key, v). cbn [fst snd]. rewrite Hkey. auto.
    + destruct v as [q| |]; unfold Num.eq in Hve; try contradiction.
      cbn [Num.div]. rewrite Hfb. unfold Num.eq, f. rewrite Hve.
      field. auto.
Qed.

(** The Carma plant turns 9 MJ of coal into 1 kWh: its efficiency 0.4 is
    stored, the factor against the scenario's 0.45 is computed, and the
    stored parameter ends at 0.45. *)
Lemma rescaled_efficiency_is_the_target_witness :
  exists factor ds2 v,
    outcome (rescale_efficiency Fixture.self efficiencies_fixture
               Fixture.carma_plant Fixture.coal_megajoule "Coal PC")
    = Return (factor, ds2) /\
    parameters ds2 = Some [("efficiency", v)] /\
    v ≈ Fin 0.45.
Proof.
  destruct (rescaled_efficiency_is_the_target Fixture.self
              efficiencies_fixture Fixture.carma_plant _
              Fixture.coal_megajoule "Coal PC" _ _ _ _ _
              eq_refl eq_refl eq_refl eq_refl eq_refl)
    as [ps' [Ho [Hkeys Hval]]].
  - intros H. vm_compute in H. discriminate H.
  - intros H. vm_compute in H. discriminate H.
  - destruct (Hval "efficiency" _ (or_introl eq_refl) (or_introl eq_refl)
                (Num_eq_refl _)) as [v' [Hin Hv']].
    destruct ps' as [|[k v] [|]]; try discriminate Hkeys.
    destruct Hin as [E|[]]. inversion E; subst.
    eexists. eexists. exists v'.
    split; [exact Ho|]. split; [reflexivity | exact Hv'].
Defined.

(** X21. The efficiency of a record without any fuel exchange that passes
    the filters.  For a record of another database than ecoinvent, and for
    an ecoinvent record without efficiency parameter, the energy input is 0
    and the division raises nothing: with a positive amount of the
    reference product the efficiency returned and stored is infinite. *)
Theorem efficiency_without_fuel_is_infinite
    (self : Electricity) (ds : Dataset)
    (fuel_filters : list (Exchange -> bool)) (ref : Exchange) (a : Q) :
  ws.technosphere_of ds fuel_filters = [] ->
  ws.reference_product_of ds = Return ref ->
  exc_amount ref = Fin a -> (0 < a)%Q ->
  (~ Spec.substring_of "ecoinvent" (ds_database ds) ->
   find_ecoinvent_fuel_efficiency self ds fuel_filters
   = Return (Inf false, set_parameters ds [("efficiency", Inf false)])) /\
  (forall ps,
      Spec.substring_of "ecoinvent" (ds_database ds) ->
      parameters ds = Some ps ->
      (forall kv, In kv ps -> ~ Spec.efficiency_named (fst kv)) ->
      find_ecoinvent_fuel_efficiency self ds fuel_filters
      = Return (Inf false,
                set_parameters ds (dict_set ps "efficiency" (Inf false)))).
Proof.
  intros Hfuel Href Ha Hpos.
  assert (Hdiv : Num.div (exc_amount ref) (Fin 0) = Inf false).
  { rewrite Ha. cbn [Num.div].
    assert (Qeq_bool a 0 = false) as ->.
    { apply not_true_iff_false. intros E. apply Qeq_bool_iff in E.
      rewrite E in Hpos. discriminate Hpos. }
    assert (Num.qneg a = false) as ->; [|reflexivity].
    unfold Num.qneg. apply Qgt_alt in Hpos. rewrite Hpos. reflexivity. }
  split.
  - intros Hdb. unfold find_ecoinvent_fuel_efficiency.
    rewrite (contains_false _ _ Hdb), Href. cbn [rbind].
    unfold other_energy_input. rewrite Hfuel. cbn [map Num.sum fold_left].
    unfold Num.zero. rewrite Hdiv. reflexivity.
  - intros ps Hdb Hps Hnone. unfold find_ecoinvent_fuel_efficiency.
    apply contains_spec in Hdb. rewrite Hdb, Hps. cbn [item rbind].
    rewrite (no_efficiency_key ps Hnone), Href. cbn [rbind].
    unfold ecoinvent_energy_input. rewrite Hfuel.
    assert (E : concat (map (fun '(k, lhv) =>
                               map (fun exc : Exchange =>
                                      Num.mul (Num.div lhv (Fin 3.6))
                                              (exc_amount exc))
                                   (List.filter
                                      (fun exc => Str.contains k (exc_name exc))
                                      []))
                            (fuels_lhv self)) = []).
    { induction (fuels_lhv self) as [|[k lhv] l IH]; [reflexivity|].
      simpl. exact IH. }
    rewrite E. cbn [Num.sum fold_left]. unfold Num.zero. rewrite Hdiv.
    reflexivity.
Qed.

(** A Carma plant filtered for fuels counted in kilograms has no fuel
    exchange: its efficiency becomes infinite. *)
Lemma efficiency_without_fuel_is_infinite_witness :
  find_ecoinvent_fuel_efficiency Fixture.self Fixture.carma_plant
    Fixture.coal_kilogram
  = Return (Inf false,
            set_parameters Fixture.carma_plant [("efficiency", Inf false)]).
Proof.
  apply (proj1 (efficiency_without_fuel_is_infinite Fixture.self
                  Fixture.carma_plant Fixture.coal_kilogram _ 1
                  eq_refl eq_refl eq_refl eq_refl)).
  intros H. apply contains_spec in H. discriminate H.
Defined.

(** ** Emission rescaling: the pass over a record *)

Lemma rescale_emissions_needs_every_exchange (self : Electricity)
    (remind_technology : string) (ds ds' : Dataset) (exc : Exchange) :
  outcome (rescale_emissions self remind_technology ds) = Return ds' ->
  In exc (exchanges ds) -> is_emission self exc = true ->
  exists exc',
    outcome (rescale_emission self remind_technology ds exc) = Return exc'.
Proof.
  unfold rescale_emissions. intros H Hin He.
  apply outcome_bind_inv in H. destruct H as [excs [H _]].
  destruct (mapM_outcome_In _ _ _ exc H Hin) as [exc' Hexc'].
  unfold is_emission in He. rewrite He in Hexc'. exists exc'. exact Hexc'.
Qed.

(** X22. A biosphere exchange whose name contains a key of the emission map
    without being equal to one passes the filter of the pass, and the
    lookup of its name raises [KeyError]: the pass over a record that holds
    such an exchange does not complete. *)
Theorem emission_name_must_be_a_key
    (self : Electricity) (remind_technology : string) (ds : Dataset)
    (exc : Exchange) :
  is_emission self exc = true ->
  emissions_map self !! exc_name exc = None ->
  rescale_emission self remind_technology ds exc = ([], Raise KeyError) /\
  (In exc (exchanges ds) ->
   forall ds', outcome (rescale_emissions self remind_technology ds)
               <> Return ds').
Proof.
  intros He Hnone.
  assert (E : rescale_emission self remind_technology ds exc
              = ([], Raise KeyError)).
  { unfold rescale_emission, getitem. rewrite Hnone. reflexivity. }
  split; [exact E|]. intros Hin ds' H.
  destruct (rescale_emissions_needs_every_exchange _ _ _ _ _ H Hin He)
    as [exc' Hexc'].
  rewrite E in Hexc'. discriminate Hexc'.
Qed.

Lemma emission_name_must_be_a_key_witness :
  rescale_emission Fixture.self "Coal PC" Fixture.plant_with_long_name
    Fixture.so2_low_population = ([], Raise KeyError) /\
  (In Fixture.so2_low_population (exchanges Fixture.plant_with_long_name) ->
   forall ds', outcome (rescale_emissions Fixture.self "Coal PC"
                          Fixture.plant_with_long_name) <> Return ds').
Proof.
  apply (emission_name_must_be_a_key Fixture.self "Coal PC"
           Fixture.plant_with_long_name Fixture.so2_low_population).
  - vm_compute. reflexivity.
  - vm_compute. reflexivity.
Defined.

Lemma rescale_emission_identity (self : Electricity)
    (remind_technology : string) (ds : Dataset) (exc exc' : Exchange) :
  outcome (rescale_emission self remind_technology ds exc) = Return exc' ->
  identity_of exc' = identity_of exc.
Proof.
  unfold rescale_emission. intros H.
  apply outcome_bind_inv in H. destruct H as [label [_ H]].
  apply outcome_bind_inv in H. destruct H as [region [_ H]].
  apply outcome_bind_inv in H. destruct H as [sector [_ H]].
  apply outcome_bind_inv in H. destruct H as [values [_ H]].
  apply outcome_bind_inv in H. destruct H as [nan [_ H]].
  apply outcome_bind_inv in H. destruct H as [[] [_ H]].
  destruct (Num.is_zero (exc_amount exc));
    apply outcome_bind_inv in H; destruct H as [target [_ H]];
    inversion H; reflexivity.
Qed.

(** X23. When the emission pass over a record completes, the record keeps
    all its fields but the exchanges, and its exchanges are as many, in the
    same order.  An exchange that is no biosphere exchange, or whose name
    contains no key of the emission map, is returned as it was; a rescaled
    exchange keeps its type, name, unit, flow identifier and categories:
    only its amount and the fields of its uncertainty change. *)
Theorem emission_pass_keeps_the_rest
    (self : Electricity) (remind_technology : string) (ds ds' : Dataset) :
  outcome (rescale_emissions self remind_technology ds) = Return ds' ->
  heading ds' = heading ds /\
  Forall2 (fun exc exc' =>
             identity_of exc' = identity_of exc /\
             (is_emission self exc = false -> exc' = exc))
          (exchanges ds) (exchanges ds').
Proof.
  unfold rescale_emissions. intros H.
  apply outcome_bind_inv in H. destruct H as [excs [Hexcs H]].
  inversion H; subst. split; [reflexivity|].
  cbn [exchanges set_exchanges].
  apply mapM_outcome_Forall2 in Hexcs.
  eapply Forall2_impl; [exact Hexcs|]. clear.
  intros exc exc' H. cbv beta in H. unfold is_emission.
  destruct (exchange_type_eqb (exc_type exc) biosphere
            && emission_filter self exc).
  - split; [|discriminate].
    eapply rescale_emission_identity. exact H.
  - inversion H. auto.
Qed.

Lemma emission_pass_keeps_the_rest_witness :
  exists ds',
    outcome (rescale_emissions Fixture.self "Coal PC" Fixture.emitting_plant)
    = Return ds' /\
    heading ds' = heading Fixture.emitting_plant /\
    Forall2 (fun exc exc' =>
               identity_of exc' = identity_of exc /\
               (is_emission Fixture.self exc = false -> exc' = exc))
            (exchanges Fixture.emitting_plant) (exchanges ds').
Proof.
  eexists. split; [vm_compute; reflexivity|].
  apply (emission_pass_keeps_the_rest Fixture.self "Coal PC"
           Fixture.emitting_plant).
  vm_compute. reflexivity.
Defined.

(** X24. When the scenario gives several intensities for an exchange, as
    for a record whose location lies in several REMIND regions, the test
    for NaN has no truth value: the rescaling of the exchange raises
    [ValueError]. *)
Theorem several_intensities_raise
    (self : Electricity) (remind_technology : string) (ds : Dataset)
    (exc : Exchange) (label : string) (v1 v2 : number)
    (values : list number) :
  Spec.target self remind_technology ds exc label (v1 :: v2 :: values) ->
  outcome (rescale_emission self remind_technology ds exc)
  = Raise ValueError.
Proof.
  intros Ht.
  destruct (rescale_emission_fetched _ _ _ _ _ _ Ht) as [out ->].
  reflexivity.
Qed.

(** The island of the overlaps lies in OAS and NEU: two intensities. *)
Lemma several_intensities_raise_witness :
  outcome (ecoinvent_to_remind_location Fixture.self_per_region "XX")
  = Return (PyList ["OAS"; "NEU"]) /\
  outcome (rescale_emission Fixture.self_per_region "Coal PC"
             Fixture.island_plant Fixture.so2_two) = Raise ValueError.
Proof.
  split; [reflexivity|].
  apply (several_intensities_raise Fixture.self_per_region "Coal PC"
           Fixture.island_plant Fixture.so2_two "SO2"
           (Fin 0.042) (Fin 0.042) []).
  exists (PyList ["OAS"; "NEU"]), "Power|Coal". repeat split; reflexivity.
Defined.

(** ** The tables read from files *)

Lemma length_split (sep : Ascii.ascii) (s : string) :
  length (Tables.split sep s) = S (Tables.count sep s).
Proof.
  induction s as [|c s IH]; [reflexivity|].
  cbn [Tables.split Tables.count]. destruct (Ascii.eqb c sep).
  - cbn [length]. rewrite IH. reflexivity.
  - destruct (Tables.split sep s) as [|field fields];
      [discriminate IH | exact IH].
Qed.

Lemma columns_cases (x : list string) :
  (3 <= length x /\ exists p, Tables.columns x = Return p) \/
  (length x < 3 /\ Tables.columns x = Raise IndexError).
Proof.
  destruct x as [|a [|b [|c x]]]; cbn.
  - right. split; [lia | reflexivity].
  - right. split; [lia | reflexivity].
  - right. split; [lia | reflexivity].
  - left. split; [lia | eexists; reflexivity].
Qed.

Lemma mapR_columns_Return (l : list (list string)) :
  Forall (fun x => 3 <= length x) l ->
  exists ps, mapR Tables.columns l = Return ps.
Proof.
  induction 1 as [|x l Hx _ [ps IH]]; [exists []; reflexivity|].
  destruct (columns_cases x) as [[_ [p Hp]] | [Hlt _]]; [|lia].
  exists (p :: ps). cbn [mapR]. rewrite Hp, IH. reflexivity.
Qed.

Lemma mapR_columns_Raise (l : list (list string)) :
  Exists (fun x => length x < 3) l ->
  mapR Tables.columns l = Raise IndexError.
Proof.
  induction l as [|x l IH]; intros H; [inversion H|].
  cbn [mapR].
  destruct (columns_cases x) as [[Hge [p Hp]] | [_ Hx]].
  - rewrite Hp. inversion H as [? ? Hlt | ? ? Hl]; subst; [lia|].
    rewrite (IH Hl). reflexivity.
  - rewrite Hx. reflexivity.
Qed.

Lemma length_csv_fields (strip : string -> string) (r : string) :
  length (map strip (Tables.split Tables.semicolon r))
  = S (Tables.count Tables.semicolon r).
Proof. rewrite length_map. apply length_split. Qed.

Lemma isos_of_cons (region : string) (row : string * string)
    (l : list (string * string)) :
  Tables.isos_of region (row :: l)
  = Tables.isos_of region [row] ++ Tables.isos_of region l.
Proof.
  unfold Tables.isos_of. cbn [List.filter].
  destruct (Str.eqb (snd row) region
            && negb (Str.mem (fst row) Tables.countries_not_found));
    reflexivity.
Qed.

Lemma add_country_lookup (d : gmap string (list string))
    (row : string * string) (region : string) :
  default [] (Tables.add_country d row !! region)
  = default [] (d !! region) ++ Tables.isos_of region [row].
Proof.
  destruct row as [ISO reg]. unfold Tables.add_country, Tables.isos_of.
  cbn [List.filter fst snd].
  destruct (Str.mem ISO Tables.countries_not_found).
  - rewrite andb_false_r. cbn [negb map]. rewrite app_nil_r. reflexivity.
  - rewrite andb_true_r. cbn [negb].
    destruct (Str.eqb reg region) eqn:E.
    + apply Str_eqb_eq in E. subst reg.
      destruct (d !! region) as [isos|];
        rewrite lookup_insert_eq; reflexivity.
    + apply Str_eqb_neq in E. cbn [map]. rewrite app_nil_r.
      destruct (d !! reg) as [isos|];
        rewrite lookup_insert_ne by exact E; reflexivity.
Qed.

Lemma add_country_no_empty_list (d : gmap string (list string))
    (row : string * string) :
  (forall region, d !! region <> Some []) ->
  forall region, Tables.add_country d row !! region <> Some [].
Proof.
  intros Hd region. destruct row as [ISO reg]. unfold Tables.add_country.
  destruct (Str.mem ISO Tables.countries_not_found); cbn [negb];
    [apply Hd|].
  destruct (String.string_dec reg region) as [->|Hne].
  - destruct (d !! region) as [isos|]; rewrite lookup_insert_eq;
      [destruct isos|]; discriminate.
  - destruct (d !! reg) as [isos|];
      rewrite lookup_insert_ne by exact Hne; apply Hd.
Qed.

Lemma fold_add_country (l : list (string * string))
    (d : gmap string (list string)) :
  (forall region, d !! region <> Some []) ->
  forall region,
    fold_left Tables.add_country l d !! region <> Some [] /\
    default [] (fold_left Tables.add_country l d !! region)
    = default [] (d !! region) ++ Tables.isos_of region l.
Proof.
  revert d. induction l as [|row l IH]; intros d Hd region.
  - cbn [fold_left]. split; [apply Hd|].
    unfold Tables.isos_of. cbn. rewrite app_nil_r. reflexivity.
  - cbn [fold_left].
    destruct (IH _ (add_country_no_empty_list d row Hd) region) as [H1 H2].
    split; [exact H1|].
    rewrite (isos_of_cons region row l), H2, add_country_lookup, app_assoc.
    reflexivity.
Qed.

(** X25. When every line of the mapping file after the first has at least
    two semicolons, [get_REMIND_geomatcher] builds its dict of regions
    without an error.  The first line is not read as data.  The dict gives
    for a region the codes of the second column of the lines whose third
    column is the region, in the order of the file, the five codes left out
    excepted; a region with no such code is no key of the dict. *)
Theorem region_mapping_lists_codes_in_order
    (strip : string -> string) (lines : list string) :
  Forall (fun line => 2 <= Tables.count Tables.semicolon line)
         (tail lines) ->
  exists d l,
    Tables.rmnd_to_iso strip lines = Return d /\
    mapR Tables.columns (Tables.csv_list strip lines) = Return l /\
    forall region,
      d !! region = match Tables.isos_of region l with
                    | [] => None
                    | isos => Some isos
                    end.
Proof.
  intros Hlines.
  destruct (mapR_columns_Return (Tables.csv_list strip lines)) as [l Hl].
  { unfold Tables.csv_list. apply List.Forall_forall. intros x Hx.
    apply in_map_iff in Hx. destruct Hx as [r [<- Hr]].
    rewrite length_csv_fields.
    rewrite List.Forall_forall in Hlines. specialize (Hlines r Hr). lia. }
  exists (fold_left Tables.add_country l ∅), l.
  split; [unfold Tables.rmnd_to_iso; rewrite Hl; reflexivity|].
  split; [exact Hl|]. intros region.
  destruct (fold_add_country l ∅) with (region := region) as [H1 H2].
  { intros r. rewrite lookup_empty. discriminate. }
  rewrite lookup_empty in H2. cbn [default app] in H2.
  destruct (fold_left Tables.add_country l ∅ !! region) as [isos|];
    cbn [default] in H2; rewrite <- H2; [|reflexivity].
  destruct isos; [contradiction H1|]; reflexivity.
Qed.

Lemma region_mapping_lists_codes_in_order_witness :
  exists d l,
    Tables.rmnd_to_iso (fun s => s) Tables.mapping_lines = Return d /\
    mapR Tables.columns (Tables.csv_list (fun s => s) Tables.mapping_lines)
    = Return l /\
    forall region,
      d !! region = match Tables.isos_of region l with
                    | [] => None
                    | isos => Some isos
                    end.
Proof.
  apply (region_mapping_lists_codes_in_order (fun s => s)
           Tables.mapping_lines).
  vm_compute. repeat constructor.
Defined.

(** X26. A line of the mapping file after the first with fewer than two
    semicolons, such as an empty line, has no third column:
    [get_REMIND_geomatcher] raises [IndexError]. *)
Theorem short_mapping_line_raises
    (strip : string -> string) (lines : list string) :
  Exists (fun line => Tables.count Tables.semicolon line < 2)
         (tail lines) ->
  Tables.rmnd_to_iso strip lines = Raise IndexError.
Proof.
  intros Hlines. unfold Tables.rmnd_to_iso.
  rewrite mapR_columns_Raise; [reflexivity|].
  unfold Tables.csv_list. apply List.Exists_exists.
  apply List.Exists_exists in Hlines. destruct Hlines as [r [Hr Hlt]].
  exists (map strip (Tables.split Tables.semicolon r)). split.
  - apply in_map_iff. exists r. split; [reflexivity | exact Hr].
  - rewrite length_csv_fields. lia.
Qed.

Lemma short_mapping_line_raises_witness :
  Tables.rmnd_to_iso (fun s => s) Tables.short_mapping_lines
  = Raise IndexError.
Proof.
  apply (short_mapping_line_raises (fun s => s)
           Tables.short_mapping_lines).
  apply Exists_cons_tl. apply Exists_cons_hd. vm_compute. lia.
Defined.

Lemma dict_of_rows_snoc (rows : list (list string)) (row : list string) :
  Tables.dict_of_rows (rows ++ [row])
  = match row with
    | [] => Tables.dict_of_rows rows
    | [k; v] => d <~ Tables.dict_of_rows rows ;; Return (<[k := v]> d)
    | _ => d <~ Tables.dict_of_rows rows ;; Raise ValueError
    end.
Proof.
  unfold Tables.dict_of_rows. rewrite List.filter_app, fold_left_app.
  destruct row as [|k [|v [|w row]]]; reflexivity.
Qed.

Lemma last_value_snoc (key : string) (rows : list (list string))
    (row : list string) :
  Tables.last_value key (rows ++ [row])
  = match row with
    | [k; v] => if Str.eqb k key then Some v
                else Tables.last_value key rows
    | _ => Tables.last_value key rows
    end.
Proof.
  unfold Tables.last_value. rewrite rev_app_distr. cbn [rev app List.filter].
  destruct row as [|k [|v [|w row]]]; try reflexivity.
  destruct (Str.eqb k key); reflexivity.
Qed.

Lemma dict_of_rows_lookup (rows : list (list string)) :
  Forall (fun row => length row = 0 \/ length row = 2) rows ->
  exists d, Tables.dict_of_rows rows = Return d /\
            forall k, d !! k = Tables.last_value k rows.
Proof.
  induction rows as [|row rows IH] using rev_ind; intros H.
  - exists ∅. split; [reflexivity|]. intros k. apply lookup_empty.
  - apply Forall_app in H. destruct H as [Hrows Hrow].
    destruct (IH Hrows) as [d [Hd Hk]].
    inversion Hrow as [|? ? Hlen _]; subst.
    rewrite dict_of_rows_snoc, Hd.
    destruct row as [|k [|v [|w row]]]; cbn in Hlen; try lia.
    + exists d. split; [reflexivity|]. intros key.
      rewrite last_value_snoc. apply Hk.
    + exists (<[k := v]> d). split; [reflexivity|]. intros key.
      rewrite last_value_snoc. destruct (Str.eqb k key) eqn:E.
      * apply Str_eqb_eq in E. subst. apply lookup_insert_eq.
      * apply Str_eqb_neq in E. rewrite lookup_insert_ne by exact E.
        apply Hk.
Qed.

Lemma dict_of_rows_raises_ValueError (rows : list (list string)) (e : exn) :
  Tables.dict_of_rows rows = Raise e -> e = ValueError.
Proof.
  revert e. induction rows as [|row rows IH] using rev_ind; intros e H;
    [discriminate H|].
  rewrite dict_of_rows_snoc in H.
  destruct (Tables.dict_of_rows rows) as [d|e'].
  - destruct row as [|k [|v [|w row]]]; cbn in H; congruence.
  - specialize (IH e' eq_refl). subst e'.
    destruct row as [|k [|v [|w row]]]; cbn in H; congruence.
Qed.

Lemma dict_of_rows_Raise (rows : list (list string)) :
  Exists (fun row => length row <> 0 /\ length row <> 2) rows ->
  Tables.dict_of_rows rows = Raise ValueError.
Proof.
  induction rows as [|row rows IH] using rev_ind; intros H.
  - inversion H.
  - rewrite dict_of_rows_snoc. apply Exists_app in H.
    destruct H as [H | H].
    + rewrite (IH H). destruct row as [|k [|v [|w row]]]; reflexivity.
    + inversion H as [? ? [H0 H2] | ? ? Hnil]; subst; [|inversion Hnil].
      destruct (Tables.dict_of_rows rows) as [d|e] eqn:E.
      * destruct row as [|k [|v [|w row]]]; cbn in H0, H2;
          try lia; reflexivity.
      * apply dict_of_rows_raises_ValueError in E. subst e.
        destruct row as [|k [|v [|w row]]]; cbn in H0, H2;
          try lia; reflexivity.
Qed.

(** X27. [get_population_dict] and [get_lower_heating_values] read the same
    way: when every row of the file is empty or has two fields, the table
    has for a key the second field of the last row that starts with it.
    The empty rows are skipped; the first row is no header: it is an entry
    like the others. *)
Theorem tables_keep_the_last_row (rows : list (list string)) :
  Forall (fun row => length row = 0 \/ length row = 2) rows ->
  exists d,
    Tables.get_population_dict (Some rows) = Tables.Loaded d /\
    Tables.get_lower_heating_values (Some rows) = Tables.Loaded d /\
    forall k, d !! k = Tables.last_value k rows.
Proof.
  intros H. destruct (dict_of_rows_lookup rows H) as [d [Hd Hk]].
  exists d. unfold Tables.get_population_dict,
    Tables.get_lower_heating_values. rewrite Hd. auto.
Qed.

Lemma tables_keep_the_last_row_witness :
  exists d,
    Tables.get_population_dict (Some Tables.population_rows)
    = Tables.Loaded d /\
    Tables.get_lower_heating_values (Some Tables.population_rows)
    = Tables.Loaded d /\
    (forall k, d !! k = Tables.last_value k Tables.population_rows) /\
    d !! "DE" = Some "83100000" /\
    d !! "country" = Some "population".
Proof.
  destruct (tables_keep_the_last_row Tables.population_rows)
    as [d [H1 [H2 H3]]].
  - repeat (apply List.Forall_cons; [cbn; auto|]). apply List.Forall_nil.
  - exists d. repeat split; try assumption; rewrite H3; reflexivity.
Defined.

(** X28. A row of one field, or of more than two, is refused when the
    table is built: both loaders raise [ValueError], wherever the row is in
    the file. *)
Theorem tables_refuse_other_rows (rows : list (list string)) :
  Exists (fun row => length row <> 0 /\ length row <> 2) rows ->
  Tables.get_population_dict (Some rows) = Tables.Failed ValueError /\
  Tables.get_lower_heating_values (Some rows) = Tables.Failed ValueError.
Proof.
  intros H. unfold Tables.get_population_dict,
    Tables.get_lower_heating_values.
  rewrite (dict_of_rows_Raise rows H). split; reflexivity.
Qed.

Lemma tables_refuse_other_rows_witness :
  Tables.get_population_dict (Some Tables.long_population_rows)
  = Tables.Failed ValueError /\
  Tables.get_lower_heating_values (Some Tables.long_population_rows)
  = Tables.Failed ValueError.
Proof.
  apply (tables_refuse_other_rows Tables.long_population_rows).
  apply Exists_cons_tl. apply Exists_cons_hd. cbn. split; lia.
Defined.
